(** * Get_JIRA_comment_data.py: retrieval, normalization and row expansion

    A shallow embedding of the pipeline of [Get_JIRA_comment_data.py]:
    [safe_get], [convert_time], the two pagination loops
    ([fetch_via_library], [fetch_via_api]), [process_issues],
    [format_dataframe] and the summary printed by [main]; then the
    prompts that read the configuration, the export loop of [main] and
    [generate_txt].

    Python values are the values the [json] module produces; Python
    exceptions are results of an error monad; the [while True] loops of the
    fetchers run on fuel, so that non-termination is the absence of any
    sufficient fuel. *)

From Stdlib Require Import String Ascii ZArith NArith Bool Lia List.
From Stdlib Require Import Floats.SpecFloat.
From Stdlib Require Import DecimalString.
Import ListNotations.

Local Open Scope Z_scope.

Set Warnings "-register-all".

(* ================================================================== *)
(** ** Python strings *)

(** A Python [str] is a sequence of Unicode code points; slicing and
    [split] count code points, not bytes. *)
Definition pystr : Type := list N.

(** Source literals are written as Rocq strings holding UTF-8 and decoded
    to code points. *)
Fixpoint utf8_decode (bs : list N) : pystr :=
  match bs with
  | [] => []
  | b :: rest =>
      if (b <? 128)%N then b :: utf8_decode rest
      else if (b <? 224)%N then
        match rest with
        | b1 :: rest1 => ((b - 192) * 64 + (b1 - 128))%N :: utf8_decode rest1
        | _ => []
        end
      else if (b <? 240)%N then
        match rest with
        | b1 :: b2 :: rest2 =>
            ((b - 224) * 4096 + (b1 - 128) * 64 + (b2 - 128))%N
              :: utf8_decode rest2
        | _ => []
        end
      else
        match rest with
        | b1 :: b2 :: b3 :: rest3 =>
            ((b - 240) * 262144 + (b1 - 128) * 4096 + (b2 - 128) * 64
             + (b3 - 128))%N :: utf8_decode rest3
        | _ => []
        end
  end.

Definition u (s : string) : pystr :=
  utf8_decode (map N_of_ascii (list_ascii_of_string s)).

Definition str_eqb (a b : pystr) : bool :=
  if list_eq_dec N.eq_dec a b then true else false.

(** [s.split(sep)] for a one-character separator: never the empty list. *)
Fixpoint split_on (sep : N) (s : pystr) : list pystr :=
  match s with
  | [] => [[]]
  | c :: s' =>
      if (c =? sep)%N then [] :: split_on sep s'
      else match split_on sep s' with
           | h :: t => (c :: h) :: t
           | [] => [[c]]
           end
  end.

(** Python slice [s[lo:hi]] for non-negative bounds, on any sequence. *)
Definition slice {A : Type} (lo hi : nat) (s : list A) : list A :=
  firstn (hi - lo) (skipn lo s).

(* ================================================================== *)
(** ** Python values and exceptions *)

(** The values [json] decoding yields.  A dict is an association list in
    insertion order with distinct keys; lookup takes the first binding. *)
Inductive value : Type :=
| VNone
| VBool (b : bool)
| VInt (n : Z)
| VFloat (f : spec_float)
| VStr (s : pystr)
| VList (l : list value)
| VDict (d : list (pystr * value)).

(** The exceptions that occur.  [SystemExit] is what [sys.exit(code)]
    raises: it is a [BaseException] but not an [Exception]. *)
Inductive exn : Type :=
| AttributeError
| TypeError
| ValueError
| KeyError
| SourceError (msg : pystr)
| SystemExit (code : Z).

Definition is_Exception (e : exn) : bool :=
  match e with
  | SystemExit _ => false
  | _ => true
  end.

(** Result of a computation that may raise. *)
Inductive exc (A : Type) : Type :=
| Ok (a : A)
| Raise (e : exn).
Arguments Ok {A} a.
Arguments Raise {A} e.

Definition bind {A B : Type} (m : exc A) (k : A -> exc B) : exc B :=
  match m with
  | Ok a => k a
  | Raise e => Raise e
  end.

(** [try: m  except: h]: the bare handler catches every exception. *)
Definition try_except {A : Type} (m : exc A) (h : exn -> exc A) : exc A :=
  match m with
  | Ok a => Ok a
  | Raise e => h e
  end.

(** [try: m  except Exception as e: h e]: [SystemExit] passes through. *)
Definition try_except_Exception {A : Type} (m : exc A) (h : exn -> exc A)
  : exc A :=
  match m with
  | Ok a => Ok a
  | Raise e => if is_Exception e then h e else Raise e
  end.

Definition sys_exit {A : Type} (code : Z) : exc A := Raise (SystemExit code).

Notation "x <- m ;; k" := (bind m (fun x => k))
  (at level 61, m at next level, right associativity).

(** *** Numbers: [bool] is an [int]; ints and floats compare exactly. *)
Inductive num : Type :=
| NInt (n : Z)
| NFloat (f : spec_float).

Definition as_num (v : value) : option num :=
  match v with
  | VBool b => Some (NInt (if b then 1 else 0))
  | VInt n => Some (NInt n)
  | VFloat f => Some (NFloat f)
  | _ => None
  end.

Definition float_compare_int (f : spec_float) (n : Z) : option comparison :=
  match f with
  | S754_nan => None
  | S754_zero _ => Some (0 ?= n)
  | S754_infinity s => Some (if s then Lt else Gt)
  | S754_finite s m e =>
      let v := if s then Z.neg m else Z.pos m in
      Some (if 0 <=? e then v * 2 ^ e ?= n else v ?= n * 2 ^ (- e))
  end.

Definition num_compare (a b : num) : option comparison :=
  match a, b with
  | NInt x, NInt y => Some (x ?= y)
  | NFloat f, NInt y => float_compare_int f y
  | NInt x, NFloat g => option_map CompOpp (float_compare_int g x)
  | NFloat f, NFloat g => SFcompare f g
  end.

Fixpoint lookup (key : pystr) (d : list (pystr * value)) : option value :=
  match d with
  | [] => None
  | (k, v) :: d' => if str_eqb k key then Some v else lookup key d'
  end.

(** [a == b]. *)
Fixpoint py_eq (a b : value) : bool :=
  match a, b with
  | VNone, VNone => true
  | VStr s, VStr t => str_eqb s t
  | VList l, VList m =>
      (fix all2 (l : list value) (m : list value) : bool :=
         match l, m with
         | [], [] => true
         | x :: l', y :: m' => py_eq x y && all2 l' m'
         | _, _ => false
         end) l m
  | VDict d, VDict e =>
      (length d =? length e)%nat
      && (fix sub (d : list (pystr * value)) : bool :=
            match d with
            | [] => true
            | (k, v) :: d' =>
                match lookup k e with
                | Some w => py_eq v w && sub d'
                | None => false
                end
            end) d
  | VBool x, (VBool _ | VInt _ | VFloat _)
  | VInt x, (VBool _ | VInt _ | VFloat _)
  | VFloat x, (VBool _ | VInt _ | VFloat _) =>
      match as_num a, as_num b with
      | Some p, Some q =>
          match num_compare p q with Some Eq => true | _ => false end
      | _, _ => false
      end
  | _, _ => false
  end.

(** [x in xs] on a list. *)
Definition py_in (x : value) (xs : list value) : bool :=
  existsb (py_eq x) xs.

(** Truth value of [if x]. *)
Definition truthy (v : value) : bool :=
  match v with
  | VNone => false
  | VBool b => b
  | VInt n => negb (n =? 0)
  | VFloat f => match f with S754_zero _ => false | _ => true end
  | VStr s => match s with [] => false | _ => true end
  | VList l => match l with [] => false | _ => true end
  | VDict d => match d with [] => false | _ => true end
  end.

Definition isinstance_dict (v : value) : bool :=
  match v with VDict _ => true | _ => false end.

Definition isinstance_list (v : value) : bool :=
  match v with VList _ => true | _ => false end.

(** [data.get(key, default)]: only a dict has the method. *)
Definition py_get (data : value) (key : pystr) (default : value) : exc value :=
  match data with
  | VDict d => Ok (match lookup key d with Some v => v | None => default end)
  | _ => Raise AttributeError
  end.

(** [x[lo:hi]]: strings and lists slice; anything else raises. *)
Definition py_slice (x : value) (lo hi : nat) : exc value :=
  match x with
  | VStr s => Ok (VStr (slice lo hi s))
  | VList l => Ok (VList (slice lo hi l))
  | _ => Raise TypeError
  end.

(* ================================================================== *)
(** ** safe_get *)

(** The default of [safe_get]: the string "field content is empty". *)
Definition sentinel : pystr := Eval vm_compute in u "字段内容为空".

Definition dot : N := 46.

(** The expression of the final [return]:
    [data if data not in [None, ""] else default]. *)
Definition or_default (data default : value) : value :=
  if negb (py_in data [VNone; VStr []]) then data else default.

(** The [for key in keys.split('.')] loop, followed by the final return;
    [return default] leaves the function, [break] leaves the loop. *)
Fixpoint safe_get_loop (data : value) (keys : list pystr) (default : value)
  : exc value :=
  match keys with
  | [] => Ok (or_default data default)
  | key :: rest =>
      if isinstance_dict data then
        data' <- py_get data key default ;;
        if py_eq data' default then Ok (or_default data' default)
        else safe_get_loop data' rest default
      else Ok default
  end.

Definition safe_get_with (data : value) (keys : pystr) (default : value)
  : exc value :=
  safe_get_loop data (split_on dot keys) default.

Definition safe_get (data : value) (keys : pystr) : exc value :=
  safe_get_with data keys (VStr sentinel).

(* ================================================================== *)
(** ** convert_time

    [datetime.strptime(jira_time, "%Y-%m-%dT%H:%M:%S.%f%z")] followed by
    [strftime("%Y-%m-%d %H:%M:%S")], inside [try ... except: return
    jira_time].

    [strptime] is modelled as CPython (3.7 to 3.12) implements it: the format
    is turned into a regular expression, matched with [re.match] (ordered
    alternation, greedy repetition, backtracking), the whole input must be
    consumed, and the captured groups are converted and validated by the
    [date], [timezone] and [datetime] constructors.  [\d] and [int] accept
    every decimal digit of Unicode; [strftime] prints the year as the C
    library of the platform does, without zero-filling it. *)

(** The zeros of the runs of ten decimal digits (category Nd) of Unicode
    14.0, the version of CPython 3.11: the digit of value [i] of a run is
    its zero plus [i]. *)
Definition decimal_zeros : list N :=
  [48; 1632; 1776; 1984; 2406; 2534; 2662; 2790; 2918; 3046; 3174; 3302;
   3430; 3558; 3664; 3792; 3872; 4160; 4240; 6112; 6160; 6470; 6608; 6784;
   6800; 6992; 7088; 7232; 7248; 42528; 43216; 43264; 43472; 43504; 43600;
   44016; 65296; 66720; 68912; 69734; 69872; 69942; 70096; 70384; 70736;
   70864; 71248; 71360; 71472; 71904; 72016; 72784; 73040; 73120; 92768;
   92864; 93008; 120782; 120792; 120802; 120812; 120822; 123200; 123632;
   125264; 130032]%N.

(** The zero of the run of [c], when [c] is a decimal digit. *)
Definition decimal_zero (c : N) : option N :=
  find (fun z => (z <=? c)%N && (c <=? z + 9)%N) decimal_zeros.

(** [c.isdecimal()], and the value [int(c)] of a decimal digit. *)
Definition is_decimal (c : N) : bool :=
  match decimal_zero c with
  | Some _ => true
  | None => false
  end.

Definition decimal_value (c : N) : Z :=
  match decimal_zero c with
  | Some z => Z.of_N c - Z.of_N z
  | None => 0
  end.

Inductive group : Type := GY | Gm | Gd | GH | GM | GS | Gf | Gz.

Definition group_eqb (a b : group) : bool :=
  match a, b with
  | GY, GY | Gm, Gm | Gd, Gd | GH, GH | GM, GM | GS, GS | Gf, Gf | Gz, Gz =>
      true
  | _, _ => false
  end.

Inductive regex : Type :=
| RChar (p : N -> bool)
| REps
| RSeq (r1 r2 : regex)
| RAlt (r1 r2 : regex)
| RGroup (g : group) (r : regex).

(** [found.groupdict()]. *)
Definition captures : Type := group -> option pystr.

Definition no_captures : captures := fun _ => None.

Definition capture (g : group) (s : pystr) (env : captures) : captures :=
  fun g' => if group_eqb g g' then Some s else env g'.

(** The part of [s] consumed when [s'] is what remains of it. *)
Definition consumed (s s' : pystr) : pystr :=
  firstn (List.length s - List.length s') s.

(** Backtracking matcher: [k] is the rest of the pattern; the first
    alternative whose continuation succeeds wins. *)
Fixpoint rmatch {A : Type} (r : regex) (s : pystr) (env : captures)
  (k : pystr -> captures -> option A) : option A :=
  match r with
  | RChar p =>
      match s with
      | c :: s' => if p c then k s' env else None
      | [] => None
      end
  | REps => k s env
  | RSeq r1 r2 => rmatch r1 s env (fun s' env' => rmatch r2 s' env' k)
  | RAlt r1 r2 =>
      match rmatch r1 s env k with
      | Some a => Some a
      | None => rmatch r2 s env k
      end
  | RGroup g r' =>
      rmatch r' s env (fun s' env' => k s' (capture g (consumed s s') env'))
  end.

(** [re.match]: the text left over after the first match, and its groups. *)
Definition re_match (r : regex) (s : pystr) : option (pystr * captures) :=
  rmatch r s no_captures (fun s' env => Some (s', env)).

Module Re.
Definition code (c : ascii) : N := N_of_ascii c.

(** A literal character, matched exactly. *)
Definition lit (c : ascii) : regex := RChar (N.eqb (code c)).

(** A letter under [re.IGNORECASE]. *)
Definition lit_i (lower upper : ascii) : regex :=
  RChar (fun x => N.eqb (code lower) x || N.eqb (code upper) x).

(** [[lo-hi]]. *)
Definition rng (lo hi : ascii) : regex :=
  RChar (fun x => N.leb (code lo) x && N.leb x (code hi)).

(** [\d]. *)
Definition digit : regex := RChar is_decimal.

Definition opt (r : regex) : regex := RAlt r REps.

(** [r{1,6}], greedy. *)
Definition rep_1_6 (r : regex) : regex :=
  RSeq r (opt (RSeq r (opt (RSeq r (opt (RSeq r (opt (RSeq r (opt r))))))))).

Declare Scope regex_scope.
Delimit Scope regex_scope with re.
Infix "~" := RSeq (at level 31, right associativity) : regex_scope.
Infix "||" := RAlt (at level 50, left associativity) : regex_scope.
Local Open Scope regex_scope.

(** [(?P<Y>\d\d\d\d)] *)
Definition dir_Y : regex := RGroup GY (digit ~ digit ~ digit ~ digit).
(** [(?P<m>1[0-2]|0[1-9]|[1-9])] *)
Definition dir_m : regex :=
  RGroup Gm (lit "1" ~ rng "0" "2" || lit "0" ~ rng "1" "9" || rng "1" "9").
(** [(?P<d>3[0-1]|[1-2]\d|0[1-9]|[1-9]| [1-9])] *)
Definition dir_d : regex :=
  RGroup Gd (lit "3" ~ rng "0" "1" || rng "1" "2" ~ digit
             || lit "0" ~ rng "1" "9" || rng "1" "9"
             || lit " " ~ rng "1" "9").
(** [(?P<H>2[0-3]|[0-1]\d|\d)] *)
Definition dir_H : regex :=
  RGroup GH (lit "2" ~ rng "0" "3" || rng "0" "1" ~ digit || digit).
(** [(?P<M>[0-5]\d|\d)] *)
Definition dir_M : regex := RGroup GM (rng "0" "5" ~ digit || digit).
(** [(?P<S>6[0-1]|[0-5]\d|\d)] *)
Definition dir_S : regex :=
  RGroup GS (lit "6" ~ rng "0" "1" || rng "0" "5" ~ digit || digit).
(** [(?P<f>[0-9]{1,6})] *)
Definition dir_f : regex := RGroup Gf (rep_1_6 (rng "0" "9")).
(** [(?P<z>[+-]\d\d:?[0-5]\d(:?[0-5]\d(\.\d{1,6})?)?|(?-i:Z))] *)
Definition dir_z : regex :=
  RGroup Gz
    ((lit "+" || lit "-") ~ digit ~ digit ~ opt (lit ":")
       ~ rng "0" "5" ~ digit
       ~ opt (opt (lit ":") ~ rng "0" "5" ~ digit
                ~ opt (lit "." ~ rep_1_6 digit))
     || lit "Z").

(** The pattern of ["%Y-%m-%dT%H:%M:%S.%f%z"]. *)
Definition jira_format : regex :=
  dir_Y ~ lit "-" ~ dir_m ~ lit "-" ~ dir_d ~ lit_i "t" "T"
    ~ dir_H ~ lit ":" ~ dir_M ~ lit ":" ~ dir_S ~ lit "." ~ dir_f ~ dir_z.
End Re.

(** [int(s)] on the text of a group or of a slice of one: blanks are
    stripped, then decimal digits are required (no sign occurs there). *)
Definition is_digit (c : N) : bool := is_decimal c.

Fixpoint lstrip (s : pystr) : pystr :=
  match s with
  | c :: s' => if (c =? 32)%N then lstrip s' else s
  | [] => []
  end.

Definition digits_value (s : pystr) : Z :=
  fold_left (fun acc c => 10 * acc + decimal_value c) s 0.

Definition py_int (s : pystr) : exc Z :=
  match lstrip s with
  | [] => Raise ValueError
  | t => if forallb is_digit t then Ok (digits_value t) else Raise ValueError
  end.

Record datetime : Type := mk_datetime {
  year : Z; month : Z; day : Z;
  hour : Z; minute : Z; second : Z; microsecond : Z;
  utcoffset_us : Z
}.

Definition is_leap (y : Z) : bool :=
  ((y mod 4 =? 0) && negb (y mod 100 =? 0)) || (y mod 400 =? 0).

Definition days_in_month (y m : Z) : Z :=
  if m =? 2 then (if is_leap y then 29 else 28)
  else if (m =? 4) || (m =? 6) || (m =? 9) || (m =? 11) then 30
  else 31.

(** [datetime.date(y, m, d)] accepts exactly the dates of the calendar. *)
Definition check_date (y m d : Z) : exc unit :=
  if (1 <=? y) && (y <=? 9999) && (1 <=? m) && (m <=? 12)
     && (1 <=? d) && (d <=? days_in_month y m)
  then Ok tt else Raise ValueError.

(** [datetime.timezone(timedelta)]: strictly between -24h and +24h. *)
Definition check_offset (us : Z) : exc unit :=
  if (- 86400000000 <? us) && (us <? 86400000000)
  then Ok tt else Raise ValueError.

(** The time fields the [datetime] constructor checks. *)
Definition check_time (h mi s us : Z) : exc unit :=
  if (0 <=? h) && (h <=? 23) && (0 <=? mi) && (mi <=? 59)
     && (0 <=? s) && (s <=? 59) && (0 <=? us) && (us <=? 999999)
  then Ok tt else Raise ValueError.

Definition group_text (env : captures) (g : group) : exc pystr :=
  match env g with
  | Some s => Ok s
  | None => Raise KeyError
  end.

(** [s + "0" * (6 - len(s))]. *)
Definition pad6 (s : pystr) : pystr :=
  s ++ repeat 48%N (6 - List.length s).

Definition colon : N := 58.

(** The [%z] branch of [_strptime]: offset from UTC in microseconds. *)
Definition parse_offset (z : pystr) : exc Z :=
  if str_eqb z (u "Z") then Ok 0
  else
    z1 <- (if (nth 3 z 0 =? colon)%N then
             let z' := slice 0 3 z ++ skipn 4 z in
             if (5 <? List.length z')%nat then
               if negb (nth 5 z' 0 =? colon)%N then Raise ValueError
               else Ok (slice 0 5 z' ++ skipn 6 z')
             else Ok z'
           else Ok z) ;;
    hours <- py_int (slice 1 3 z1) ;;
    minutes <- py_int (slice 3 5 z1) ;;
    seconds <- (match slice 5 7 z1 with
                | [] => Ok 0
                | t => py_int t
                end) ;;
    fraction <- py_int (pad6 (skipn 8 z1)) ;;
    let gmtoff := (hours * 60 * 60 + minutes * 60 + seconds) * 1000000
                  + fraction in
    Ok (if (nth 0 z1 0 =? 45)%N then - gmtoff else gmtoff).

Definition strptime (data_string : value) : exc datetime :=
  match data_string with
  | VStr s =>
      match re_match Re.jira_format s with
      | None => Raise ValueError
      | Some (_ :: _, _) => Raise ValueError
      | Some ([], found) =>
          tY <- group_text found GY ;; y <- py_int tY ;;
          tm <- group_text found Gm ;; m <- py_int tm ;;
          td <- group_text found Gd ;; d <- py_int td ;;
          tH <- group_text found GH ;; h <- py_int tH ;;
          tM <- group_text found GM ;; mi <- py_int tM ;;
          tS <- group_text found GS ;; sec <- py_int tS ;;
          tf <- group_text found Gf ;; fraction <- py_int (pad6 tf) ;;
          tz <- group_text found Gz ;; off <- parse_offset tz ;;
          _ <- check_date y m d ;;
          _ <- check_offset off ;;
          _ <- check_time h mi sec fraction ;;
          Ok (mk_datetime y m d h mi sec fraction off)
      end
  | _ => Raise TypeError
  end.

(** Decimal digits of fixed width, as [%02d] prints them. *)
Definition digit_char (n : Z) : N := Z.to_N (48 + n mod 10).

Definition fmt2 (n : Z) : pystr := [digit_char (n / 10); digit_char n].

Definition fmt4 (n : Z) : pystr :=
  [digit_char (n / 1000); digit_char (n / 100); digit_char (n / 10);
   digit_char n].

(** [%Y]: the year in decimal, with as many digits as it has. *)
Definition fmt_year (y : Z) : pystr :=
  if y <? 10 then [digit_char y]
  else if y <? 100 then fmt2 y
  else if y <? 1000 then
    [digit_char (y / 100); digit_char (y / 10); digit_char y]
  else fmt4 y.

(** [dt.strftime("%Y-%m-%d %H:%M:%S")]: the wall-clock fields; the offset
    is not printed. *)
Definition strftime (dt : datetime) : pystr :=
  fmt_year (year dt) ++ u "-" ++ fmt2 (month dt) ++ u "-" ++ fmt2 (day dt)
    ++ u " " ++ fmt2 (hour dt) ++ u ":" ++ fmt2 (minute dt) ++ u ":"
    ++ fmt2 (second dt).

Definition convert_time (jira_time : value) : exc value :=
  try_except
    (dt <- strptime jira_time ;; Ok (VStr (strftime dt)))
    (fun _ => Ok jira_time).

(* ================================================================== *)
(** ** process_issues *)

(** One element of [comment_data]. *)
Module Comment.
Record t : Type := mk {
  body : value;
  author : value;
  created : value
}.
End Comment.

(** One element of [processed]: the keys of [base] and [comment_data]. *)
Module Issue.
Record t : Type := mk {
  key : value;
  type : value;
  Summary : value;
  created : value;
  status : value;
  resolution : value;
  environment : value;
  description : value;
  comments : value;
  created_year : value;
  created_month : value;
  comment_data : list Comment.t
}.
End Issue.

(** The dict built for one comment. *)
Definition comment_dict (comment : value) : exc Comment.t :=
  body <- safe_get comment (u "body") ;;
  author <- safe_get comment (u "author.displayName") ;;
  created0 <- safe_get comment (u "created") ;;
  created <- convert_time created0 ;;
  Ok (Comment.mk body author created).

(** [for comment in base['comments']: ... comment_list.append(...)]. *)
Fixpoint comment_loop (comments : list value) (comment_list : list Comment.t)
  : exc (list Comment.t) :=
  match comments with
  | [] => Ok comment_list
  | comment :: rest =>
      comment_data <- comment_dict comment ;;
      comment_loop rest (comment_list ++ [comment_data])
  end.

(** The body of the [try] of [process_issues], for one raw issue. *)
Definition process_issue (issue : value) : exc Issue.t :=
  fields <- py_get issue (u "fields") (VDict []) ;;
  key <- safe_get issue (u "key") ;;
  type <- safe_get fields (u "issuetype.name") ;;
  Summary <- safe_get fields (u "summary") ;;
  created0 <- safe_get fields (u "created") ;;
  created <- convert_time created0 ;;
  status <- safe_get fields (u "status.name") ;;
  resolution <- safe_get fields (u "resolution.name") ;;
  environment <- safe_get fields (u "environment") ;;
  description <- safe_get fields (u "description") ;;
  comments <- safe_get_with fields (u "comment.comments") (VList []) ;;
  ym <- (if negb (py_eq created (VStr sentinel)) then
           y <- py_slice created 0 4 ;;
           m <- py_slice created 5 7 ;;
           Ok (y, m)
         else Ok (VStr sentinel, VStr sentinel)) ;;
  comment_list <- (if truthy comments && isinstance_list comments then
                     match comments with
                     | VList l => comment_loop l []
                     | _ => Ok []
                     end
                   else Ok []) ;;
  Ok (Issue.mk key type Summary created status resolution environment
        description comments (fst ym) (snd ym) comment_list).

(** [for issue in issues: try: ... processed.append(...)
     except Exception as e: print(...); continue]; the second component is
    what was printed, one exception per failed issue. *)
Fixpoint process_loop (issues : list value) (processed : list Issue.t)
  (printed : list exn) : exc (list Issue.t * list exn) :=
  match issues with
  | [] => Ok (processed, printed)
  | issue :: rest =>
      st <- try_except_Exception
              (item <- process_issue issue ;;
               Ok (processed ++ [item], printed))
              (fun e => Ok (processed, printed ++ [e])) ;;
      process_loop rest (fst st) (snd st)
  end.

Definition process_issues (issues : list value)
  : exc (list Issue.t * list exn) :=
  process_loop issues [] [].

(* ================================================================== *)
(** ** format_dataframe *)

(** One row of the data frame: the keys of [base_row] and of the update. *)
Module Row.
Record t : Type := mk {
  key : value;
  type : value;
  Summary : value;
  created : value;
  created_year : value;
  created_month : value;
  status : value;
  resolution : value;
  environment : value;
  description : value;
  comment : value;
  comment_author : value;
  comment_created_time : value
}.
End Row.

(** The text put in the [comment] column of an issue without comments. *)
Definition no_comment : pystr := Eval vm_compute in u "该issue无comment".

(** [row = base_row.copy(); row.update({...})]. *)
Definition make_row (item : Issue.t) (comment author time : value) : Row.t :=
  Row.mk (Issue.key item) (Issue.type item) (Issue.Summary item)
    (Issue.created item) (Issue.created_year item) (Issue.created_month item)
    (Issue.status item) (Issue.resolution item) (Issue.environment item)
    (Issue.description item) comment author time.

(** [for comment in item['comment_data']: ... formatted.append(row)]. *)
Fixpoint comment_rows (item : Issue.t) (cs : list Comment.t)
  (formatted : list Row.t) : list Row.t :=
  match cs with
  | [] => formatted
  | comment :: rest =>
      comment_rows item rest
        (formatted ++ [make_row item (Comment.body comment)
                         (Comment.author comment) (Comment.created comment)])
  end.

Fixpoint format_loop (data : list Issue.t) (formatted : list Row.t)
  : list Row.t :=
  match data with
  | [] => formatted
  | item :: rest =>
      match Issue.comment_data item with
      | [] =>
          format_loop rest
            (formatted ++ [make_row item (VStr no_comment) (VStr [])
                             (VStr [])])
      | _ :: _ =>
          format_loop rest (comment_rows item (Issue.comment_data item) formatted)
      end
  end.

(** The rows of the returned [DataFrame], in order. *)
Definition format_dataframe (data : list Issue.t) : list Row.t :=
  format_loop data [].

(* ================================================================== *)
(** ** The fetch loops

    The progress bar ([tqdm], [pbar.update]) only observes the counts and
    is left out. *)

Definition len {A : Type} (l : list A) : Z := Z.of_nat (List.length l).

(** *** [while True] *)

(** How one turn of a [while True] body ends, when it does not raise. *)
Inductive control (St R : Type) : Type :=
| Break (r : R)
| Continue (st : St).
Arguments Break {St R} r.
Arguments Continue {St R} st.

Section WhileTrue.
Context {St R : Type}.
Variable body : St -> exc (control St R).

(** The loop on fuel: [None] when the fuel runs out before the loop
    is left. *)
Fixpoint while_true (fuel : nat) (st : St) : option (exc R) :=
  match fuel with
  | O => None
  | S fuel' =>
      match body st with
      | Raise e => Some (Raise e)
      | Ok (Break r) => Some (Ok r)
      | Ok (Continue st') => while_true fuel' st'
      end
  end.

(** The state at the start of turn [k], if the loop gets that far. *)
Fixpoint reach (k : nat) (st : St) : option St :=
  match k with
  | O => Some st
  | S k' =>
      match body st with
      | Ok (Continue st') => reach k' st'
      | _ => None
      end
  end.

(** The turn started in [st] leaves the loop. *)
Definition leaves (st : St) : Prop :=
  forall st', body st <> Ok (Continue st').
End WhileTrue.

(** A run ends when some amount of fuel is enough. *)
Definition terminates {A : Type} (run : nat -> option A) : Prop :=
  exists fuel a, run fuel = Some a.

(** The local variables of both loops, and the number of requests made
    so far. *)
Record fetch_state (A : Type) : Type := mk_state {
  calls : nat;
  all_issues : list A;
  start_at : Z
}.
Arguments mk_state {A} calls all_issues start_at.
Arguments calls {A} f.
Arguments all_issues {A} f.
Arguments start_at {A} f.

Definition initial {A : Type} : fetch_state A := mk_state 0 [] 0.

(** *** fetch_via_library *)

(** A [jira.Issue]: the program reads only its [raw] JSON. *)
Record jira_issue : Type := mk_issue { raw : value }.

(** The client library as the program uses it: the [JIRA(...)]
    constructor, and [search_issues(startAt, maxResults)].  The first
    argument of [search_issues] is the number of calls made before, so
    that a source may answer the same request differently over time. *)
Record library_source : Type := mk_library {
  connect : exc unit;
  search_issues : nat -> Z -> Z -> exc (list jira_issue)
}.

(** The body of the [while True] of [fetch_via_library]. *)
Definition library_body (src : library_source) (block_size : Z)
  (st : fetch_state jira_issue)
  : exc (control (fetch_state jira_issue) (list jira_issue)) :=
  issues <- search_issues src (calls st) (start_at st) block_size ;;
  let all_issues := all_issues st ++ issues in
  let start_at := start_at st + len issues in
  if len issues <? block_size then Ok (Break all_issues)
  else Ok (Continue (mk_state (S (calls st)) all_issues start_at)).

(** The function with its [block_size] as a parameter; every [Exception]
    of the [try] block ends in [sys.exit(1)]. *)
Definition fetch_via_library_with (block_size : Z) (fuel : nat)
  (src : library_source) : option (exc (list value)) :=
  match connect src with
  | Raise e => Some (try_except_Exception (Raise e) (fun _ => sys_exit 1))
  | Ok _ =>
      match while_true (library_body src block_size) fuel initial with
      | None => None
      | Some r =>
          Some (try_except_Exception
                  (all_issues <- r ;; Ok (map raw all_issues))
                  (fun _ => sys_exit 1))
      end
  end.

Definition fetch_via_library : nat -> library_source
                               -> option (exc (list value)) :=
  fetch_via_library_with 100.

(** *** fetch_via_api *)

(** What [requests.get] returns: [status_code], [text], and the outcome
    of [json()]. *)
Record response : Type := mk_response {
  status_code : Z;
  text : pystr;
  json : exc value
}.

(** The REST endpoint: call number, [startAt], [maxResults]; the request
    itself may raise (connection error, timeout). *)
Definition api_source : Type := nat -> Z -> Z -> exc response.

(** [all_issues.extend(x)]: lists, strings and dicts are iterable. *)
Definition py_extend (all_issues : list value) (x : value)
  : exc (list value) :=
  match x with
  | VList l => Ok (all_issues ++ l)
  | VStr s => Ok (all_issues ++ map (fun c => VStr [c]) s)
  | VDict d => Ok (all_issues ++ map (fun kv => VStr (fst kv)) d)
  | _ => Raise TypeError
  end.

(** [len(x)]. *)
Definition py_len (x : value) : exc Z :=
  match x with
  | VList l => Ok (len l)
  | VStr s => Ok (len s)
  | VDict d => Ok (len d)
  | _ => Raise TypeError
  end.

(** [n >= x] for an int [n]: only numbers are ordered with an int. *)
Definition py_ge (n : Z) (x : value) : exc bool :=
  match as_num x with
  | Some q =>
      Ok (match num_compare (NInt n) q with
          | Some Gt | Some Eq => true
          | _ => false
          end)
  | None => Raise TypeError
  end.

(** The body of the [while True] of [fetch_via_api]. *)
Definition api_body (src : api_source) (max_results : Z)
  (st : fetch_state value)
  : exc (control (fetch_state value) (list value)) :=
  response <- src (calls st) (start_at st) max_results ;;
  if negb (status_code response =? 200) then sys_exit 1
  else
    data <- json response ;;
    issues <- py_get data (u "issues") (VList []) ;;
    all_issues <- py_extend (all_issues st) issues ;;
    n <- py_len issues ;;
    let start_at := start_at st + n in
    total <- py_get data (u "total") (VInt 0) ;;
    stop <- py_ge start_at total ;;
    if stop then Ok (Break all_issues)
    else Ok (Continue (mk_state (S (calls st)) all_issues start_at)).

(** The loop inside [try ... except Exception: print; sys.exit(1)]. *)
Definition fetch_via_api_with (max_results : Z) (fuel : nat)
  (src : api_source) : option (exc (list value)) :=
  match while_true (api_body src max_results) fuel initial with
  | None => None
  | Some r => Some (try_except_Exception r (fun _ => sys_exit 1))
  end.

Definition fetch_via_api : nat -> api_source -> option (exc (list value)) :=
  fetch_via_api_with 100.

(* ================================================================== *)
(** ** main *)

(** The answer to "data fetch method": [a] the library, [b] the REST API. *)
Inductive fetch_method : Type := ViaLibrary | ViaApi.

(** The output formats [a], [b], [c]. *)
Inductive output_format : Type := Csv | Excel | Txt.

(** What a generator hands to its file writer. *)
Inductive artifact : Type :=
| Table (fmt : output_format) (rows : list Row.t)
| Text (items : list Issue.t).

Definition generate (fmt : output_format) (data : list Issue.t) : artifact :=
  match fmt with
  | Csv => Table Csv (format_dataframe data)
  | Excel => Table Excel (format_dataframe data)
  | Txt => Text data
  end.

(** The statistics printed last: the number after "处理Issue数" (issues
    processed) and the number after "生成数据行" (data rows generated),
    with the artifacts generated before. *)
Record summary : Type := mk_summary {
  issues_processed : Z;
  data_rows : Z;
  artifacts : list artifact
}.

Definition main (fuel : nat) (method : fetch_method) (lib : library_source)
  (api : api_source) (output_formats : list output_format)
  : option (exc summary) :=
  match (match method with
         | ViaLibrary => fetch_via_library fuel lib
         | ViaApi => fetch_via_api fuel api
         end) with
  | None => None
  | Some fetched =>
      Some (issues <- fetched ;;
            p <- process_issues issues ;;
            let processed_data := fst p in
            Ok (mk_summary (len issues) (len processed_data)
                  (map (fun fmt => generate fmt processed_data)
                     output_formats)))
  end.

(* ================================================================== *)
(** * Vocabulary of the properties

    Predicates and functions the statements below are written with,
    sample inputs, and sources to run the fetch loops against. *)

(** ** Values and fields *)

(** Neither [None] nor the empty string. *)
Definition filled (v : value) : Prop := v <> VNone /\ v <> VStr [].

Definition is_none_or_empty (v : value) : bool :=
  match v with
  | VNone => true
  | VStr [] => true
  | _ => false
  end.

(** ** safe_get *)

(** The value found by descending [keys] key by key through mappings, if
    every step finds a mapping that has the key. *)
Fixpoint descend (data : value) (keys : list pystr) : option value :=
  match keys with
  | [] => Some data
  | key :: rest =>
      match data with
      | VDict d =>
          match lookup key d with
          | Some v => descend v rest
          | None => None
          end
      | _ => None
      end
  end.

(** What the contract of the accessor promises for a path. *)
Definition deep_or_sentinel (data : value) (keys : list pystr) : value :=
  match descend data keys with
  | Some w => if is_none_or_empty w then VStr sentinel else w
  | None => VStr sentinel
  end.

(** ** convert_time *)

Definition is_ascii_digit (c : N) : bool := (48 <=? c)%N && (c <=? 57)%N.

(** The shape [YYYY-MM-DD HH:MM:SS]. *)
Definition is_canonical (s : pystr) : bool :=
  match s with
  | [y1; y2; y3; y4; a; m1; m2; b; d1; d2; sp; h1; h2; c1; n1; n2; c2;
     s1; s2] =>
      forallb is_ascii_digit
        [y1; y2; y3; y4; m1; m2; d1; d2; h1; h2; n1; n2; s1; s2]
      && (a =? 45)%N && (b =? 45)%N && (sp =? 32)%N
      && (c1 =? 58)%N && (c2 =? 58)%N
  | _ => false
  end.

(** The six numbers a canonical string shows. *)
Definition shown (s : pystr) : list (exc Z) :=
  [py_int (slice 0 4 s); py_int (slice 5 7 s); py_int (slice 8 10 s);
   py_int (slice 11 13 s); py_int (slice 14 16 s); py_int (slice 17 19 s)].

Definition wall_clock (dt : datetime) : list (exc Z) :=
  [Ok (year dt); Ok (month dt); Ok (day dt);
   Ok (hour dt); Ok (minute dt); Ok (second dt)].

(** ** Row expansion *)

(** The row of an issue without comments, and the row of one comment. *)
Definition placeholder_row (item : Issue.t) : Row.t :=
  make_row item (VStr no_comment) (VStr []) (VStr []).

Definition comment_row (item : Issue.t) (c : Comment.t) : Row.t :=
  make_row item (Comment.body c) (Comment.author c) (Comment.created c).

(** Row expansion of one issue: one placeholder row, or one row per
    comment in comment order. *)
Definition expand (item : Issue.t) : list Row.t :=
  match Issue.comment_data item with
  | [] => [placeholder_row item]
  | cs => map (comment_row item) cs
  end.

(** The ten columns a row copies from its issue. *)
Definition issue_scalars (item : Issue.t) : list value :=
  [Issue.key item; Issue.type item; Issue.Summary item; Issue.created item;
   Issue.created_year item; Issue.created_month item; Issue.status item;
   Issue.resolution item; Issue.environment item; Issue.description item].

Definition row_scalars (r : Row.t) : list value :=
  [Row.key r; Row.type r; Row.Summary r; Row.created r;
   Row.created_year r; Row.created_month r; Row.status r;
   Row.resolution r; Row.environment r; Row.description r].

(** The three comment columns of a row, and the fields of a comment. *)
Definition row_comment (r : Row.t) : value * value * value :=
  (Row.comment r, Row.comment_author r, Row.comment_created_time r).

Definition comment_fields (c : Comment.t) : value * value * value :=
  (Comment.body c, Comment.author c, Comment.created c).

Definition comment_count (item : Issue.t) : nat :=
  List.length (Issue.comment_data item).

(** ** Sample data *)

Definition str (s : string) : value := VStr (u s).

Definition field (k : string) (v : value) : pystr * value := (u k, v).

(** A comment and an issue as the tracker sends them. *)
Definition raw_comment (author body created : string) : value :=
  VDict [field "author" (VDict [field "displayName" (str author)]);
         field "body" (str body);
         field "created" (str created)].

Definition raw_issue (key : string) (created : value) (comments : list value)
  : value :=
  VDict [field "key" (str key);
         field "fields"
           (VDict [field "issuetype" (VDict [field "name" (str "Bug")]);
                   field "summary" (str "Login fails");
                   field "created" created;
                   field "status" (VDict [field "name" (str "Open")]);
                   field "resolution" VNone;
                   field "description" (VStr []);
                   field "comment"
                     (VDict [field "comments" (VList comments)])])].

(** A canonical record with the given key and comments. *)
Definition sample_item (key : string) (cs : list Comment.t) : Issue.t :=
  Issue.mk (str key) (str "Bug") (str "Login fails")
    (str "2024-07-15 10:00:00") (str "Open") (VStr sentinel) (VStr sentinel)
    (VStr sentinel) (VList []) (str "2024") (str "07") cs.

Definition sample_comment (n : string) : Comment.t :=
  Comment.mk (str n) (str "Ann") (str "2024-07-16 09:30:00").

(** Every comment column of a row holds the "no comments" marker. *)
Definition comment_columns_marked (r : Row.t) : Prop :=
  row_comment r = (VStr no_comment, VStr no_comment, VStr no_comment).

(** ** Normalization *)

(** The records of the issues that normalize, and the exceptions of those
    that do not, both in the order of the input. *)
Definition normalized (issues : list value) : list Issue.t :=
  flat_map (fun issue => match process_issue issue with
                         | Ok item => [item]
                         | Raise _ => []
                         end) issues.

Definition reported (issues : list value) : list exn :=
  flat_map (fun issue => match process_issue issue with
                         | Ok _ => []
                         | Raise e => [e]
                         end) issues.

(** Three issues; the second has an epoch number where the timestamp
    string should be. *)
Definition three_issues : list value :=
  [raw_issue "A-1" (str "2024-07-15T10:00:00.000+0800")
     [raw_comment "Ann" "first" "2024-07-16T09:30:00.000+0800";
      raw_comment "Bob" "second" "not a time"];
   raw_issue "A-2" (VInt 1721037600000) [];
   raw_issue "A-3" (str "2024") []].

Definition comment_values (c : Comment.t) : list value :=
  [Comment.body c; Comment.author c; Comment.created c].

(** Every field of a canonical record, and every column of a row. *)
Definition issue_values (item : Issue.t) : list value :=
  issue_scalars item ++ [Issue.comments item]
    ++ flat_map comment_values (Issue.comment_data item).

Definition row_values (r : Row.t) : list value :=
  row_scalars r
    ++ [Row.comment r; Row.comment_author r; Row.comment_created_time r].

(** What holds of a canonical record: no field is [None], and no field
    other than [created_month] is the empty string. *)
Definition issue_fields_ok (item : Issue.t) : Prop :=
  Forall filled
    [Issue.key item; Issue.type item; Issue.Summary item; Issue.created item;
     Issue.created_year item; Issue.status item; Issue.resolution item;
     Issue.environment item; Issue.description item; Issue.comments item]
  /\ Issue.created_month item <> VNone
  /\ Forall (fun c => Forall filled (comment_values c))
       (Issue.comment_data item).

(** What holds of a row: no column is [None]; no column other than
    [created_month] is the empty string, except the comment author and
    created time of a placeholder row. *)
Definition row_fields_ok (r : Row.t) : Prop :=
  Forall filled
    [Row.key r; Row.type r; Row.Summary r; Row.created r;
     Row.created_year r; Row.status r; Row.resolution r;
     Row.environment r; Row.description r; Row.comment r]
  /\ Row.created_month r <> VNone
  /\ ((filled (Row.comment_author r) /\ filled (Row.comment_created_time r))
      \/ row_comment r = (VStr no_comment, VStr [], VStr [])).

(** ** Sources *)

(** The page of [records] at offset [start_at] with at most
    [max_results] records. *)
Definition page {A : Type} (records : list A) (start_at max_results : Z)
  : list A :=
  firstn (Z.to_nat max_results) (skipn (Z.to_nat start_at) records).

(** A library source that holds [records] and serves the page asked. *)
Definition honest_library (records : list value) : library_source :=
  mk_library (Ok tt)
    (fun _ start_at max_results =>
       Ok (map mk_issue (page records start_at max_results))).

(** A REST source that holds [records], serves the page asked and
    reports the number of records as the total. *)
Definition honest_api (records : list value) : api_source :=
  fun _ start_at max_results =>
    Ok (mk_response 200 []
          (Ok (VDict [field "startAt" (VInt start_at);
                      field "maxResults" (VInt max_results);
                      field "total" (VInt (len records));
                      field "issues"
                        (VList (page records start_at max_results))]))).

(** The request made in state [st] fails: the library raises; the REST
    request raises or answers with a status other than 200. *)
Definition library_request_fails (src : library_source) (block_size : Z)
  (st : fetch_state jira_issue) : Prop :=
  exists e,
    search_issues src (calls st) (start_at st) block_size = Raise e
    /\ is_Exception e = true.

(** The request of state [st] fails: [requests.get] raises, the status of
    the answer is not 200, or the answer has status 200 and a body that
    [response.json()] raises on. *)
Definition api_request_fails (src : api_source) (max_results : Z)
  (st : fetch_state value) : Prop :=
  (exists e,
      src (calls st) (start_at st) max_results = Raise e
      /\ is_Exception e = true)
  \/ (exists r,
         src (calls st) (start_at st) max_results = Ok r
         /\ status_code r <> 200)
  \/ (exists r e,
         src (calls st) (start_at st) max_results = Ok r
         /\ status_code r = 200
         /\ json r = Raise e
         /\ is_Exception e = true).

(** What [main] runs first. *)
Definition fetch (fuel : nat) (method : fetch_method) (lib : library_source)
  (api : api_source) : option (exc (list value)) :=
  match method with
  | ViaLibrary => fetch_via_library fuel lib
  | ViaApi => fetch_via_api fuel api
  end.

(** A REST source with 250 records that answers the first request and
    then fails with status 503. *)
Definition flaky_api : api_source :=
  fun calls start_at max_results =>
    match calls with
    | O =>
        Ok (mk_response 200 []
              (Ok (VDict [field "total" (VInt 250);
                          field "issues"
                            (VList (repeat (raw_issue "A-1" (str "2024") [])
                                      (Z.to_nat max_results)))])))
    | _ => Ok (mk_response 503 (u "Service Unavailable") (Raise ValueError))
    end.

(** The same source, answering the second request with status 200 and a
    body that is not JSON. *)
Definition garbled_api : api_source :=
  fun calls start_at max_results =>
    match calls with
    | O => flaky_api calls start_at max_results
    | _ => Ok (mk_response 200 (u "<html>") (Raise ValueError))
    end.

(** A REST source that reports one record and never returns it, and a
    library source that always returns as many issues as asked. *)
Definition empty_pages_api : api_source :=
  fun _ _ _ =>
    Ok (mk_response 200 []
          (Ok (VDict [field "total" (VInt 1); field "issues" (VList [])]))).

Definition full_pages_library : library_source :=
  mk_library (Ok tt)
    (fun _ _ max_results => Ok (repeat (mk_issue VNone) (Z.to_nat max_results))).

(** The page got in state [st] is shorter than asked, or the request
    raises. *)
Definition short_page_or_raise (src : library_source) (block_size : Z)
  (st : fetch_state jira_issue) : Prop :=
  match search_issues src (calls st) (start_at st) block_size with
  | Ok issues => len issues < block_size
  | Raise _ => True
  end.

(** One issue with two comments. *)
Definition commented_issue : value :=
  raw_issue "A-1" (str "2024-07-15T10:00:00.000+0800")
    [raw_comment "Ann" "first" "2024-07-16T09:30:00.000+0800";
     raw_comment "Bob" "second" "2024-07-17T11:00:00.000+0800"].

(* ================================================================== *)
(** * Further vocabulary *)

(** ** What a pattern matches *)

(** The strings a pattern matches, whatever the order in which the
    matcher tries them. *)
Inductive matches : regex -> pystr -> Prop :=
| matches_char (p : N -> bool) (c : N) :
    p c = true -> matches (RChar p) [c]
| matches_eps : matches REps []
| matches_seq (r1 r2 : regex) (p1 p2 : pystr) :
    matches r1 p1 -> matches r2 p2 -> matches (RSeq r1 r2) (p1 ++ p2)
| matches_alt_l (r1 r2 : regex) (p : pystr) :
    matches r1 p -> matches (RAlt r1 r2) p
| matches_alt_r (r1 r2 : regex) (p : pystr) :
    matches r2 p -> matches (RAlt r1 r2) p
| matches_group (g : group) (r : regex) (p : pystr) :
    matches r p -> matches (RGroup g r) p.

(** The letter [T] in either case. *)
Definition is_T (c : N) : bool := (c =? 84)%N || (c =? 116)%N.

(** The result of [safe_get] with the default [[]], as used for the
    comments of an issue. *)
Definition deep_or_empty_list (data : value) (keys : list pystr) : value :=
  match descend data keys with
  | Some w => if is_none_or_empty w then VList [] else w
  | None => VList []
  end.

(** ** Timestamps in the source format *)

(** The fields a timestamp of the tracker is written from, in the layout
    [YYYY-MM-DDTHH:MM:SS.mmm+HHMM] of the source format: date, time,
    milliseconds, and the offset from UTC with its sign. *)
Record stamp : Type := mk_stamp {
  s_year : Z; s_month : Z; s_day : Z;
  s_hour : Z; s_minute : Z; s_second : Z; s_milli : Z;
  s_west : bool; s_off_hour : Z; s_off_minute : Z
}.

Definition fmt3 (n : Z) : pystr :=
  [digit_char (n / 100); digit_char (n / 10); digit_char n].

Definition sign_char (west : bool) : N := if west then 45%N else 43%N.

Definition source_text (t : stamp) : pystr :=
  fmt4 (s_year t) ++ u "-" ++ fmt2 (s_month t) ++ u "-" ++ fmt2 (s_day t)
    ++ u "T" ++ fmt2 (s_hour t) ++ u ":" ++ fmt2 (s_minute t) ++ u ":"
    ++ fmt2 (s_second t) ++ u "." ++ fmt3 (s_milli t)
    ++ [sign_char (s_west t)] ++ fmt2 (s_off_hour t)
    ++ fmt2 (s_off_minute t).

(** The fields are those of a date of the calendar, a time of day and an
    offset of less than a day. *)
Definition valid_stamp (t : stamp) : bool :=
  (1 <=? s_year t) && (s_year t <=? 9999)
  && (1 <=? s_month t) && (s_month t <=? 12)
  && (1 <=? s_day t) && (s_day t <=? days_in_month (s_year t) (s_month t))
  && (0 <=? s_hour t) && (s_hour t <=? 23)
  && (0 <=? s_minute t) && (s_minute t <=? 59)
  && (0 <=? s_second t) && (s_second t <=? 59)
  && (0 <=? s_milli t) && (s_milli t <=? 999)
  && (0 <=? s_off_hour t) && (s_off_hour t <=? 23)
  && (0 <=? s_off_minute t) && (s_off_minute t <=? 59).

(** The time a stamp denotes. *)
Definition stamp_time (t : stamp) : datetime :=
  let off := (s_off_hour t * 60 * 60 + s_off_minute t * 60 + 0) * 1000000 + 0
  in
  mk_datetime (s_year t) (s_month t) (s_day t)
    (s_hour t) (s_minute t) (s_second t) (s_milli t * 1000)
    (if s_west t then - off else off).

(** [s.lstrip("0")]. *)
Fixpoint strip_zeros (s : pystr) : pystr :=
  match s with
  | c :: s' => if (c =? 48)%N then strip_zeros s' else s
  | [] => []
  end.

(** The date and the time of a source timestamp, the [T] between them
    replaced by a blank and the zeros the year starts with left out. *)
Definition date_and_time (s : pystr) : pystr :=
  strip_zeros (slice 0 10 s) ++ u " " ++ slice 11 19 s.

(** The groups of the match of a source timestamp. *)
Definition stamp_groups (t : stamp) : captures :=
  capture Gz (sign_char (s_west t) :: fmt2 (s_off_hour t)
                ++ fmt2 (s_off_minute t))
    (capture Gf (fmt3 (s_milli t))
       (capture GS (fmt2 (s_second t))
          (capture GM (fmt2 (s_minute t))
             (capture GH (fmt2 (s_hour t))
                (capture Gd (fmt2 (s_day t))
                   (capture Gm (fmt2 (s_month t))
                      (capture GY (fmt4 (s_year t)) no_captures))))))).

(** ** Normalization of one issue *)

(** [issue.get('fields', {})], and the raw values [process_issues] reads
    through [safe_get]. *)
Definition fields_of (issue : value) : value :=
  match py_get issue (u "fields") (VDict []) with
  | Ok fields => fields
  | Raise _ => VDict []
  end.

Definition raw_created (issue : value) : value :=
  deep_or_sentinel (fields_of issue) (split_on dot (u "created")).

Definition raw_comments (issue : value) : value :=
  deep_or_empty_list (fields_of issue) (split_on dot (u "comment.comments")).

(** What [convert_time] returns. *)
Definition converted (v : value) : value :=
  match strptime v with
  | Ok dt => VStr (strftime dt)
  | Raise _ => v
  end.

(** Values that can be sliced. *)
Definition sliceable (v : value) : bool :=
  match v with
  | VStr _ | VList _ => true
  | _ => false
  end.

(** The canonical comment of a raw comment. *)
Definition comment_of (comment : value) : Comment.t :=
  Comment.mk
    (deep_or_sentinel comment (split_on dot (u "body")))
    (deep_or_sentinel comment (split_on dot (u "author.displayName")))
    (converted (deep_or_sentinel comment (split_on dot (u "created")))).

(** The canonical comments of a raw [comments] value: none unless it is
    a list. *)
Definition comments_of (comments : value) : list Comment.t :=
  match comments with
  | VList l => map comment_of l
  | _ => []
  end.

(** ** Sources that cap the page size *)

(** A source that holds [records] and serves at most [cap] of them a
    page, whatever is asked. *)
Definition capped_library (cap : Z) (records : list value) : library_source :=
  mk_library (Ok tt)
    (fun _ start_at max_results =>
       Ok (map mk_issue (page records start_at (Z.min max_results cap)))).

Definition capped_api (cap : Z) (records : list value) : api_source :=
  fun _ start_at max_results =>
    Ok (mk_response 200 []
          (Ok (VDict [field "startAt" (VInt start_at);
                      field "maxResults" (VInt (Z.min max_results cap));
                      field "total" (VInt (len records));
                      field "issues"
                        (VList (page records start_at
                                  (Z.min max_results cap)))]))).

(** [main] ends with a summary or with [sys.exit]. *)
Definition summary_or_exit (r : exc summary) : Prop :=
  (exists s, r = Ok s) \/ (exists code, r = Raise (SystemExit code)).

(** ** The pages a loop gets *)

(** The variables of a loop that has got [pages] and goes on. *)
Definition after {A : Type} (pages : list (list A)) : fetch_state A :=
  mk_state (List.length pages) (concat pages) (len (concat pages)).

(** The pages the library loop gets one after the other while it goes
    on: each is the answer to the request made with the number of
    records got so far, and is not shorter than asked. *)
Inductive library_pages (src : library_source) (block_size : Z)
  : list (list jira_issue) -> Prop :=
| library_pages_nil : library_pages src block_size []
| library_pages_snoc (pages : list (list jira_issue))
    (issues : list jira_issue) :
    library_pages src block_size pages ->
    search_issues src (List.length pages) (len (concat pages)) block_size
    = Ok issues ->
    block_size <= len issues ->
    library_pages src block_size (pages ++ [issues]).

(** The request made after [pages] raises, or returns fewer records than
    asked. *)
Definition library_stops (src : library_source) (block_size : Z)
  (pages : list (list jira_issue)) : Prop :=
  match
    search_issues src (List.length pages) (len (concat pages)) block_size
  with
  | Ok issues => len issues < block_size
  | Raise _ => True
  end.

(** The page and the total of an answer: its status is 200 and its body
    is a JSON object with a list under [issues] and an integer under
    [total], where a key that is absent stands for no issue and for a
    total of 0. *)
Definition page_of (r : response) : option (list value * Z) :=
  if status_code r =? 200 then
    match json r with
    | Ok (VDict d) =>
        match lookup (u "issues") d, lookup (u "total") d with
        | Some (VList issues), Some (VInt total) => Some (issues, total)
        | Some (VList issues), None => Some (issues, 0)
        | None, Some (VInt total) => Some ([], total)
        | None, None => Some ([], 0)
        | _, _ => None
        end
    | _ => None
    end
  else None.

(** The pages the REST loop gets one after the other while it goes on:
    with each of them the number of records got is still below the total
    the answer reports. *)
Inductive api_pages (src : api_source) (max_results : Z)
  : list (list value) -> Prop :=
| api_pages_nil : api_pages src max_results []
| api_pages_snoc (pages : list (list value)) (r : response)
    (issues : list value) (total : Z) :
    api_pages src max_results pages ->
    src (List.length pages) (len (concat pages)) max_results = Ok r ->
    page_of r = Some (issues, total) ->
    len (concat pages) + len issues < total ->
    api_pages src max_results (pages ++ [issues]).

(** The request made after [pages] raises, or its answer has another
    status than 200 or a body that is not JSON, or it is a page with
    which the number of records got reaches the reported total. *)
Definition api_stops (src : api_source) (max_results : Z)
  (pages : list (list value)) : Prop :=
  match src (List.length pages) (len (concat pages)) max_results with
  | Raise _ => True
  | Ok r =>
      status_code r <> 200
      \/ (exists e, json r = Raise e)
      \/ (exists issues total,
             page_of r = Some (issues, total)
             /\ total <= len (concat pages) + len issues)
  end.

(** Every answer of status 200 with a JSON body is a page. *)
Definition pages_only (src : api_source) (max_results : Z) : Prop :=
  forall calls start_at r v,
    src calls start_at max_results = Ok r ->
    status_code r = 200 -> json r = Ok v -> page_of r <> None.

(* ================================================================== *)
(** * The prompts and the export loop

    The functions that read the configuration from the terminal, and the
    loop of [main] that writes the files.  Standard input is the list of
    the lines still to be read; [input] raises [EOFError] when it is
    empty.  Standard output is the list of the prompts shown and the
    messages printed, in order. *)

(** How a prompt function ends: with an answer, the lines left and the
    output so far, or with [EOFError]. *)
Inductive console (A : Type) : Type :=
| Answered (a : A) (stdin : list pystr) (stdout : list pystr)
| EndOfInput (stdout : list pystr).
Arguments Answered {A} a stdin stdout.
Arguments EndOfInput {A} stdout.

(** [sep.join(l)]. *)
Fixpoint join (sep : pystr) (l : list pystr) : pystr :=
  match l with
  | [] => []
  | [x] => x
  | x :: rest => x ++ sep ++ join sep rest
  end.

(** [x in l] for a list of strings. *)
Definition str_in (x : pystr) (l : list pystr) : bool :=
  existsb (str_eqb x) l.

Definition newline : pystr := [10%N].

(** A text of several lines. *)
Definition text_of (lines : list pystr) : pystr := join newline lines.

(** [s.replace('，', ',')]. *)
Definition replace_wide_comma (s : pystr) : pystr :=
  map (fun c => if (c =? 65292)%N then 44%N else c) s.

Definition comma : N := 44.

Section Prompts.
(** [str.isspace] of one character, [str.lower], and the order in which
    [list(set(l))] lists the distinct elements of [l]: they belong to the
    Python runtime. *)
Variable isspace : N -> bool.
Variable lower : pystr -> pystr.
Variable list_of_set : list pystr -> list pystr.

Fixpoint drop_space (s : pystr) : pystr :=
  match s with
  | c :: s' => if isspace c then drop_space s' else s
  | [] => []
  end.

(** [s.strip()]. *)
Definition strip (s : pystr) : pystr :=
  rev (drop_space (rev (drop_space s))).

Definition invalid_single (options : list pystr) : pystr :=
  u "无效输入! 请选择[" ++ join (u "/") options ++ u "]中的一个选项".

(** The test of [get_single_choice] on one line read. *)
Definition single_choice_ok (options : list pystr) (line : pystr) : bool :=
  let choice := lower (strip line) in
  (List.length choice =? 1)%nat && str_in choice options.

Fixpoint get_single_choice (prompt : pystr) (options : list pystr)
  (stdin stdout : list pystr) : console pystr :=
  match stdin with
  | [] => EndOfInput (stdout ++ [prompt])
  | line :: rest =>
      let stdout := stdout ++ [prompt] in
      let choice := lower (strip line) in
      if (List.length choice =? 1)%nat && str_in choice options
      then Answered choice rest stdout
      else get_single_choice prompt options rest
             (stdout ++ [invalid_single options])
  end.

Definition invalid_multi (options : list pystr) : pystr :=
  u "无效输入! 有效选项为[" ++ join (u ",") options
    ++ u "]，多个选项用英文逗号分隔".

(** [[c.strip() for c in choice.split(',')]]. *)
Definition selections_of (choice : pystr) : list pystr :=
  map strip (split_on comma choice).

(** The test of [get_multi_choice] on one line read: the line is not
    blank and each of its items is an option. *)
Definition multi_choice_ok (options : list pystr) (line : pystr) : bool :=
  let choice := replace_wide_comma (lower (strip line)) in
  match choice with
  | [] => false
  | _ :: _ => forallb (fun c => str_in c options) (selections_of choice)
  end.

(** What is printed for a line that is passed over: the prompt, and the
    message unless the line is blank. *)
Definition multi_choice_echo (prompt : pystr) (options : list pystr)
  (line : pystr) : list pystr :=
  match replace_wide_comma (lower (strip line)) with
  | [] => [prompt]
  | _ :: _ => [prompt; invalid_multi options]
  end.

Fixpoint get_multi_choice (prompt : pystr) (options : list pystr)
  (stdin stdout : list pystr) : console (list pystr) :=
  match stdin with
  | [] => EndOfInput (stdout ++ [prompt])
  | line :: rest =>
      let stdout := stdout ++ [prompt] in
      let choice := replace_wide_comma (lower (strip line)) in
      match choice with
      | [] => get_multi_choice prompt options rest stdout
      | _ :: _ =>
          let selections := selections_of choice in
          if forallb (fun c => str_in c options) selections
          then Answered (list_of_set selections) rest stdout
          else get_multi_choice prompt options rest
                 (stdout ++ [invalid_multi options])
      end
  end.

Definition get_auth_method : list pystr -> list pystr -> console pystr :=
  get_single_choice
    (newline ++ text_of [u "1、请选择登录方式："; u "a.账号密码";
                         u "b.API令牌"; u "请输入选项(a/b): "])
    [u "a"; u "b"].

Definition get_fetch_method : list pystr -> list pystr -> console pystr :=
  get_single_choice
    (newline ++ text_of [u "2、请选择数据获取方式："; u "a.Python Jira库";
                         u "b.REST API"; u "请输入选项(a/b): "])
    [u "a"; u "b"].

Definition get_output_format
  : list pystr -> list pystr -> console (list pystr) :=
  get_multi_choice
    (newline ++ text_of [u "4、请选择输出格式（可多选）："; u "a.CSV文件";
                         u "b.Excel文件"; u "c.TXT文件";
                         u "请输入选项(如a,b): "])
    [u "a"; u "b"; u "c"].

Definition must_not_be_empty : pystr := u "输入不能为空，请重新输入！".

(** The loop shared by [get_jql], [get_output_base], [get_jira_server],
    [get_username] and [get_password], which differ by their prompt. *)
Fixpoint ask_non_empty (prompt : pystr) (stdin stdout : list pystr)
  : console pystr :=
  match stdin with
  | [] => EndOfInput (stdout ++ [prompt])
  | line :: rest =>
      let stdout := stdout ++ [prompt] in
      let choice := strip line in
      match choice with
      | [] => ask_non_empty prompt rest (stdout ++ [must_not_be_empty])
      | _ :: _ => Answered choice rest stdout
      end
  end.

Definition get_jql : list pystr -> list pystr -> console pystr :=
  ask_non_empty
    (newline
       ++ u "3、请输入JQL查询语句（建议添加时间范围如'created >= -7d'）: ").

Definition get_output_base : list pystr -> list pystr -> console pystr :=
  ask_non_empty (newline ++ u "5、请输入输出文件前缀: ").

Definition get_jira_server : list pystr -> list pystr -> console pystr :=
  ask_non_empty (newline ++ u "6、请输入JIRA服务器地址: ").

Definition get_username : list pystr -> list pystr -> console pystr :=
  ask_non_empty (newline ++ u "7、请输入JIRA帐号用户名: ").

Definition get_password : list pystr -> list pystr -> console pystr :=
  ask_non_empty (newline ++ u "8、请输入密码/API令牌: ").
End Prompts.

(** [format_mapping[fmt]]: the extension and the generator of a format,
    [KeyError] for any other key. *)
Definition format_mapping (fmt : pystr) : exc (pystr * output_format) :=
  if str_eqb fmt (u "a") then Ok (u "csv", Csv)
  else if str_eqb fmt (u "b") then Ok (u "xlsx", Excel)
  else if str_eqb fmt (u "c") then Ok (u "txt", Txt)
  else Raise KeyError.

Section ExportLoop.
(** The file writer behind the generators, [str(e)] of an exception, and
    [str.upper]. *)
Variable write : pystr -> artifact -> exc unit.
Variable exn_str : exn -> pystr.
Variable upper : pystr -> pystr.

Definition generated (filename : pystr) : pystr := u "✓ 已生成 " ++ filename.

Definition generation_failed (ext : pystr) (e : exn) : pystr :=
  u "✗ 生成" ++ upper ext ++ u "文件失败: " ++ exn_str e.

(** What is printed for one format. *)
Definition export_one (output_base : pystr) (processed_data : list Issue.t)
  (ext : pystr) (generator : output_format) : exc pystr :=
  let filename := output_base ++ u "." ++ ext in
  try_except_Exception
    (_ <- write filename (generate generator processed_data) ;;
     Ok (generated filename))
    (fun e => Ok (generation_failed ext e)).

(** [for fmt in output_formats: ...] of [main]. *)
Fixpoint export_loop (output_base : pystr) (processed_data : list Issue.t)
  (output_formats : list pystr) (stdout : list pystr) : exc (list pystr) :=
  match output_formats with
  | [] => Ok stdout
  | fmt :: rest =>
      eg <- format_mapping fmt ;;
      line <- export_one output_base processed_data (fst eg) (snd eg) ;;
      export_loop output_base processed_data rest (stdout ++ [line])
  end.
End ExportLoop.

(** What [main] reads from the terminal, in the order it asks. *)
Record config : Type := mk_config {
  auth_method : pystr;
  chosen_fetch_method : pystr;
  jql : pystr;
  output_formats : list pystr;
  output_base : pystr;
  jira_server : pystr;
  username : pystr;
  password : pystr
}.

(** Sequencing of two prompts. *)
Definition then_ask {A B : Type} (m : console A)
  (k : A -> list pystr -> list pystr -> console B) : console B :=
  match m with
  | Answered a stdin stdout => k a stdin stdout
  | EndOfInput stdout => EndOfInput stdout
  end.

Section ReadConfig.
Variable isspace : N -> bool.
Variable lower : pystr -> pystr.
Variable list_of_set : list pystr -> list pystr.

(** The eight prompts at the start of [main]. *)
Definition read_config (stdin stdout : list pystr) : console config :=
  then_ask (get_auth_method isspace lower stdin stdout) (fun auth i o =>
  then_ask (get_fetch_method isspace lower i o) (fun fetch i o =>
  then_ask (get_jql isspace i o) (fun jql i o =>
  then_ask (get_output_format isspace lower list_of_set i o) (fun fmts i o =>
  then_ask (get_output_base isspace i o) (fun base i o =>
  then_ask (get_jira_server isspace i o) (fun server i o =>
  then_ask (get_username isspace i o) (fun user i o =>
  then_ask (get_password isspace i o) (fun pass i o =>
  Answered (mk_config auth fetch jql fmts base server user pass) i o)))))))).
End ReadConfig.

(** ** An ASCII runtime for the examples *)

Definition ascii_space (c : N) : bool := (c =? 32)%N || (c =? 9)%N.

Definition ascii_lower (s : pystr) : pystr :=
  map (fun c => if (65 <=? c)%N && (c <=? 90)%N then (c + 32)%N else c) s.

Definition distinct (l : list pystr) : list pystr :=
  nodup (list_eq_dec N.eq_dec) l.

Section ExportVocabulary.
Variable write : pystr -> artifact -> exc unit.
Variable exn_str : exn -> pystr.
Variable upper : pystr -> pystr.

(** The line printed for a format, by the outcome of its writer. *)
Definition reported_line (output_base : pystr) (processed_data : list Issue.t)
  (ext : pystr) (generator : output_format) : pystr :=
  match write (output_base ++ u "." ++ ext)
          (generate generator processed_data) with
  | Ok _ => generated (output_base ++ u "." ++ ext)
  | Raise e => generation_failed exn_str upper ext e
  end.
End ExportVocabulary.

(** Only exceptions that are an [Exception] come out of the writer. *)
Definition raises_only_Exception (write : pystr -> artifact -> exc unit)
  : Prop :=
  forall filename art e, write filename art = Raise e -> is_Exception e = true.

(** A writer that cannot write spreadsheets. *)
Definition no_excel_writer (filename : pystr) (art : artifact) : exc unit :=
  match art with
  | Table Excel _ => Raise (SourceError (u "No module named 'openpyxl'"))
  | _ => Ok tt
  end.

Definition exn_name (e : exn) : pystr :=
  match e with
  | SourceError msg => msg
  | _ => u "error"
  end.

Definition ascii_upper (s : pystr) : pystr :=
  map (fun c => if (97 <=? c)%N && (c <=? 122)%N then (c - 32)%N else c) s.

(** The eight answers of a session, the configuration they give and the
    prompts shown for them. *)
Definition sample_session : list pystr :=
  [u "a"; u "B"; u "project = X"; u "a，c"; u "out";
   u "https://jira.example.org"; u "ann"; u "example"].

Definition sample_config : config :=
  mk_config (u "a") (u "b") (u "project = X") [u "a"; u "c"] (u "out")
    (u "https://jira.example.org") (u "ann") (u "example").

Definition sample_session_output : list pystr :=
  Eval vm_compute in
    match read_config ascii_space ascii_lower distinct sample_session [] with
    | Answered _ _ stdout => stdout
    | EndOfInput stdout => stdout
    end.

(* ================================================================== *)
(** * generate_txt

    The text written to the file, as the concatenation of the strings
    given to [f.write], in order. *)

(** [str(n)] for a natural number. *)
Definition str_of_nat (n : nat) : pystr :=
  u (NilEmpty.string_of_uint (Nat.to_uint n)).

Section GenerateTxt.
(** [str(x)], as an f-string prints a value. *)
Variable py_str : value -> pystr.

(** [f.write(f"label：{v}\n")]. *)
Definition write_field (f : pystr) (label : string) (v : value) : pystr :=
  f ++ u label ++ u "：" ++ py_str v ++ newline.

(** [for idx, comment in enumerate(item['comment_data'], 1): ...]. *)
Fixpoint write_comments (idx : nat) (comments : list Comment.t) (f : pystr)
  : pystr :=
  match comments with
  | [] => f
  | comment :: rest =>
      let f := f ++ u "comment-" ++ str_of_nat idx ++ u "："
                 ++ py_str (Comment.author comment) ++ u "{comment author}在" in
      let f := f ++ py_str (Comment.created comment)
                 ++ u "{comment created time}备注【"
                 ++ py_str (Comment.body comment) ++ u "】" ++ newline in
      write_comments (S idx) rest f
  end.

Fixpoint txt_loop (data : list Issue.t) (f : pystr) : pystr :=
  match data with
  | [] => f
  | item :: rest =>
      let f := f ++ u "--------" ++ newline in
      let f := write_field f "key" (Issue.key item) in
      let f := write_field f "type" (Issue.type item) in
      let f := write_field f "Summary" (Issue.Summary item) in
      let f := write_field f "created" (Issue.created item) in
      let f := write_field f "created_year" (Issue.created_year item) in
      let f := write_field f "created_month" (Issue.created_month item) in
      let f := write_field f "status" (Issue.status item) in
      let f := write_field f "resolution" (Issue.resolution item) in
      let f := write_field f "environment" (Issue.environment item) in
      let f := write_field f "description" (Issue.description item) in
      let f := f ++ u "all comment：" ++ newline in
      let f := match Issue.comment_data item with
               | [] => f ++ u "该工单无备注" ++ newline
               | _ :: _ => write_comments 1 (Issue.comment_data item) f
               end in
      txt_loop rest f
  end.

(** The content of the file [generate_txt] writes. *)
Definition generate_txt (data : list Issue.t) : pystr := txt_loop data [].

(** The ten field lines of an issue, after the separator line. *)
Definition txt_header (item : Issue.t) : pystr :=
  write_field
    (write_field
       (write_field
          (write_field
             (write_field
                (write_field
                   (write_field
                      (write_field
                         (write_field
                            (write_field (u "--------" ++ newline)
                               "key" (Issue.key item))
                            "type" (Issue.type item))
                         "Summary" (Issue.Summary item))
                      "created" (Issue.created item))
                   "created_year" (Issue.created_year item))
                "created_month" (Issue.created_month item))
             "status" (Issue.status item))
          "resolution" (Issue.resolution item))
       "environment" (Issue.environment item))
    "description" (Issue.description item).

(** The line of the comment numbered [idx]. *)
Definition txt_entry (idx : nat) (comment : Comment.t) : pystr :=
  u "comment-" ++ str_of_nat idx ++ u "："
    ++ py_str (Comment.author comment) ++ u "{comment author}在"
    ++ py_str (Comment.created comment) ++ u "{comment created time}备注【"
    ++ py_str (Comment.body comment) ++ u "】" ++ newline.

(** The block of one issue: its header, then the line saying there is
    no comment, or the comments numbered from 1. *)
Definition txt_block (item : Issue.t) : pystr :=
  txt_header item ++ u "all comment：" ++ newline
    ++ match Issue.comment_data item with
       | [] => u "该工单无备注" ++ newline
       | cs =>
           concat (map (fun ic => txt_entry (fst ic) (snd ic))
                     (combine (seq 1 (List.length cs)) cs))
       end.
End GenerateTxt.

(** The number of raw comments of an issue: the length of the list at
    [comment.comments], 0 when there is no list. *)
Definition raw_comment_count (issue : value) : nat :=
  match raw_comments issue with
  | VList l => List.length l
  | _ => 0%nat
  end.

(** The rows an issue contributes: none if it fails to normalize. *)
Definition rows_of_raw (issue : value) : nat :=
  match process_issue issue with
  | Ok _ => Nat.max 1 (raw_comment_count issue)
  | Raise _ => 0%nat
  end.

(* ================================================================== *)
(** * Properties *)

(** ** Values *)

Lemma str_eqb_eq (a b : pystr) : str_eqb a b = true <-> a = b.
Proof.
  unfold str_eqb. destruct (list_eq_dec N.eq_dec a b); split; congruence.
Qed.

Lemma str_eqb_refl (a : pystr) : str_eqb a a = true.
Proof. now apply str_eqb_eq. Qed.

Lemma py_eq_str (v : value) (s : pystr) :
  py_eq v (VStr s) = true <-> v = VStr s.
Proof.
  destruct v; simpl; split; try congruence.
  - intros H. apply str_eqb_eq in H. now subst.
  - intros [= ->]. apply str_eqb_refl.
Qed.

Lemma py_in_none_or_empty (v : value) :
  py_in v [VNone; VStr []] = is_none_or_empty v.
Proof.
  unfold py_in. simpl. rewrite orb_false_r.
  destruct v as [| | | | s | |]; simpl; try reflexivity.
  destruct s; reflexivity.
Qed.

Lemma is_none_or_empty_false (v : value) :
  is_none_or_empty v = false <-> filled v.
Proof.
  unfold filled. destruct v as [| | | | s | |]; simpl;
    try (split; [intros _; split; congruence | reflexivity]).
  - split; [discriminate | intros [H _]; congruence].
  - destruct s; split; try discriminate; try reflexivity.
    + intros [_ H]; congruence.
    + intros _; split; congruence.
Qed.

Lemma filled_sentinel : filled (VStr sentinel).
Proof. split; discriminate. Qed.

Lemma or_default_filled (data default : value) :
  filled default -> filled (or_default data default).
Proof.
  intros Hd. unfold or_default. rewrite py_in_none_or_empty.
  destruct (is_none_or_empty data) eqn:E; simpl; [exact Hd|].
  now apply is_none_or_empty_false.
Qed.

(** ** safe_get *)

Lemma safe_get_loop_total (keys : list pystr) :
  forall data default, exists v, safe_get_loop data keys default = Ok v.
Proof.
  induction keys as [|key rest IH]; intros data default; simpl.
  - eauto.
  - destruct data; simpl; eauto.
    destruct (py_eq _ default); eauto.
Qed.

Lemma safe_get_loop_filled (keys : list pystr) :
  forall data default v,
    filled default -> safe_get_loop data keys default = Ok v -> filled v.
Proof.
  induction keys as [|key rest IH]; intros data default v Hd; simpl.
  - intros [= <-]. now apply or_default_filled.
  - destruct data; simpl; try (intros [= <-]; exact Hd).
    destruct (py_eq _ default).
    + intros [= <-]. now apply or_default_filled.
    + now apply IH.
Qed.

Lemma deep_or_sentinel_of_sentinel (rest : list pystr) :
  deep_or_sentinel (VStr sentinel) rest = VStr sentinel.
Proof. destruct rest; reflexivity. Qed.

Lemma safe_get_loop_descends (keys : list pystr) :
  forall data,
    safe_get_loop data keys (VStr sentinel) = Ok (deep_or_sentinel data keys).
Proof.
  induction keys as [|key rest IH]; intros data.
  - cbn [safe_get_loop]. unfold or_default, deep_or_sentinel.
    cbn [descend]. rewrite py_in_none_or_empty.
    now destruct (is_none_or_empty data).
  - destruct data; try reflexivity.
    cbn [safe_get_loop isinstance_dict py_get bind].
    unfold deep_or_sentinel at 1. cbn [descend].
    destruct (lookup key d) as [v|] eqn:L.
    + destruct (py_eq v (VStr sentinel)) eqn:E.
      * apply py_eq_str in E. subst v.
        fold (deep_or_sentinel (VStr sentinel) rest).
        now rewrite deep_or_sentinel_of_sentinel.
      * rewrite IH. reflexivity.
    + reflexivity.
Qed.

(** C3.  [safe_get] with the sentinel default is total: on every value
    and every dotted path it returns, without raising, the value found by
    descending the path key by key, and the sentinel when a step meets a
    non-mapping or a missing key or when the value found is [None] or the
    empty string; the result is never [None] and never the empty string. *)
Theorem safe_get_total_sentinel (data : value) (keys : pystr) :
  exists v,
    safe_get data keys = Ok v
    /\ v = deep_or_sentinel data (split_on dot keys)
    /\ v <> VNone /\ v <> VStr [].
Proof.
  exists (deep_or_sentinel data (split_on dot keys)).
  assert (H : safe_get data keys
              = Ok (deep_or_sentinel data (split_on dot keys)))
    by apply safe_get_loop_descends.
  split; [exact H|]. split; [reflexivity|].
  apply (safe_get_loop_filled _ _ _ _ filled_sentinel H).
Qed.

(** ** convert_time *)

(** Invert [bind m k = Ok r] in a hypothesis, one step at a time. *)
Ltac bind_inv H :=
  repeat match type of H with
         | bind ?m _ = Ok _ =>
             let E := fresh "E" in
             destruct m eqn:E; cbn [bind] in H; [|discriminate H]
         end.

Ltac bool_to_prop H :=
  repeat rewrite ?andb_true_iff, ?Z.leb_le, ?Z.ltb_lt in H.

Lemma is_ascii_digit_digit_char (n : Z) :
  is_ascii_digit (digit_char n) = true.
Proof.
  unfold is_ascii_digit, digit_char.
  pose proof (Z.mod_pos_bound n 10 ltac:(lia)).
  apply andb_true_iff; split; apply N.leb_le; lia.
Qed.

Lemma decimal_zero_ascii (c : N) :
  is_ascii_digit c = true -> decimal_zero c = Some 48%N.
Proof.
  intros H. unfold decimal_zero, decimal_zeros. cbn [find].
  change (48 + 9)%N with 57%N. unfold is_ascii_digit in H. now rewrite H.
Qed.

Lemma is_digit_digit_char (n : Z) : is_digit (digit_char n) = true.
Proof.
  unfold is_digit, is_decimal.
  now rewrite (decimal_zero_ascii _ (is_ascii_digit_digit_char n)).
Qed.

Lemma digit_char_value (n : Z) : decimal_value (digit_char n) = n mod 10.
Proof.
  unfold decimal_value.
  rewrite (decimal_zero_ascii _ (is_ascii_digit_digit_char n)).
  unfold digit_char. pose proof (Z.mod_pos_bound n 10 ltac:(lia)). lia.
Qed.

Lemma digit_char_not_blank (n : Z) : (digit_char n =? 32)%N = false.
Proof.
  unfold digit_char. pose proof (Z.mod_pos_bound n 10 ltac:(lia)).
  apply N.eqb_neq. lia.
Qed.

Lemma py_int_fmt2 (n : Z) : 0 <= n <= 99 -> py_int (fmt2 n) = Ok n.
Proof.
  intros Hn. unfold py_int, fmt2. cbn [lstrip].
  rewrite digit_char_not_blank. cbn [forallb].
  rewrite !is_digit_digit_char. cbn [andb].
  unfold digits_value. cbn [fold_left]. rewrite !digit_char_value.
  f_equal. Z.div_mod_to_equations. lia.
Qed.

Lemma py_int_fmt4 (n : Z) : 0 <= n <= 9999 -> py_int (fmt4 n) = Ok n.
Proof.
  intros Hn. unfold py_int, fmt4. cbn [lstrip].
  rewrite digit_char_not_blank. cbn [forallb].
  rewrite !is_digit_digit_char. cbn [andb].
  unfold digits_value. cbn [fold_left]. rewrite !digit_char_value.
  f_equal. Z.div_mod_to_equations. lia.
Qed.

Lemma fmt_year_four_digits (y : Z) : 1000 <= y -> fmt_year y = fmt4 y.
Proof.
  intros Hy. unfold fmt_year.
  destruct (Z.ltb_spec y 10); [lia|].
  destruct (Z.ltb_spec y 100); [lia|].
  destruct (Z.ltb_spec y 1000); [lia|reflexivity].
Qed.

Lemma fmt_year_not_empty (y : Z) : exists c rest, fmt_year y = digit_char c :: rest.
Proof.
  unfold fmt_year, fmt2, fmt4.
  destruct (y <? 10); [eauto|].
  destruct (y <? 100); [eauto|].
  destruct (y <? 1000); eauto.
Qed.

Lemma strftime_canonical (dt : datetime) :
  1000 <= year dt -> is_canonical (strftime dt) = true.
Proof.
  intros Hy. unfold strftime. rewrite (fmt_year_four_digits _ Hy).
  unfold fmt4, fmt2. cbn [app u].
  change (u "-") with [45%N]. change (u " ") with [32%N].
  change (u ":") with [58%N]. cbn [app is_canonical forallb].
  rewrite !is_ascii_digit_digit_char. reflexivity.
Qed.

Lemma days_in_month_le (y m : Z) : days_in_month y m <= 31.
Proof.
  unfold days_in_month.
  repeat match goal with |- context [if ?b then _ else _] => destruct b end;
    lia.
Qed.

Lemma strftime_shows (dt : datetime) :
  check_date (year dt) (month dt) (day dt) = Ok tt ->
  check_time (hour dt) (minute dt) (second dt) (microsecond dt) = Ok tt ->
  1000 <= year dt ->
  shown (strftime dt) = wall_clock dt.
Proof.
  unfold check_date, check_time. intros Hd Ht Hy.
  destruct (_ && _) eqn:Bd in Hd; [|discriminate Hd].
  destruct (_ && _) eqn:Bt in Ht; [|discriminate Ht].
  bool_to_prop Bd. bool_to_prop Bt.
  pose proof (days_in_month_le (year dt) (month dt)).
  unfold shown, wall_clock, strftime. rewrite (fmt_year_four_digits _ Hy).
  change (u "-") with [45%N]. change (u " ") with [32%N].
  change (u ":") with [58%N].
  change (slice 0 4 (fmt4 (year dt) ++ ?x)) with (fmt4 (year dt)).
  repeat f_equal.
  - apply py_int_fmt4. lia.
  - apply (py_int_fmt2 (month dt)). lia.
  - apply (py_int_fmt2 (day dt)). lia.
  - apply (py_int_fmt2 (hour dt)). lia.
  - apply (py_int_fmt2 (minute dt)). lia.
  - apply (py_int_fmt2 (second dt)). lia.
Qed.

Lemma strptime_checked (v : value) (dt : datetime) :
  strptime v = Ok dt ->
  (exists s, v = VStr s)
  /\ check_date (year dt) (month dt) (day dt) = Ok tt
  /\ check_time (hour dt) (minute dt) (second dt) (microsecond dt) = Ok tt.
Proof.
  unfold strptime. destruct v; try discriminate.
  intros H. split; [eauto|].
  destruct (re_match Re.jira_format s) as [[[|c rest] found]|];
    try discriminate.
  bind_inv H. injection H as <-. cbn.
  repeat match goal with x : unit |- _ => destruct x end.
  split; assumption.
Qed.

Lemma convert_time_unfold (v : value) :
  convert_time v = Ok (match strptime v with
                       | Ok dt => VStr (strftime dt)
                       | Raise _ => v
                       end).
Proof. unfold convert_time. now destruct (strptime v). Qed.

(** C9.  The canonical form fails for a year before 1000: [strftime]
    prints such a year without leading zeros, so the text returned for a
    timestamp of the year 999 has three year digits and is not of the
    form [YYYY-MM-DD HH:MM:SS]; the same timestamp a thousand years later
    is returned in that form. *)
Theorem convert_time_year_below_1000 :
  convert_time (VStr (u "0999-07-15T10:00:00.000+0800"))
  = Ok (VStr (u "999-07-15 10:00:00"))
  /\ is_canonical (u "999-07-15 10:00:00") = false
  /\ convert_time (VStr (u "1999-07-15T10:00:00.000+0800"))
     = Ok (VStr (u "1999-07-15 10:00:00"))
  /\ is_canonical (u "1999-07-15 10:00:00") = true.
Proof. vm_compute. repeat split. Qed.

(** ** format_dataframe *)

Lemma comment_rows_app (item : Issue.t) (cs : list Comment.t) :
  forall formatted,
    comment_rows item cs formatted = formatted ++ map (comment_row item) cs.
Proof.
  induction cs as [|c cs IH]; intros formatted; simpl.
  - now rewrite app_nil_r.
  - rewrite IH, <- app_assoc. reflexivity.
Qed.

Lemma format_loop_app (data : list Issue.t) :
  forall formatted,
    format_loop data formatted = formatted ++ flat_map expand data.
Proof.
  induction data as [|item data IH]; intros formatted; simpl.
  - now rewrite app_nil_r.
  - unfold expand at 1.
    destruct (Issue.comment_data item) as [|c cs] eqn:E.
    + rewrite IH, <- app_assoc. reflexivity.
    + rewrite IH, comment_rows_app, <- app_assoc. reflexivity.
Qed.

Lemma format_dataframe_expand (data : list Issue.t) :
  format_dataframe data = flat_map expand data.
Proof. unfold format_dataframe. now rewrite format_loop_app. Qed.

Lemma expand_length (item : Issue.t) :
  List.length (expand item) = Nat.max 1 (comment_count item).
Proof.
  unfold expand, comment_count.
  destruct (Issue.comment_data item) as [|c cs]; [reflexivity|].
  rewrite length_map. simpl. reflexivity.
Qed.

Lemma expand_scalars (item : Issue.t) :
  Forall (fun r => row_scalars r = issue_scalars item) (expand item).
Proof.
  unfold expand. destruct (Issue.comment_data item) as [|c cs].
  - repeat constructor.
  - apply Forall_forall. intros r Hr. apply in_map_iff in Hr.
    destruct Hr as (c' & <- & _). reflexivity.
Qed.

Lemma expand_comments (item : Issue.t) :
  Issue.comment_data item <> [] ->
  map row_comment (expand item) = map comment_fields (Issue.comment_data item).
Proof.
  unfold expand. destruct (Issue.comment_data item) as [|c cs]; [easy|].
  intros _. rewrite map_map. reflexivity.
Qed.

Lemma flat_map_length_sum {A B : Type} (f : A -> list B) (l : list A) :
  List.length (flat_map f l) = list_sum (map (fun a => List.length (f a)) l).
Proof.
  induction l as [|a l IH]; simpl; [reflexivity|].
  now rewrite length_app, IH.
Qed.

Lemma format_dataframe_length (data : list Issue.t) :
  List.length (format_dataframe data)
  = list_sum (map (fun item => Nat.max 1 (comment_count item)) data).
Proof.
  rewrite format_dataframe_expand, flat_map_length_sum. f_equal.
  apply map_ext. intros item. apply expand_length.
Qed.

Lemma list_sum_max_ge (l : list nat) :
  (List.length l <= list_sum (map (Nat.max 1) l))%nat.
Proof.
  unfold list_sum. induction l as [|n l IH]; [apply Nat.le_refl|].
  cbn [map List.length fold_right].
  pose proof (Nat.le_max_l 1 n). lia.
Qed.

(** C2.  Row expansion produces, issue after issue in the order of the
    input, [max 1 M] rows for an issue with [M] comments: one placeholder
    row when [M = 0], else one row per comment in comment order, every
    row carrying the scalar fields of its issue.  Comment counts
    [0, 1, 3] give 5 rows, and there are at least as many rows as
    issues. *)
Theorem format_dataframe_row_count (data : list Issue.t) :
  format_dataframe data = flat_map expand data
  /\ (forall item,
        List.length (expand item) = Nat.max 1 (comment_count item)
        /\ Forall (fun r => row_scalars r = issue_scalars item) (expand item)
        /\ (comment_count item = 0%nat -> expand item = [placeholder_row item])
        /\ (comment_count item <> 0%nat ->
            map row_comment (expand item)
            = map comment_fields (Issue.comment_data item)))
  /\ List.length (format_dataframe data)
     = list_sum (map (fun item => Nat.max 1 (comment_count item)) data)
  /\ (map comment_count data = [0; 1; 3]%nat ->
      List.length (format_dataframe data) = 5%nat)
  /\ (List.length data <= List.length (format_dataframe data))%nat.
Proof.
  split; [apply format_dataframe_expand|].
  split.
  { intros item. split; [apply expand_length|].
    split; [apply expand_scalars|]. split.
    - unfold comment_count, expand.
      destruct (Issue.comment_data item); [reflexivity|discriminate].
    - intros H. apply expand_comments. unfold comment_count in H.
      destruct (Issue.comment_data item); [easy|discriminate]. }
  split; [apply format_dataframe_length|].
  split.
  - intros H. rewrite format_dataframe_length.
    rewrite <- (map_map comment_count (Nat.max 1)), H. reflexivity.
  - rewrite format_dataframe_length.
    rewrite <- (map_map comment_count (Nat.max 1)).
    rewrite <- (length_map comment_count data) at 1.
    apply list_sum_max_ge.
Qed.

Lemma format_dataframe_row_count_witness :
  List.length
    (format_dataframe
       [sample_item "A-1" [];
        sample_item "A-2" [sample_comment "c1"];
        sample_item "A-3" [sample_comment "c1"; sample_comment "c2";
                           sample_comment "c3"]]) = 5%nat.
Proof.
  apply (proj1 (proj2 (proj2 (proj2 (format_dataframe_row_count _))))).
  reflexivity.
Defined.

(** C8, as stated, fails: the row of an issue without comments has the
    marker in the [comment] column only; the author and the created time
    are empty strings. *)
Lemma placeholder_columns_not_all_marked :
  ~ Forall comment_columns_marked (format_dataframe [sample_item "A-1" []]).
Proof.
  intros H. inversion H as [|r rows Hr _]; subst.
  unfold comment_columns_marked in Hr. discriminate Hr.
Qed.

(** C8, amended.  An issue without comments gets exactly one row; its
    [comment] column is the "no comments" marker, which differs from the
    sentinel, its comment author and comment created time are the empty
    string, and its other columns are those of the issue. *)
Theorem placeholder_row_columns (item : Issue.t) :
  comment_count item = 0%nat ->
  format_dataframe [item] = [placeholder_row item]
  /\ row_comment (placeholder_row item) = (VStr no_comment, VStr [], VStr [])
  /\ row_scalars (placeholder_row item) = issue_scalars item
  /\ no_comment <> sentinel
  /\ no_comment <> [].
Proof.
  intros H. unfold comment_count in H.
  split.
  - unfold format_dataframe. simpl.
    destruct (Issue.comment_data item); [reflexivity|discriminate].
  - repeat split; discriminate.
Qed.

Lemma placeholder_row_columns_witness :
  format_dataframe [sample_item "A-1" []]
  = [placeholder_row (sample_item "A-1" [])].
Proof.
  apply (proj1 (placeholder_row_columns (sample_item "A-1" []) eq_refl)).
Defined.

(** ** process_issues *)

Lemma safe_get_ok (data : value) (keys : pystr) :
  safe_get data keys = Ok (deep_or_sentinel data (split_on dot keys)).
Proof. apply safe_get_loop_descends. Qed.

Lemma comment_dict_total (comment : value) :
  exists c, comment_dict comment = Ok c.
Proof.
  unfold comment_dict. rewrite !safe_get_ok. cbn [bind].
  rewrite convert_time_unfold. cbn [bind]. eauto.
Qed.

Lemma comment_loop_total (comments : list value) :
  forall comment_list, exists l, comment_loop comments comment_list = Ok l.
Proof.
  induction comments as [|c cs IH]; intros acc; simpl; [eauto|].
  destruct (comment_dict_total c) as [cd ->]. cbn [bind]. apply IH.
Qed.

(** What normalizing one issue can raise: [issue.get] on a value that is
    not a dict, or a slice of a [created] that is neither a string nor a
    list. *)
Lemma process_issue_raises (issue : value) (e : exn) :
  process_issue issue = Raise e -> e = AttributeError \/ e = TypeError.
Proof.
  unfold process_issue.
  destruct (py_get issue (u "fields") (VDict [])) as [fields|e0] eqn:Eg.
  2:{ cbn [bind]. intros [= <-]. left.
      destruct issue; simpl in Eg; congruence. }
  cbn [bind]. rewrite !safe_get_ok. cbn [bind].
  rewrite convert_time_unfold. cbn [bind].
  destruct (safe_get_loop_total (split_on dot (u "comment.comments"))
              fields (VList [])) as [comments Hc].
  unfold safe_get_with. rewrite Hc. cbn [bind].
  match goal with
  | |- bind ?X _ = _ -> _ => destruct X as [ym|e1] eqn:Ey
  end.
  2:{ cbn [bind]. intros [= <-]. right.
      destruct (negb _) in Ey; [|discriminate Ey].
      match type of Ey with
      | bind (py_slice ?X _ _) _ = _ => destruct X; simpl in Ey; congruence
      end. }
  cbn [bind].
  match goal with
  | |- bind ?X _ = _ -> _ => assert (Hl : exists l, X = Ok l)
  end.
  { destruct (truthy comments && isinstance_list comments); [|eauto].
    destruct comments; eauto. apply comment_loop_total. }
  destruct Hl as [l ->]. cbn [bind]. discriminate.
Qed.

Lemma process_issue_raises_Exception (issue : value) (e : exn) :
  process_issue issue = Raise e -> is_Exception e = true.
Proof.
  intros H. destruct (process_issue_raises issue e H); subst; reflexivity.
Qed.

Lemma process_loop_spec (issues : list value) :
  forall processed printed,
    process_loop issues processed printed
    = Ok (processed ++ normalized issues, printed ++ reported issues).
Proof.
  induction issues as [|issue rest IH]; intros processed printed.
  - simpl. now rewrite !app_nil_r.
  - cbn [process_loop normalized reported flat_map].
    destruct (process_issue issue) as [item|e] eqn:E; cbn [bind try_except_Exception].
    + rewrite IH. cbn [fst snd]. now rewrite <- app_assoc.
    + rewrite (process_issue_raises_Exception _ _ E). cbn [bind fst snd].
      rewrite IH. now rewrite <- app_assoc.
Qed.

Lemma normalized_reported_length (issues : list value) :
  (List.length (normalized issues) + List.length (reported issues)
   = List.length issues)%nat.
Proof.
  induction issues as [|issue rest IH]; [reflexivity|].
  unfold normalized, reported in *. cbn [flat_map].
  rewrite !length_app.
  destruct (process_issue issue); cbn [List.length]; lia.
Qed.

(** C5.  [process_issues] never raises: it returns the records of the
    issues that normalize, in order, and reports one failure for each
    issue that raises; every issue is in exactly one of the two.  When
    the second of three issues raises, the output holds the records of
    the first and the third. *)
Theorem process_issues_isolates_failures (issues : list value) :
  process_issues issues = Ok (normalized issues, reported issues)
  /\ (List.length (normalized issues) + List.length (reported issues)
      = List.length issues)%nat
  /\ (forall i1 i2 i3 r1 r3 e,
        issues = [i1; i2; i3] ->
        process_issue i1 = Ok r1 ->
        process_issue i2 = Raise e ->
        process_issue i3 = Ok r3 ->
        process_issues issues = Ok ([r1; r3], [e])).
Proof.
  assert (H : process_issues issues
              = Ok (normalized issues, reported issues))
    by apply process_loop_spec.
  split; [exact H|]. split; [apply normalized_reported_length|].
  intros i1 i2 i3 r1 r3 e -> H1 H2 H3. rewrite H.
  unfold normalized, reported. cbn [flat_map].
  rewrite H1, H2, H3. reflexivity.
Qed.

Lemma process_issues_isolates_failures_witness :
  exists r1 r3,
    process_issues three_issues = Ok ([r1; r3], [TypeError])
    /\ Issue.key r1 = str "A-1" /\ Issue.key r3 = str "A-3".
Proof.
  destruct (process_issues_isolates_failures three_issues) as (_ & _ & H).
  eexists. eexists. split.
  - apply (H _ _ _ _ _ _ eq_refl); vm_compute; reflexivity.
  - split; reflexivity.
Defined.

(** ** No null field *)

Lemma safe_get_filled (data : value) (keys : pystr) (v : value) :
  safe_get data keys = Ok v -> filled v.
Proof. apply safe_get_loop_filled, filled_sentinel. Qed.

Lemma convert_time_filled (v w : value) :
  filled v -> convert_time v = Ok w -> filled w.
Proof.
  intros Hv. rewrite convert_time_unfold. intros [= <-].
  destruct (strptime v) as [dt|]; [|exact Hv].
  split; [discriminate|]. unfold strftime.
  destruct (fmt_year_not_empty (year dt)) as (c & rest & ->). discriminate.
Qed.

Lemma comment_dict_filled (comment : value) (c : Comment.t) :
  comment_dict comment = Ok c -> Forall filled (comment_values c).
Proof.
  unfold comment_dict. intros H. bind_inv H. injection H as <-.
  unfold comment_values. cbn.
  repeat apply Forall_cons; try apply Forall_nil;
    eauto using safe_get_filled, convert_time_filled.
Qed.

Lemma comment_loop_filled (comments : list value) :
  forall comment_list l,
    Forall (fun c => Forall filled (comment_values c)) comment_list ->
    comment_loop comments comment_list = Ok l ->
    Forall (fun c => Forall filled (comment_values c)) l.
Proof.
  induction comments as [|c cs IH]; intros acc l Hacc; simpl.
  - now intros [= <-].
  - intros H. bind_inv H. eapply IH; [|exact H].
    apply Forall_app. split; [exact Hacc|].
    apply Forall_cons; [|apply Forall_nil].
    now apply comment_dict_filled with c.
Qed.

Lemma filled_empty_list : filled (VList []).
Proof. split; discriminate. Qed.

Lemma slice_year_filled (created y : value) :
  filled created -> py_slice created 0 4 = Ok y -> filled y.
Proof.
  intros [_ Hne]. destruct created as [| | | | s | l |]; simpl; try discriminate.
  - intros [= <-]. destruct s as [|c s]; [congruence|].
    split; discriminate.
  - intros [= <-]. split; discriminate.
Qed.

Lemma slice_not_none (created m : value) (lo hi : nat) :
  py_slice created lo hi = Ok m -> m <> VNone.
Proof.
  destruct created; simpl; try discriminate; intros [= <-]; discriminate.
Qed.

Lemma process_issue_fields (issue : value) (item : Issue.t) :
  process_issue issue = Ok item -> issue_fields_ok item.
Proof.
  unfold process_issue. intros H. bind_inv H. injection H as <-.
  unfold issue_fields_ok. cbn.
  assert (Hcreated : filled a4)
    by eauto using safe_get_filled, convert_time_filled.
  split; [|split].
  - repeat apply Forall_cons; try apply Forall_nil;
      eauto using safe_get_filled.
    + destruct (negb _) in E10.
      * bind_inv E10. injection E10 as <-. cbn.
        eauto using slice_year_filled.
      * injection E10 as <-. apply filled_sentinel.
    + unfold safe_get_with in E9.
      apply (safe_get_loop_filled _ _ _ _ filled_empty_list E9).
  - destruct (negb _) in E10.
    + bind_inv E10. injection E10 as <-. cbn.
      eauto using slice_not_none.
    + injection E10 as <-. discriminate.
  - destruct (truthy a9 && isinstance_list a9) in E11.
    + destruct a9; try (injection E11 as <-; apply Forall_nil).
      apply (comment_loop_filled _ _ _ (Forall_nil _) E11).
    + injection E11 as <-. apply Forall_nil.
Qed.

Lemma normalized_fields (issues : list value) :
  Forall issue_fields_ok (normalized issues).
Proof.
  unfold normalized. apply Forall_flat_map, Forall_forall.
  intros issue _. destruct (process_issue issue) as [item|e] eqn:E.
  - apply Forall_cons; [|apply Forall_nil].
    now apply process_issue_fields with issue.
  - apply Forall_nil.
Qed.

Lemma expand_fields (item : Issue.t) :
  issue_fields_ok item -> Forall row_fields_ok (expand item).
Proof.
  intros (Hs & Hm & Hc). unfold expand.
  assert (Hscalars : forall c a t,
             filled c ->
             Forall filled
               [Row.key (make_row item c a t); Row.type (make_row item c a t);
                Row.Summary (make_row item c a t);
                Row.created (make_row item c a t);
                Row.created_year (make_row item c a t);
                Row.status (make_row item c a t);
                Row.resolution (make_row item c a t);
                Row.environment (make_row item c a t);
                Row.description (make_row item c a t);
                Row.comment (make_row item c a t)]).
  { intros c a t Hfc. cbn.
    repeat match goal with
           | H : Forall _ (_ :: _) |- _ => inversion_clear H
           end.
    repeat apply Forall_cons; try apply Forall_nil; assumption. }
  destruct (Issue.comment_data item) as [|c0 cs] eqn:E.
  - apply Forall_cons; [|apply Forall_nil].
    split; [|split].
    + apply Hscalars. split; discriminate.
    + exact Hm.
    + right. reflexivity.
  - apply Forall_forall. intros r Hr. apply in_map_iff in Hr.
    destruct Hr as (c & <- & Hin).
    rewrite Forall_forall in Hc. specialize (Hc c Hin).
    unfold comment_values in Hc.
    repeat match goal with
           | H : Forall _ (_ :: _) |- _ => inversion_clear H
           end.
    split; [|split].
    + now apply Hscalars.
    + exact Hm.
    + left. split; assumption.
Qed.

(** C4, as stated, fails: an issue without comments is normalized
    without failure, and its row has the empty string in the comment
    author and comment created time columns. *)
Lemma placeholder_row_has_empty_columns :
  exists processed,
    process_issues
      [raw_issue "A-1" (str "2024-07-15T10:00:00.000+0800") []]
    = Ok (processed, [])
    /\ ~ Forall (fun r => Forall filled (row_values r))
           (format_dataframe processed).
Proof.
  eexists. split; [vm_compute; reflexivity|].
  intros H. inversion_clear H as [|r rows Hr _].
  unfold row_values in Hr. apply Forall_app in Hr. destruct Hr as [_ Hr].
  inversion_clear Hr as [|v vs _ Hr'].
  inversion_clear Hr' as [|v vs [_ Hauthor] _].
  now apply Hauthor.
Qed.

(** A [created] that is not a timestamp and has fewer than six
    characters passes [convert_time] unchanged, and its slice [5:7] is
    the empty string. *)
Lemma short_created_gives_empty_month :
  exists item,
    process_issue (raw_issue "A-3" (str "2024") []) = Ok item
    /\ Issue.created item = str "2024"
    /\ Issue.created_month item = VStr []
    /\ ~ Forall filled (issue_values item).
Proof.
  eexists. split; [vm_compute; reflexivity|].
  split; [reflexivity|]. split; [reflexivity|].
  intros H. unfold issue_values in H. apply Forall_app in H.
  destruct H as [H _]. rewrite Forall_forall in H.
  destruct (H (VStr [])) as [_ Hne]; [|now apply Hne].
  cbn. tauto.
Qed.

(** C4, amended.  In the records [process_issues] returns and in the
    rows [format_dataframe] makes of them no field is [None]; every field
    read through [safe_get], the created year and the columns copied
    from them are never the empty string; the comment author and comment
    created time of a row are empty exactly on the placeholder row of an
    issue without comments.  (Nothing is said here on whether
    [created_month] can be empty.) *)
Theorem normalized_fields_never_null (issues : list value)
  (processed : list Issue.t) (printed : list exn) :
  process_issues issues = Ok (processed, printed) ->
  Forall issue_fields_ok processed
  /\ Forall row_fields_ok (format_dataframe processed).
Proof.
  intros H. unfold process_issues in H. rewrite process_loop_spec in H.
  injection H as <- _. cbn [app].
  pose proof (normalized_fields issues) as Hn.
  split; [exact Hn|].
  rewrite format_dataframe_expand. apply Forall_flat_map.
  revert Hn. apply Forall_impl. exact expand_fields.
Qed.

Lemma normalized_fields_never_null_witness :
  exists processed,
    process_issues three_issues = Ok (processed, [TypeError])
    /\ Forall issue_fields_ok processed
    /\ Forall row_fields_ok (format_dataframe processed).
Proof.
  eexists. split; [vm_compute; reflexivity|].
  apply (normalized_fields_never_null three_issues _ [TypeError]).
  vm_compute. reflexivity.
Defined.

(** ** [while True] *)

Section WhileTrueFacts.
Context {St R : Type}.
Variable body : St -> exc (control St R).

Lemma while_true_reach (k fuel : nat) :
  forall st st',
    reach body k st = Some st' ->
    while_true body (k + fuel) st = while_true body fuel st'.
Proof.
  induction k as [|k IH]; intros st st'; simpl.
  - now intros [= ->].
  - destruct (body st) as [[r|st1]|e]; try discriminate. apply IH.
Qed.

Lemma while_true_leaves (fuel : nat) (st : St) :
  leaves body st -> exists r, while_true body (S fuel) st = Some r.
Proof.
  unfold leaves. intros H. simpl.
  destruct (body st) as [[r|st1]|e]; eauto. now destruct (H st1).
Qed.

Lemma while_true_stops (fuel : nat) :
  forall st r,
    while_true body fuel st = Some r ->
    exists k st', reach body k st = Some st' /\ leaves body st'.
Proof.
  induction fuel as [|fuel IH]; intros st r; simpl; [discriminate|].
  destruct (body st) as [[r0|st1]|e] eqn:E.
  - intros _. exists 0%nat, st. split; [reflexivity|].
    intros st'. rewrite E. discriminate.
  - intros H. destruct (IH _ _ H) as (k & st' & Hk & Hl).
    exists (S k), st'. simpl. now rewrite E.
  - intros _. exists 0%nat, st. split; [reflexivity|].
    intros st'. rewrite E. discriminate.
Qed.

(** The loop ends exactly when it reaches a turn that leaves it. *)
Lemma while_true_terminates_iff (st : St) :
  terminates (fun fuel => while_true body fuel st)
  <-> exists k st', reach body k st = Some st' /\ leaves body st'.
Proof.
  split.
  - intros (fuel & r & H). now apply while_true_stops with fuel r.
  - intros (k & st' & Hk & Hl).
    destruct (while_true_leaves 0 st' Hl) as [r Hr].
    exists (k + 1)%nat, r. now rewrite (while_true_reach k 1 st st' Hk).
Qed.

Lemma while_true_never (st0 : St) (inv : St -> Prop) :
  inv st0 ->
  (forall st, inv st -> exists st', body st = Ok (Continue st') /\ inv st') ->
  forall fuel, while_true body fuel st0 = None.
Proof.
  intros H0 Hstep fuel. revert st0 H0.
  induction fuel as [|fuel IH]; intros st Hst; [reflexivity|].
  simpl. destruct (Hstep st Hst) as (st' & -> & Hst'). now apply IH.
Qed.
End WhileTrueFacts.

(** ** Pagination over a source that holds a list of records *)

Lemma firstn_then_page {A : Type} (s p : nat) (l : list A) :
  firstn s l ++ firstn p (skipn s l) = firstn (s + p) l.
Proof.
  revert l. induction s as [|s IH]; intros l; [reflexivity|].
  destruct l as [|a l]; simpl.
  - now rewrite firstn_nil.
  - now rewrite IH.
Qed.

Lemma page_length {A : Type} (records : list A) (s p : nat) :
  List.length (page records (Z.of_nat s) (Z.of_nat p))
  = Nat.min p (List.length records - s).
Proof.
  unfold page. rewrite !Nat2Z.id, length_firstn, length_skipn. reflexivity.
Qed.

Lemma collected_then_page {A : Type} (records : list A) (s p : nat) :
  firstn s records ++ page records (Z.of_nat s) (Z.of_nat p)
  = firstn (s + p) records.
Proof. unfold page. rewrite !Nat2Z.id. apply firstn_then_page. Qed.

Lemma py_ge_int (n m : Z) : py_ge n (VInt m) = Ok (m <=? n).
Proof.
  unfold py_ge. simpl. f_equal.
  destruct (n ?= m) eqn:E.
  - apply Z.compare_eq in E. subst. symmetry. apply Z.leb_refl.
  - symmetry. apply Z.leb_gt. now apply Z.compare_lt_iff.
  - symmetry. apply Z.leb_le. apply Z.compare_gt_iff in E. lia.
Qed.

Section HonestSource.
Variable records : list value.
Variable p : nat.
Hypothesis p_positive : (1 <= p)%nat.

Lemma library_honest_run (fuel : nat) :
  forall c s,
    (s <= List.length records)%nat -> (List.length records - s < fuel)%nat ->
    while_true (library_body (honest_library records) (Z.of_nat p)) fuel
      (mk_state c (map mk_issue (firstn s records)) (Z.of_nat s))
    = Some (Ok (map mk_issue records)).
Proof.
  induction fuel as [|fuel IH]; intros c s Hs Hfuel; [lia|].
  cbn [while_true]. unfold library_body.
  cbn [honest_library search_issues calls start_at all_issues bind].
  rewrite <- map_app, collected_then_page.
  unfold len. rewrite length_map, page_length.
  destruct (Z.ltb_spec (Z.of_nat (Nat.min p (List.length records - s))) (Z.of_nat p))
    as [Hshort|Hfull].
  - rewrite firstn_all2 by (lia). reflexivity.
  - replace (Z.of_nat s + Z.of_nat (Nat.min p (List.length records - s)))
      with (Z.of_nat (s + p)) by lia.
    apply IH; lia.
Qed.

Lemma honest_api_turn (c : nat) (s : nat) :
  api_body (honest_api records) (Z.of_nat p)
    (mk_state c (firstn s records) (Z.of_nat s))
  = let got := Nat.min p (List.length records - s) in
    if Z.of_nat (List.length records) <=? Z.of_nat s + Z.of_nat got
    then Ok (Break (firstn (s + p) records))
    else Ok (Continue (mk_state (S c) (firstn (s + p) records)
                         (Z.of_nat s + Z.of_nat got))).
Proof.
  unfold api_body.
  cbn [honest_api calls start_at all_issues bind status_code json].
  change (negb (200 =? 200)) with false. cbv iota.
  change (py_get (VDict ?d) (u "issues") ?x)
    with (Ok (VList (page records (Z.of_nat s) (Z.of_nat p)))).
  cbn [bind py_extend py_len].
  change (py_get (VDict ?d) (u "total") ?x) with (Ok (VInt (len records))).
  cbn [bind]. rewrite py_ge_int. cbn [bind].
  rewrite collected_then_page. unfold len. rewrite page_length.
  reflexivity.
Qed.

Lemma api_honest_run (fuel : nat) :
  forall c s,
    (s <= List.length records)%nat -> (List.length records - s < fuel)%nat ->
    while_true (api_body (honest_api records) (Z.of_nat p)) fuel
      (mk_state c (firstn s records) (Z.of_nat s))
    = Some (Ok records).
Proof.
  induction fuel as [|fuel IH]; intros c s Hs Hfuel; [lia|].
  cbn [while_true]. rewrite honest_api_turn. cbv zeta.
  destruct (Z.leb_spec (Z.of_nat (List.length records))
              (Z.of_nat s + Z.of_nat (Nat.min p (List.length records - s)))) as [Hend|Hmore].
  - rewrite firstn_all2 by (lia). reflexivity.
  - replace (Z.of_nat s + Z.of_nat (Nat.min p (List.length records - s)))
      with (Z.of_nat (s + p)) by lia.
    apply IH; lia.
Qed.
End HonestSource.

Lemma map_raw_mk_issue (records : list value) :
  map raw (map mk_issue records) = records.
Proof. rewrite map_map. cbn. apply map_id. Qed.

Lemma fetch_via_library_honest (records : list value) (P : Z) (fuel : nat) :
  1 <= P -> (List.length records < fuel)%nat ->
  fetch_via_library_with P fuel (honest_library records) = Some (Ok records).
Proof.
  intros HP Hfuel. unfold fetch_via_library_with.
  cbn [honest_library connect]. fold (honest_library records).
  rewrite <- (Z2Nat.id P) by lia.
  change (@initial jira_issue)
    with (mk_state 0 (map mk_issue (firstn 0 records)) (Z.of_nat 0)).
  rewrite library_honest_run by lia.
  cbn [bind try_except_Exception]. now rewrite map_raw_mk_issue.
Qed.

Lemma fetch_via_api_honest (records : list value) (P : Z) (fuel : nat) :
  1 <= P -> (List.length records < fuel)%nat ->
  fetch_via_api_with P fuel (honest_api records) = Some (Ok records).
Proof.
  intros HP Hfuel. unfold fetch_via_api_with.
  rewrite <- (Z2Nat.id P) by lia.
  change (@initial value)
    with (mk_state 0 (firstn 0 records) (Z.of_nat 0)).
  rewrite api_honest_run by lia. reflexivity.
Qed.

(** C1.  The library loop loses records when the server serves fewer
    records a page than the 100 asked: against a source that holds three
    issues and serves one a page it stops after the first page, which is
    shorter than 100, and returns one issue of the three.  The REST loop,
    which stops on the total the server reports, returns all three from
    the same pages. *)
Theorem fetch_via_library_loses_records :
  fetch_via_library 4 (capped_library 1 three_issues)
  = Some (Ok (firstn 1 three_issues))
  /\ firstn 1 three_issues <> three_issues
  /\ fetch_via_api 4 (capped_api 1 three_issues) = Some (Ok three_issues).
Proof.
  split; [vm_compute; reflexivity|].
  split; [discriminate|vm_compute; reflexivity].
Qed.

(** X21.  Against a source that holds [N] records and serves the page
    asked for (the REST one reporting [N] as the total), both functions
    return exactly the [N] records in source order, each once, given
    fuel for more than [N] turns. *)
Theorem fetch_complete_from_served_pages (records : list value)
  (fuel : nat) :
  (List.length records < fuel)%nat ->
  fetch_via_library fuel (honest_library records) = Some (Ok records)
  /\ fetch_via_api fuel (honest_api records) = Some (Ok records).
Proof.
  intros Hfuel. split.
  - apply fetch_via_library_honest; [lia|exact Hfuel].
  - apply fetch_via_api_honest; [lia|exact Hfuel].
Qed.

(** Three records, fetched in one page. *)
Lemma fetch_complete_from_served_pages_witness :
  fetch_via_library 4 (honest_library three_issues) = Some (Ok three_issues)
  /\ fetch_via_api 4 (honest_api three_issues) = Some (Ok three_issues).
Proof.
  apply (fetch_complete_from_served_pages three_issues 4). simpl. lia.
Defined.

(** ** Transport failures *)

Lemma library_failure_exits (src : library_source) (block_size : Z)
  (k fuel : nat) (st : fetch_state jira_issue) :
  connect src = Ok tt ->
  reach (library_body src block_size) k initial = Some st ->
  library_request_fails src block_size st ->
  (k < fuel)%nat ->
  fetch_via_library_with block_size fuel src = Some (sys_exit 1).
Proof.
  intros Hc Hk (e & He & Hexc) Hfuel. unfold fetch_via_library_with.
  rewrite Hc. replace fuel with (k + S (fuel - S k))%nat by lia.
  rewrite (while_true_reach _ _ _ _ _ Hk). cbn [while_true].
  unfold library_body. rewrite He. cbn [bind try_except_Exception].
  now rewrite Hexc.
Qed.

Lemma api_failure_exits (src : api_source) (max_results : Z)
  (k fuel : nat) (st : fetch_state value) :
  reach (api_body src max_results) k initial = Some st ->
  api_request_fails src max_results st ->
  (k < fuel)%nat ->
  fetch_via_api_with max_results fuel src = Some (sys_exit 1).
Proof.
  intros Hk Hfail Hfuel. unfold fetch_via_api_with.
  replace fuel with (k + S (fuel - S k))%nat by lia.
  rewrite (while_true_reach _ _ _ _ _ Hk). cbn [while_true].
  unfold api_body.
  destruct Hfail as [(e & He & Hexc)|[(r & Hr & Hs)
                                     |(r & e & Hr & Hs & Hj & Hexc)]].
  - rewrite He. cbn [bind try_except_Exception]. now rewrite Hexc.
  - rewrite Hr. cbn [bind]. apply Z.eqb_neq in Hs. rewrite Hs. reflexivity.
  - rewrite Hr. cbn [bind]. rewrite Hs, Hj.
    cbn [Z.eqb Pos.eqb negb bind try_except_Exception]. now rewrite Hexc.
Qed.

(** C6.  A failure of the transport ends the whole retrieval with
    [sys.exit(1)], whatever was collected before: a failing [JIRA(...)]
    constructor, an exception raised by any request either loop makes, a
    REST answer whose status is not 200, or a REST answer of status 200
    on whose body [response.json()] raises.  The fetch then returns no
    list at all, and [main] ends with the same exit, before
    [process_issues] is given anything. *)
Theorem transport_failure_is_fatal :
  (forall (src : library_source) (e : exn) (fuel : nat),
      connect src = Raise e -> is_Exception e = true ->
      fetch_via_library fuel src = Some (sys_exit 1))
  /\ (forall (src : library_source) (k fuel : nat) st,
         connect src = Ok tt ->
         reach (library_body src 100) k initial = Some st ->
         library_request_fails src 100 st ->
         (k < fuel)%nat ->
         fetch_via_library fuel src = Some (sys_exit 1))
  /\ (forall (src : api_source) (k fuel : nat) st,
         reach (api_body src 100) k initial = Some st ->
         api_request_fails src 100 st ->
         (k < fuel)%nat ->
         fetch_via_api fuel src = Some (sys_exit 1))
  /\ (forall fuel method lib api output_formats code,
         fetch fuel method lib api = Some (sys_exit code) ->
         main fuel method lib api output_formats = Some (sys_exit code)).
Proof.
  split; [|split; [|split]].
  - intros src e fuel Hc He. unfold fetch_via_library, fetch_via_library_with.
    rewrite Hc. cbn [try_except_Exception]. now rewrite He.
  - intros src k fuel st. apply library_failure_exits.
  - intros src k fuel st. apply api_failure_exits.
  - intros fuel method lib api output_formats code H.
    unfold main. unfold fetch in H. rewrite H. reflexivity.
Qed.

(** A source that fails with status 503 after a first page of 100
    records, and one whose second answer has a body that is not JSON. *)
Lemma transport_failure_is_fatal_witness :
  fetch_via_api 5 flaky_api = Some (sys_exit 1)
  /\ main 5 ViaApi (honest_library []) flaky_api [Csv] = Some (sys_exit 1)
  /\ fetch_via_api 5 garbled_api = Some (sys_exit 1).
Proof.
  destruct transport_failure_is_fatal as (_ & _ & Hapi & Hmain).
  assert (H : fetch_via_api 5 flaky_api = Some (sys_exit 1)).
  { eapply (Hapi flaky_api 1%nat 5%nat).
    - vm_compute. reflexivity.
    - right. left. eexists. split; [vm_compute; reflexivity|]. cbn. lia.
    - lia. }
  split; [exact H|]. split; [apply Hmain; exact H|].
  eapply (Hapi garbled_api 1%nat 5%nat).
  - vm_compute. reflexivity.
  - right. right. exists (mk_response 200 (u "<html>") (Raise ValueError)).
    exists ValueError. repeat split.
  - lia.
Defined.

(** ** Termination of the loops *)

Lemma empty_pages_api_loops (fuel : nat) :
  while_true (api_body empty_pages_api 100) fuel initial = None.
Proof.
  apply while_true_never with (inv := fun st => start_at st = 0);
    [reflexivity|].
  intros [c acc s] Hst. cbn in Hst. subst s.
  exists (mk_state (S c) (acc ++ []) 0). split; reflexivity.
Qed.

Lemma full_pages_library_loops (fuel : nat) :
  while_true (library_body full_pages_library 100) fuel initial = None.
Proof.
  apply while_true_never with (inv := fun _ => True); [exact I|].
  intros [c acc s] _.
  exists (mk_state (S c) (acc ++ repeat (mk_issue VNone) 100) (s + 100)).
  split; [reflexivity|exact I].
Qed.

(** C7, as stated, fails: the REST loop never ends against a source that
    reports a total of 1 and returns empty pages, and the library loop
    never ends against a source whose pages are always full. *)
Lemma pagination_may_not_terminate :
  ~ terminates (fun fuel => fetch_via_api fuel empty_pages_api)
  /\ ~ terminates (fun fuel => fetch_via_library fuel full_pages_library).
Proof.
  split; intros (fuel & r & H); revert H.
  - unfold fetch_via_api, fetch_via_api_with.
    now rewrite empty_pages_api_loops.
  - unfold fetch_via_library, fetch_via_library_with.
    cbn [full_pages_library connect]. fold full_pages_library.
    now rewrite full_pages_library_loops.
Qed.

Lemma library_leaves_iff (src : library_source) (block_size : Z)
  (st : fetch_state jira_issue) :
  leaves (library_body src block_size) st
  <-> short_page_or_raise src block_size st.
Proof.
  unfold leaves, short_page_or_raise, library_body.
  destruct (search_issues src (calls st) (start_at st) block_size)
    as [issues|e]; cbn [bind].
  - destruct (Z.ltb_spec (len issues) block_size); split.
    + intros _. assumption.
    + intros _ st'. discriminate.
    + intros H0. now destruct (H0 _ eq_refl).
    + lia.
  - split; [trivial|]. intros _ st'. discriminate.
Qed.

Lemma terminates_map {A B : Type} (run : nat -> option A)
  (run' : nat -> option B) :
  (forall fuel, run fuel = None <-> run' fuel = None) ->
  terminates run <-> terminates run'.
Proof.
  intros H. unfold terminates.
  split; intros (fuel & a & Ha); exists fuel.
  - destruct (run' fuel) eqn:E; [eauto|]. apply H in E. congruence.
  - destruct (run fuel) eqn:E; [eauto|]. apply H in E. congruence.
Qed.

Lemma fetch_via_library_terminates_iff (src : library_source) :
  terminates (fun fuel => fetch_via_library fuel src)
  <-> (exists e, connect src = Raise e)
      \/ (exists k st,
             reach (library_body src 100) k initial = Some st
             /\ short_page_or_raise src 100 st).
Proof.
  unfold fetch_via_library, fetch_via_library_with.
  destruct (connect src) as [[]|e] eqn:Hc.
  - rewrite (terminates_map _
               (fun fuel => while_true (library_body src 100) fuel initial)).
    + rewrite while_true_terminates_iff. split.
      * intros (k & st & Hk & Hl). right. exists k, st.
        split; [exact Hk|]. now apply library_leaves_iff.
      * intros [(e & He)|(k & st & Hk & Hs)]; [discriminate|].
        exists k, st. split; [exact Hk|]. now apply library_leaves_iff.
    + intros fuel.
      destruct (while_true (library_body src 100) fuel initial);
        split; congruence.
  - split; [eauto|]. intros _. exists 0%nat. eauto.
Qed.

Lemma fetch_via_api_terminates_iff (src : api_source) :
  terminates (fun fuel => fetch_via_api fuel src)
  <-> exists k st,
        reach (api_body src 100) k initial = Some st
        /\ leaves (api_body src 100) st.
Proof.
  unfold fetch_via_api, fetch_via_api_with.
  rewrite (terminates_map _
             (fun fuel => while_true (api_body src 100) fuel initial)).
  - apply while_true_terminates_iff.
  - intros fuel.
    destruct (while_true (api_body src 100) fuel initial); split; congruence.
Qed.

Lemma api_body_breaks_at_total (src : api_source) (st : fetch_state value)
  (r : response) (issues : list value) (total : Z) :
  src (calls st) (start_at st) 100 = Ok r ->
  status_code r = 200 ->
  json r = Ok (VDict [field "issues" (VList issues);
                      field "total" (VInt total)]) ->
  total <= start_at st + len issues ->
  api_body src 100 st = Ok (Break (all_issues st ++ issues)).
Proof.
  intros Hr Hs Hj Ht. unfold api_body. rewrite Hr. cbn [bind].
  rewrite Hs, Hj. cbn [bind negb Z.eqb Pos.eqb].
  change (py_get (VDict ?d) (u "issues") ?x) with (Ok (VList issues)).
  cbn [bind py_extend py_len].
  change (py_get (VDict ?d) (u "total") ?x) with (Ok (VInt total)).
  cbn [bind]. rewrite py_ge_int. cbn [bind].
  apply Z.leb_le in Ht. now rewrite Ht.
Qed.

(** *** The pages of a run *)

Lemma reach_snoc {St R : Type} (body : St -> exc (control St R)) (k : nat) :
  forall st0 st',
    reach body (S k) st0 = Some st'
    <-> exists st, reach body k st0 = Some st /\ body st = Ok (Continue st').
Proof.
  induction k as [|k IH]; intros st0 st'.
  - cbn [reach]. split.
    + intros H. exists st0. split; [reflexivity|].
      destruct (body st0) as [[r|st1]|e]; congruence.
    + intros (st & [= <-] & ->). reflexivity.
  - change (reach body (S (S k)) st0)
      with (match body st0 with
            | Ok (Continue st1) => reach body (S k) st1
            | _ => None
            end).
    change (reach body (S k) st0)
      with (match body st0 with
            | Ok (Continue st1) => reach body k st1
            | _ => None
            end).
    destruct (body st0) as [[r|st1]|e].
    + split; [discriminate|]. now intros (st & H & _).
    + apply IH.
    + split; [discriminate|]. now intros (st & H & _).
Qed.

Lemma len_app {A : Type} (l l' : list A) : len (l ++ l') = len l + len l'.
Proof. unfold len. rewrite length_app. lia. Qed.

Lemma after_snoc {A : Type} (pages : list (list A)) (issues : list A) :
  after (pages ++ [issues])
  = mk_state (S (List.length pages)) (concat pages ++ issues)
      (len (concat pages) + len issues).
Proof.
  unfold after. rewrite length_app, concat_app. cbn [concat List.length].
  rewrite app_nil_r, len_app. f_equal. lia.
Qed.

(** *** The library loop *)

Lemma library_body_after (src : library_source) (block_size : Z)
  (pages : list (list jira_issue)) :
  library_body src block_size (after pages)
  = match
      search_issues src (List.length pages) (len (concat pages)) block_size
    with
    | Ok issues =>
        if len issues <? block_size
        then Ok (Break (concat pages ++ issues))
        else Ok (Continue (after (pages ++ [issues])))
    | Raise e => Raise e
    end.
Proof.
  unfold library_body. cbn [after calls start_at all_issues].
  destruct (search_issues _ _ _ _) as [issues|e]; [|reflexivity].
  cbn [bind]. now rewrite after_snoc.
Qed.

Lemma library_reach_pages (src : library_source) (block_size : Z) (k : nat) :
  forall st,
    reach (library_body src block_size) k initial = Some st
    <-> exists pages,
          List.length pages = k
          /\ library_pages src block_size pages
          /\ st = after pages.
Proof.
  induction k as [|k IH]; intros st.
  - cbn [reach]. split.
    + intros [= <-]. exists []. repeat split. constructor.
    + intros (pages & Hl & _ & ->).
      destruct pages; [reflexivity|discriminate Hl].
  - rewrite reach_snoc. split.
    + intros (st1 & H1 & Hb). apply IH in H1.
      destruct H1 as (pages & Hl & Hp & ->).
      rewrite library_body_after in Hb.
      destruct (search_issues _ _ _ _) as [issues|e] eqn:E;
        [|discriminate Hb].
      destruct (Z.ltb_spec (len issues) block_size); [discriminate Hb|].
      injection Hb as <-. exists (pages ++ [issues]).
      split; [rewrite length_app; cbn; lia|].
      split; [now apply library_pages_snoc|reflexivity].
    + intros (pages & Hl & Hp & ->).
      inversion Hp as [E|pages' issues Hp' Hs Hfull E].
      * rewrite <- E in Hl. discriminate Hl.
      * exists (after pages'). split.
        -- apply IH. exists pages'. repeat split; [|exact Hp'].
           rewrite <- E, length_app in Hl. cbn in Hl. lia.
        -- rewrite library_body_after, Hs.
           destruct (Z.ltb_spec (len issues) block_size); [lia|reflexivity].
Qed.

Lemma library_terminates_iff_stops (src : library_source) :
  terminates (fun fuel => fetch_via_library fuel src)
  <-> (exists e, connect src = Raise e)
      \/ (exists pages,
             library_pages src 100 pages /\ library_stops src 100 pages).
Proof.
  rewrite fetch_via_library_terminates_iff.
  split; (intros [H|H]; [now left|right]).
  - destruct H as (k & st & Hk & Hs). apply library_reach_pages in Hk.
    destruct Hk as (pages & _ & Hp & ->). exists pages. now split.
  - destruct H as (pages & Hp & Hs).
    exists (List.length pages), (after pages). split; [|exact Hs].
    apply library_reach_pages. exists pages. now repeat split.
Qed.

Lemma library_short_page_result (src : library_source)
  (pages : list (list jira_issue)) (issues : list jira_issue) (fuel : nat) :
  connect src = Ok tt ->
  library_pages src 100 pages ->
  search_issues src (List.length pages) (len (concat pages)) 100 = Ok issues ->
  len issues < 100 ->
  (List.length pages < fuel)%nat ->
  fetch_via_library fuel src = Some (Ok (map raw (concat pages ++ issues))).
Proof.
  intros Hc Hp Hs Hshort Hfuel.
  unfold fetch_via_library, fetch_via_library_with. rewrite Hc.
  assert (Hr : reach (library_body src 100) (List.length pages) initial
               = Some (after pages))
    by (apply library_reach_pages; exists pages; now repeat split).
  replace fuel with (List.length pages + S (fuel - S (List.length pages)))%nat
    by lia.
  rewrite (while_true_reach _ _ _ _ _ Hr). cbn [while_true].
  rewrite library_body_after, Hs.
  destruct (Z.ltb_spec (len issues) 100); [reflexivity|lia].
Qed.

(** *** The REST loop *)

Lemma api_body_page (src : api_source) (max_results : Z)
  (st : fetch_state value) (r : response) (issues : list value) (total : Z) :
  src (calls st) (start_at st) max_results = Ok r ->
  page_of r = Some (issues, total) ->
  api_body src max_results st
  = Ok (if total <=? start_at st + len issues
        then Break (all_issues st ++ issues)
        else Continue (mk_state (S (calls st)) (all_issues st ++ issues)
                         (start_at st + len issues))).
Proof.
  intros Hr Hp. unfold api_body. rewrite Hr. cbn [bind].
  unfold page_of in Hp.
  destruct (status_code r =? 200); [|discriminate Hp]. cbn [negb].
  destruct (json r) as [[| | | | | |d]|e]; try discriminate Hp.
  cbn [bind py_get].
  destruct (lookup (u "issues") d) as [[| | | | |l|]|];
    try discriminate Hp;
    destruct (lookup (u "total") d) as [[| |t| | | |]|];
    try discriminate Hp;
    injection Hp as <- <-; cbn [bind py_extend py_len];
    rewrite py_ge_int; cbn [bind];
    destruct (_ <=? _); reflexivity.
Qed.

Lemma api_body_no_page (src : api_source) (max_results : Z)
  (st : fetch_state value) (r : response) :
  src (calls st) (start_at st) max_results = Ok r ->
  status_code r <> 200 \/ (exists e, json r = Raise e) ->
  exists e, api_body src max_results st = Raise e.
Proof.
  intros Hr H. unfold api_body. rewrite Hr. cbn [bind].
  destruct (Z.eqb_spec (status_code r) 200) as [E|E]; cbn [negb].
  - destruct H as [H|(e & He)]; [now destruct H|].
    rewrite He. cbn [bind]. eauto.
  - unfold sys_exit. eauto.
Qed.

Lemma api_body_after (src : api_source) (max_results : Z)
  (pages : list (list value)) (r : response) (issues : list value)
  (total : Z) :
  src (List.length pages) (len (concat pages)) max_results = Ok r ->
  page_of r = Some (issues, total) ->
  api_body src max_results (after pages)
  = Ok (if total <=? len (concat pages) + len issues
        then Break (concat pages ++ issues)
        else Continue (after (pages ++ [issues]))).
Proof.
  intros Hr Hp. rewrite after_snoc.
  exact (api_body_page src max_results (after pages) r issues total Hr Hp).
Qed.

Lemma api_pages_reach (src : api_source) (max_results : Z)
  (pages : list (list value)) :
  api_pages src max_results pages ->
  reach (api_body src max_results) (List.length pages) initial
  = Some (after pages).
Proof.
  induction 1 as [|pages r issues total Hp IH Hr Hpage Hlt]; [reflexivity|].
  rewrite length_app, Nat.add_1_r. apply reach_snoc.
  exists (after pages). split; [exact IH|].
  rewrite (api_body_after _ _ _ _ _ _ Hr Hpage).
  destruct (Z.leb_spec total (len (concat pages) + len issues));
    [lia|reflexivity].
Qed.

Lemma api_reach_pages (src : api_source) (max_results : Z) (k : nat) :
  pages_only src max_results ->
  forall st,
    reach (api_body src max_results) k initial = Some st ->
    exists pages, api_pages src max_results pages /\ st = after pages.
Proof.
  intros Hsrc. induction k as [|k IH]; intros st.
  - intros [= <-]. exists []. split; [constructor|reflexivity].
  - rewrite reach_snoc. intros (st1 & H1 & Hb).
    destruct (IH _ H1) as (pages & Hp & ->).
    destruct (src (List.length pages) (len (concat pages)) max_results)
      as [r|e] eqn:Hr.
    + destruct (page_of r) as [[issues total]|] eqn:Hpage.
      * rewrite (api_body_after _ _ _ _ _ _ Hr Hpage) in Hb.
        destruct (Z.leb_spec total (len (concat pages) + len issues));
          [discriminate Hb|].
        injection Hb as <-. exists (pages ++ [issues]).
        split; [|reflexivity]. now apply api_pages_snoc with r total.
      * destruct (Z.eq_dec (status_code r) 200) as [Hs|Hs].
        -- destruct (json r) as [v|e] eqn:Hj.
           ++ now destruct (Hsrc _ _ _ _ Hr Hs Hj).
           ++ destruct (api_body_no_page src max_results (after pages) r Hr)
                as [e' He']; [right; eauto|congruence].
        -- destruct (api_body_no_page src max_results (after pages) r Hr)
             as [e' He']; [now left|congruence].
    + unfold api_body in Hb. cbn [after calls start_at] in Hb.
      rewrite Hr in Hb. discriminate Hb.
Qed.

Lemma api_stops_leaves (src : api_source) (max_results : Z)
  (pages : list (list value)) :
  api_stops src max_results pages ->
  leaves (api_body src max_results) (after pages).
Proof.
  unfold api_stops, leaves. intros H st'.
  destruct (src (List.length pages) (len (concat pages)) max_results)
    as [r|e] eqn:Hr.
  - destruct H as [H|[H|(issues & total & Hpage & Hle)]].
    + destruct (api_body_no_page src max_results (after pages) r Hr)
        as [e' ->]; [now left|discriminate].
    + destruct (api_body_no_page src max_results (after pages) r Hr)
        as [e' ->]; [now right|discriminate].
    + rewrite (api_body_after _ _ _ _ _ _ Hr Hpage).
      destruct (Z.leb_spec total (len (concat pages) + len issues));
        [discriminate|lia].
  - unfold api_body. cbn [after calls start_at]. rewrite Hr. discriminate.
Qed.

Lemma api_leaves_stops (src : api_source) (max_results : Z)
  (pages : list (list value)) :
  pages_only src max_results ->
  leaves (api_body src max_results) (after pages) ->
  api_stops src max_results pages.
Proof.
  unfold api_stops, leaves. intros Hsrc H.
  destruct (src (List.length pages) (len (concat pages)) max_results)
    as [r|e] eqn:Hr; [|exact I].
  destruct (Z.eq_dec (status_code r) 200) as [Hs|Hs]; [|now left].
  destruct (json r) as [v|e] eqn:Hj; [|right; left; eauto].
  destruct (page_of r) as [[issues total]|] eqn:Hpage;
    [|now destruct (Hsrc _ _ _ _ Hr Hs Hj)].
  right. right. exists issues, total. split; [reflexivity|].
  specialize (H (after (pages ++ [issues]))).
  rewrite (api_body_after _ _ _ _ _ _ Hr Hpage) in H.
  destruct (Z.leb_spec total (len (concat pages) + len issues));
    [assumption|now destruct H].
Qed.

Lemma api_terminates_iff_stops (src : api_source) :
  pages_only src 100 ->
  terminates (fun fuel => fetch_via_api fuel src)
  <-> exists pages, api_pages src 100 pages /\ api_stops src 100 pages.
Proof.
  intros Hsrc. rewrite fetch_via_api_terminates_iff. split.
  - intros (k & st & Hk & Hl).
    destruct (api_reach_pages src 100 k Hsrc st Hk) as (pages & Hp & ->).
    exists pages. split; [exact Hp|]. now apply api_leaves_stops.
  - intros (pages & Hp & Hs).
    exists (List.length pages), (after pages).
    split; [now apply api_pages_reach|now apply api_stops_leaves].
Qed.

Lemma api_total_reached_result (src : api_source)
  (pages : list (list value)) (r : response) (issues : list value)
  (total : Z) (fuel : nat) :
  api_pages src 100 pages ->
  src (List.length pages) (len (concat pages)) 100 = Ok r ->
  page_of r = Some (issues, total) ->
  total <= len (concat pages) + len issues ->
  (List.length pages < fuel)%nat ->
  fetch_via_api fuel src = Some (Ok (concat pages ++ issues)).
Proof.
  intros Hp Hr Hpage Hle Hfuel.
  unfold fetch_via_api, fetch_via_api_with.
  replace fuel with (List.length pages + S (fuel - S (List.length pages)))%nat
    by lia.
  rewrite (while_true_reach _ _ _ _ _ (api_pages_reach _ _ _ Hp)).
  cbn [while_true]. rewrite (api_body_after _ _ _ _ _ _ Hr Hpage).
  destruct (Z.leb_spec total (len (concat pages) + len issues));
    [reflexivity|lia].
Qed.

(** C7, amended.  The library loop ends exactly when the constructor
    fails or when, after a run of pages none of which is shorter than the
    100 records asked, it gets to a request that raises or returns fewer;
    a short page ends it with the records of all the pages got.  Against a
    source whose answers of status 200 with a JSON body are all pages, the
    REST loop ends exactly when, after a run of pages with each of which
    the number of records got is still below the total the page reports,
    it gets to a request that raises, to an answer of another status or
    with a body that is not JSON, or to a page with which the number of
    records got reaches the total reported; such a page ends it with the
    records of all the pages got.  Both loops end against a source that
    serves the pages of a finite list and reports its length. *)
Theorem pagination_terminates_iff_a_page_stops :
  (forall src : library_source,
      terminates (fun fuel => fetch_via_library fuel src)
      <-> (exists e, connect src = Raise e)
          \/ (exists pages,
                 library_pages src 100 pages /\ library_stops src 100 pages))
  /\ (forall (src : library_source) pages issues fuel,
         connect src = Ok tt ->
         library_pages src 100 pages ->
         search_issues src (List.length pages) (len (concat pages)) 100
         = Ok issues ->
         len issues < 100 ->
         (List.length pages < fuel)%nat ->
         fetch_via_library fuel src
         = Some (Ok (map raw (concat pages ++ issues))))
  /\ (forall src : api_source,
         pages_only src 100 ->
         terminates (fun fuel => fetch_via_api fuel src)
         <-> exists pages,
               api_pages src 100 pages /\ api_stops src 100 pages)
  /\ (forall (src : api_source) pages r issues total fuel,
         api_pages src 100 pages ->
         src (List.length pages) (len (concat pages)) 100 = Ok r ->
         page_of r = Some (issues, total) ->
         total <= len (concat pages) + len issues ->
         (List.length pages < fuel)%nat ->
         fetch_via_api fuel src = Some (Ok (concat pages ++ issues)))
  /\ (forall records : list value,
         terminates (fun fuel => fetch_via_library fuel (honest_library records))
         /\ terminates (fun fuel => fetch_via_api fuel (honest_api records))).
Proof.
  split; [exact library_terminates_iff_stops|].
  split; [exact library_short_page_result|].
  split; [exact api_terminates_iff_stops|].
  split; [exact api_total_reached_result|].
  intros records. split.
  - exists (S (List.length records)), (Ok records).
    apply fetch_via_library_honest; lia.
  - exists (S (List.length records)), (Ok records).
    apply fetch_via_api_honest; lia.
Qed.

(** Three records are one short page for the library loop and one page
    that reaches its total for the REST loop. *)
Lemma pagination_terminates_iff_a_page_stops_witness :
  terminates (fun fuel => fetch_via_library fuel (honest_library three_issues))
  /\ fetch_via_library 1 (honest_library three_issues)
     = Some (Ok three_issues)
  /\ terminates (fun fuel => fetch_via_api fuel (honest_api three_issues))
  /\ fetch_via_api 1 (honest_api three_issues) = Some (Ok three_issues).
Proof.
  destruct pagination_terminates_iff_a_page_stops
    as (Hlib & Hshort & Hapi & Htotal & _).
  split; [|split; [|split]].
  - apply (proj2 (Hlib (honest_library three_issues))).
    right. exists []. split; [constructor|]. vm_compute. reflexivity.
  - apply (Hshort (honest_library three_issues) [] (map mk_issue three_issues)).
    + reflexivity.
    + constructor.
    + reflexivity.
    + vm_compute. reflexivity.
    + cbn. lia.
  - assert (Hsrc : pages_only (honest_api three_issues) 100)
      by (intros calls start_at r v [= <-] _ _; discriminate).
    apply (proj2 (Hapi (honest_api three_issues) Hsrc)).
    exists []. split; [constructor|].
    right. right. exists three_issues, 3. split; [reflexivity|].
    vm_compute. discriminate.
  - apply (Htotal (honest_api three_issues) []
             (mk_response 200 []
                (Ok (VDict [field "startAt" (VInt 0);
                            field "maxResults" (VInt 100);
                            field "total" (VInt 3);
                            field "issues" (VList three_issues)])))
             three_issues 3).
    + constructor.
    + reflexivity.
    + reflexivity.
    + vm_compute. discriminate.
    + cbn. lia.
Defined.

(** ** The summary of [main] *)

(** What the summary reports when the fetch returns [issues]: the number
    of issues fetched, and the number of canonical records. *)
Lemma main_summary_counts (fuel : nat) (method : fetch_method)
  (lib : library_source) (api : api_source)
  (output_formats : list output_format) (issues : list value) :
  fetch fuel method lib api = Some (Ok issues) ->
  exists s,
    main fuel method lib api output_formats = Some (Ok s)
    /\ issues_processed s = len issues
    /\ data_rows s = len (normalized issues)
    /\ artifacts s
       = map (fun fmt => generate fmt (normalized issues)) output_formats.
Proof.
  intros H. unfold main. unfold fetch in H. rewrite H. cbn [bind].
  unfold process_issues. rewrite process_loop_spec. cbn [bind fst app].
  eexists. split; [reflexivity|]. repeat split.
Qed.

(** C10.  For one fetched issue with two comments exported as CSV, the
    summary reports 1 issue fetched, which is right, and 1 data row,
    while the table handed to the CSV writer has 2 rows: the number
    printed as data rows is the number of canonical records. *)
Theorem summary_data_rows_counts_records :
  exists s rows,
    main 2 ViaApi (honest_library []) (honest_api [commented_issue]) [Csv]
    = Some (Ok s)
    /\ issues_processed s = 1
    /\ artifacts s = [Table Csv rows]
    /\ len rows = 2
    /\ data_rows s = 1.
Proof.
  eexists. eexists. split; [vm_compute; reflexivity|].
  repeat split.
Qed.

(* ================================================================== *)
(** * Further properties *)

(** ** safe_get with the default of the comments *)

Lemma py_eq_empty_list (v : value) : py_eq v (VList []) = true <-> v = VList [].
Proof.
  destruct v as [| | | | | l |]; simpl; split; try congruence.
  - destruct l; [reflexivity|discriminate].
  - intros [= ->]. reflexivity.
Qed.

Lemma deep_or_empty_list_of_empty (rest : list pystr) :
  deep_or_empty_list (VList []) rest = VList [].
Proof. destruct rest; reflexivity. Qed.

Lemma safe_get_loop_empty_list (keys : list pystr) :
  forall data,
    safe_get_loop data keys (VList []) = Ok (deep_or_empty_list data keys).
Proof.
  induction keys as [|key rest IH]; intros data.
  - cbn [safe_get_loop]. unfold or_default, deep_or_empty_list.
    cbn [descend]. rewrite py_in_none_or_empty.
    now destruct (is_none_or_empty data).
  - destruct data; try reflexivity.
    cbn [safe_get_loop isinstance_dict py_get bind].
    unfold deep_or_empty_list at 1. cbn [descend].
    destruct (lookup key d) as [v|] eqn:L.
    + destruct (py_eq v (VList [])) eqn:E.
      * apply py_eq_empty_list in E. subst v.
        fold (deep_or_empty_list (VList []) rest).
        now rewrite deep_or_empty_list_of_empty.
      * rewrite IH. reflexivity.
    + reflexivity.
Qed.

(** X1.  With the default [[]], [safe_get] returns without raising the
    value found by descending the path, and the empty list when a step
    meets a non-mapping or a missing key or when the value found is
    [None] or the empty string; the result is never [None] and never the
    empty string. *)
Theorem safe_get_empty_list_default (data : value) (keys : pystr) :
  exists v,
    safe_get_with data keys (VList []) = Ok v
    /\ v = deep_or_empty_list data (split_on dot keys)
    /\ v <> VNone /\ v <> VStr [].
Proof.
  exists (deep_or_empty_list data (split_on dot keys)).
  assert (H : safe_get_with data keys (VList [])
              = Ok (deep_or_empty_list data (split_on dot keys)))
    by apply safe_get_loop_empty_list.
  split; [exact H|]. split; [reflexivity|].
  apply (safe_get_loop_filled _ _ _ _ filled_empty_list H).
Qed.

(** ** What [strptime] accepts *)

Lemma rmatch_sound {A : Type} (r : regex) :
  forall (s : pystr) (env : captures) (k : pystr -> captures -> option A)
         (a : A),
    rmatch r s env k = Some a ->
    exists p s' env', s = p ++ s' /\ matches r p /\ k s' env' = Some a.
Proof.
  induction r as [p| |r1 IH1 r2 IH2|r1 IH1 r2 IH2|g r IH];
    intros s env k a; cbn [rmatch].
  - destruct s as [|c s']; [discriminate|].
    destruct (p c) eqn:E; [|discriminate]. intros H.
    exists [c], s', env. repeat split; [|exact H]. now constructor.
  - intros H. exists [], s, env. repeat split; [constructor|exact H].
  - intros H. destruct (IH1 _ _ _ _ H) as (p1 & s1 & env1 & -> & M1 & H1).
    destruct (IH2 _ _ _ _ H1) as (p2 & s2 & env2 & -> & M2 & H2).
    exists (p1 ++ p2), s2, env2. rewrite <- app_assoc.
    repeat split; [|exact H2]. now constructor.
  - destruct (rmatch r1 s env k) as [a1|] eqn:E.
    + intros [= ->]. destruct (IH1 _ _ _ _ E) as (p & s' & env' & -> & M & H).
      exists p, s', env'. repeat split; [|exact H]. now apply matches_alt_l.
    + intros H. destruct (IH2 _ _ _ _ H) as (p & s' & env' & -> & M & H').
      exists p, s', env'. repeat split; [|exact H']. now apply matches_alt_r.
  - intros H. destruct (IH _ _ _ _ H) as (p & s' & env' & -> & M & H').
    eexists p, s', _. repeat split; [|exact H']. now constructor.
Qed.

Lemma strptime_matches (s : pystr) (dt : datetime) :
  strptime (VStr s) = Ok dt -> matches Re.jira_format s.
Proof.
  unfold strptime, re_match.
  destruct (rmatch Re.jira_format s no_captures
              (fun s' env => Some (s', env))) as [[rest found]|] eqn:E;
    [|discriminate].
  destruct rest as [|c rest]; [|discriminate]. intros _.
  destruct (rmatch_sound _ _ _ _ _ E) as (p & s' & env' & Hs & M & Hk).
  injection Hk as Hs' _. subst s' s. now rewrite app_nil_r.
Qed.

Lemma matches_char_inv (f : N -> bool) (p : pystr) :
  matches (RChar f) p -> exists c, p = [c] /\ f c = true.
Proof. intros H. inversion H; subst. eauto. Qed.

Lemma lit_i_T_matches (p : pystr) :
  matches (Re.lit_i "t" "T") p -> existsb is_T p = true.
Proof.
  intros H. apply matches_char_inv in H. destruct H as (c & -> & Hc).
  cbn [existsb]. rewrite orb_false_r. unfold is_T.
  apply orb_true_iff in Hc. destruct Hc as [Hc|Hc];
    apply N.eqb_eq in Hc; subst c; reflexivity.
Qed.

Lemma jira_format_has_T (p : pystr) :
  matches Re.jira_format p -> existsb is_T p = true.
Proof.
  unfold Re.jira_format. intros H.
  repeat match goal with
         | H : matches (RSeq _ _) _ |- _ => inversion_clear H
         end.
  rewrite !existsb_app.
  match goal with
  | H : matches (Re.lit_i _ _) _ |- _ =>
      rewrite (lit_i_T_matches _ H)
  end.
  rewrite ?orb_true_r. reflexivity.
Qed.

Lemma is_T_digit_char (n : Z) : is_T (digit_char n) = false.
Proof.
  unfold is_T, digit_char. pose proof (Z.mod_pos_bound n 10 ltac:(lia)).
  apply orb_false_iff. split; apply N.eqb_neq; lia.
Qed.

Lemma strftime_has_no_T (dt : datetime) : existsb is_T (strftime dt) = false.
Proof.
  unfold strftime, fmt_year, fmt4, fmt2.
  change (u "-") with [45%N]. change (u " ") with [32%N].
  change (u ":") with [58%N].
  destruct (year dt <? 10); [|destruct (year dt <? 100);
                               [|destruct (year dt <? 1000)]];
    cbn [app existsb]; rewrite !is_T_digit_char; reflexivity.
Qed.

Lemma strptime_rejects_without_T (s : pystr) :
  existsb is_T s = false -> exists e, strptime (VStr s) = Raise e.
Proof.
  intros H. destruct (strptime (VStr s)) as [dt|e] eqn:E; [|eauto].
  apply strptime_matches, jira_format_has_T in E. congruence.
Qed.

(** X2.  A string without the letter [T] (in either case), such as a
    date without a time or a timestamp that is already canonical, is
    returned unchanged by [convert_time]. *)
Theorem convert_time_keeps_strings_without_T (s : pystr) :
  existsb is_T s = false -> convert_time (VStr s) = Ok (VStr s).
Proof.
  intros H. destruct (strptime_rejects_without_T s H) as [e He].
  rewrite convert_time_unfold, He. reflexivity.
Qed.

Lemma convert_time_keeps_strings_without_T_witness :
  convert_time (VStr (u "2024-07-15")) = Ok (VStr (u "2024-07-15")).
Proof.
  apply convert_time_keeps_strings_without_T. reflexivity.
Defined.

(** X3.  [convert_time] is idempotent: converting its result again
    changes nothing, for every input. *)
Theorem convert_time_idempotent (v : value) :
  (w <- convert_time v ;; convert_time w) = convert_time v.
Proof.
  rewrite (convert_time_unfold v). cbn [bind].
  destruct (strptime v) as [dt|e] eqn:E.
  - destruct (strptime_rejects_without_T _ (strftime_has_no_T dt))
      as [e' He].
    rewrite convert_time_unfold, He. reflexivity.
  - rewrite convert_time_unfold, E. reflexivity.
Qed.

(** ** The source format, parsed *)

Section Matcher.
Context {A : Type}.
Implicit Types (k : pystr -> captures -> option A) (env : captures).

Lemma rmatch_char p c s env k :
  p c = true -> rmatch (RChar p) (c :: s) env k = k s env.
Proof. intros H. cbn [rmatch]. now rewrite H. Qed.

Lemma rmatch_char_no p c s env k :
  p c = false -> rmatch (RChar p) (c :: s) env k = None.
Proof. intros H. cbn [rmatch]. now rewrite H. Qed.

Lemma rmatch_seq r1 r2 s env k :
  rmatch (RSeq r1 r2) s env k
  = rmatch r1 s env (fun s' env' => rmatch r2 s' env' k).
Proof. reflexivity. Qed.

Lemma rmatch_seq_char p r c s env k :
  p c = true -> rmatch (RSeq (RChar p) r) (c :: s) env k = rmatch r s env k.
Proof. intros H. cbn [rmatch]. now rewrite H. Qed.

Lemma rmatch_seq_char_no p r c s env k :
  p c = false -> rmatch (RSeq (RChar p) r) (c :: s) env k = None.
Proof. intros H. cbn [rmatch]. now rewrite H. Qed.

Lemma rmatch_alt_left r1 r2 s env k a :
  rmatch r1 s env k = Some a -> rmatch (RAlt r1 r2) s env k = Some a.
Proof. intros H. cbn [rmatch]. now rewrite H. Qed.

Lemma rmatch_alt_right r1 r2 s env k :
  rmatch r1 s env k = None ->
  rmatch (RAlt r1 r2) s env k = rmatch r2 s env k.
Proof. intros H. cbn [rmatch]. now rewrite H. Qed.

Lemma rmatch_group g r s env k :
  rmatch (RGroup g r) s env k
  = rmatch r s env (fun s' env' => k s' (capture g (consumed s s') env')).
Proof. reflexivity. Qed.

Lemma rmatch_eps s env k : rmatch REps s env k = k s env.
Proof. reflexivity. Qed.
End Matcher.

Lemma consumed_app (p rest : pystr) : consumed (p ++ rest) rest = p.
Proof.
  unfold consumed. rewrite length_app.
  replace (List.length p + List.length rest - List.length rest)%nat
    with (List.length p) by lia.
  rewrite firstn_app, firstn_all, Nat.sub_diag. cbn. apply app_nil_r.
Qed.

Lemma is_decimal_digit_char (n : Z) : is_decimal (digit_char n) = true.
Proof. apply is_digit_digit_char. Qed.

(** A test of the pattern on a character [digit_char n] or on a sign. *)
Ltac solve_test :=
  cbv beta; cbv [Re.code]; unfold digit_char;
  repeat match goal with
         | |- context [N_of_ascii ?a] =>
             let v := eval vm_compute in (N_of_ascii a) in
             change (N_of_ascii a) with v
         end;
  first [ apply N.eqb_eq
        | apply N.eqb_neq
        | apply andb_true_iff; split; apply N.leb_le
        | apply andb_false_iff;
          first [ left; apply N.leb_gt; Z.div_mod_to_equations; lia
                | right; apply N.leb_gt; Z.div_mod_to_equations; lia ] ];
  Z.div_mod_to_equations; lia.

Ltac two_chars :=
  rewrite rmatch_seq_char by solve_test;
  rewrite rmatch_char by first [apply is_decimal_digit_char | solve_test].

Ltac skip_alt :=
  rewrite rmatch_alt_right by (apply rmatch_seq_char_no; solve_test).

Ltac group_of p rest :=
  cbv beta; change (consumed _ rest) with (consumed (p ++ rest) rest);
  rewrite consumed_app.

Section Fields.
Context {A : Type}.
Implicit Types (k : pystr -> captures -> option A) (env : captures).

Lemma rmatch_lit (a : ascii) (rest : pystr) env k :
  rmatch (Re.lit a) (Re.code a :: rest) env k = k rest env.
Proof. apply rmatch_char, N.eqb_refl. Qed.

Lemma rmatch_dir_Y (y : Z) (rest : pystr) env k :
  rmatch Re.dir_Y (fmt4 y ++ rest) env k = k rest (capture GY (fmt4 y) env).
Proof.
  unfold Re.dir_Y, Re.digit, fmt4. cbn [app]. rewrite rmatch_group.
  rewrite !rmatch_seq_char by apply is_decimal_digit_char.
  rewrite rmatch_char by apply is_decimal_digit_char.
  group_of (fmt4 y) rest. reflexivity.
Qed.

Lemma rmatch_dir_m (v : Z) (rest : pystr) env k a :
  1 <= v <= 12 ->
  k rest (capture Gm (fmt2 v) env) = Some a ->
  rmatch Re.dir_m (fmt2 v ++ rest) env k = Some a.
Proof.
  intros Hv Hk. unfold Re.dir_m, Re.lit, Re.rng, fmt2. cbn [app].
  rewrite rmatch_group. apply rmatch_alt_left.
  destruct (Z.le_gt_cases 10 v).
  - apply rmatch_alt_left. two_chars. group_of (fmt2 v) rest. exact Hk.
  - skip_alt. two_chars. group_of (fmt2 v) rest. exact Hk.
Qed.

Lemma rmatch_dir_d (v : Z) (rest : pystr) env k a :
  1 <= v <= 31 ->
  k rest (capture Gd (fmt2 v) env) = Some a ->
  rmatch Re.dir_d (fmt2 v ++ rest) env k = Some a.
Proof.
  intros Hv Hk. unfold Re.dir_d, Re.lit, Re.rng, Re.digit, fmt2. cbn [app].
  rewrite rmatch_group. do 2 apply rmatch_alt_left.
  destruct (Z.le_gt_cases 30 v); [|destruct (Z.le_gt_cases 10 v)].
  - do 2 apply rmatch_alt_left. two_chars. group_of (fmt2 v) rest. exact Hk.
  - apply rmatch_alt_left. skip_alt. two_chars. group_of (fmt2 v) rest.
    exact Hk.
  - rewrite rmatch_alt_right.
    + two_chars. group_of (fmt2 v) rest. exact Hk.
    + skip_alt. apply rmatch_seq_char_no. solve_test.
Qed.

Lemma rmatch_dir_H (v : Z) (rest : pystr) env k a :
  0 <= v <= 23 ->
  k rest (capture GH (fmt2 v) env) = Some a ->
  rmatch Re.dir_H (fmt2 v ++ rest) env k = Some a.
Proof.
  intros Hv Hk. unfold Re.dir_H, Re.lit, Re.rng, Re.digit, fmt2. cbn [app].
  rewrite rmatch_group. apply rmatch_alt_left.
  destruct (Z.le_gt_cases 20 v).
  - apply rmatch_alt_left. two_chars. group_of (fmt2 v) rest. exact Hk.
  - skip_alt. two_chars. group_of (fmt2 v) rest. exact Hk.
Qed.

Lemma rmatch_dir_M (v : Z) (rest : pystr) env k a :
  0 <= v <= 59 ->
  k rest (capture GM (fmt2 v) env) = Some a ->
  rmatch Re.dir_M (fmt2 v ++ rest) env k = Some a.
Proof.
  intros Hv Hk. unfold Re.dir_M, Re.rng, Re.digit, fmt2. cbn [app].
  rewrite rmatch_group. apply rmatch_alt_left.
  two_chars. group_of (fmt2 v) rest. exact Hk.
Qed.

Lemma rmatch_dir_S (v : Z) (rest : pystr) env k a :
  0 <= v <= 59 ->
  k rest (capture GS (fmt2 v) env) = Some a ->
  rmatch Re.dir_S (fmt2 v ++ rest) env k = Some a.
Proof.
  intros Hv Hk. unfold Re.dir_S, Re.lit, Re.rng, Re.digit, fmt2. cbn [app].
  rewrite rmatch_group. apply rmatch_alt_left.
  skip_alt. two_chars. group_of (fmt2 v) rest. exact Hk.
Qed.

(** The fraction ends where the sign of the offset starts. *)
Lemma rmatch_dir_f (v : Z) (west : bool) (rest : pystr) env k a :
  k (sign_char west :: rest) (capture Gf (fmt3 v) env) = Some a ->
  rmatch Re.dir_f (fmt3 v ++ sign_char west :: rest) env k = Some a.
Proof.
  intros Hk. unfold Re.dir_f, Re.rep_1_6, Re.opt, Re.rng, fmt3. cbn [app].
  rewrite rmatch_group.
  rewrite rmatch_seq_char by solve_test. apply rmatch_alt_left.
  rewrite rmatch_seq_char by solve_test. apply rmatch_alt_left.
  rewrite rmatch_seq_char by solve_test.
  rewrite rmatch_alt_right
    by (apply rmatch_seq_char_no; destruct west; reflexivity).
  rewrite rmatch_eps. group_of (fmt3 v) (sign_char west :: rest). exact Hk.
Qed.

(** The offset, at the end of the text. *)
Lemma rmatch_dir_z (west : bool) (h m : Z) env k a :
  0 <= m <= 59 ->
  k [] (capture Gz (sign_char west :: fmt2 h ++ fmt2 m) env) = Some a ->
  rmatch Re.dir_z (sign_char west :: fmt2 h ++ fmt2 m) env k = Some a.
Proof.
  intros Hm Hk.
  unfold Re.dir_z, Re.opt, Re.lit, Re.rng, Re.digit, fmt2. cbn [app].
  rewrite rmatch_group. apply rmatch_alt_left. rewrite rmatch_seq.
  assert (Hsign : forall s env' (k' : pystr -> captures -> option A),
             rmatch (RAlt (RChar (N.eqb (Re.code "+")))
                       (RChar (N.eqb (Re.code "-"))))
               (sign_char west :: s) env' k' = k' s env').
  { intros s env' k'. destruct west.
    - rewrite rmatch_alt_right by (now apply rmatch_char_no).
      now apply rmatch_char.
    - cbn [rmatch sign_char].
      change (N.eqb (Re.code "+") 43) with true. cbv iota.
      destruct (k' s env'); reflexivity. }
  rewrite Hsign. cbv beta.
  rewrite !rmatch_seq_char by apply is_decimal_digit_char.
  rewrite rmatch_seq.
  rewrite rmatch_alt_right by (apply rmatch_char_no; solve_test).
  rewrite rmatch_eps.
  rewrite rmatch_seq_char by solve_test.
  rewrite rmatch_seq_char by apply is_decimal_digit_char.
  rewrite rmatch_alt_right by reflexivity.
  rewrite rmatch_eps. cbv beta.
  change (consumed _ []) with
    (consumed ((sign_char west :: fmt2 h ++ fmt2 m) ++ []) []).
  rewrite consumed_app. exact Hk.
Qed.
End Fields.

Ltac bounds_of H :=
  repeat match type of H with
         | _ && _ = true =>
             let H' := fresh in
             apply andb_true_iff in H; destruct H as [H H'];
             first [apply Z.leb_le in H' | apply Z.ltb_lt in H']
         end;
  first [apply Z.leb_le in H | apply Z.ltb_lt in H].

Lemma re_match_source_text (t : stamp) :
  valid_stamp t = true ->
  re_match Re.jira_format (source_text t) = Some ([], stamp_groups t).
Proof.
  intros Hv. unfold valid_stamp in Hv. bounds_of Hv.
  pose proof (days_in_month_le (s_year t) (s_month t)).
  unfold re_match, Re.jira_format, source_text, stamp_groups.
  change (u "-") with [Re.code "-"]. change (u "T") with [Re.code "T"].
  change (u ":") with [Re.code ":"]. change (u ".") with [Re.code "."].
  cbn [app].
  rewrite rmatch_seq, rmatch_dir_Y. cbv beta.
  rewrite rmatch_seq, rmatch_lit. cbv beta.
  rewrite rmatch_seq. apply rmatch_dir_m; [lia|]. cbv beta.
  rewrite rmatch_seq, rmatch_lit. cbv beta.
  rewrite rmatch_seq. apply rmatch_dir_d; [lia|]. cbv beta.
  rewrite rmatch_seq. unfold Re.lit_i.
  rewrite rmatch_char by reflexivity. cbv beta.
  rewrite rmatch_seq. apply rmatch_dir_H; [lia|]. cbv beta.
  rewrite rmatch_seq, rmatch_lit. cbv beta.
  rewrite rmatch_seq. apply rmatch_dir_M; [lia|]. cbv beta.
  rewrite rmatch_seq, rmatch_lit. cbv beta.
  rewrite rmatch_seq. apply rmatch_dir_S; [lia|]. cbv beta.
  rewrite rmatch_seq, rmatch_lit. cbv beta.
  rewrite rmatch_seq. apply rmatch_dir_f. cbv beta.
  apply rmatch_dir_z; [lia|]. reflexivity.
Qed.

Lemma fmt3_pad6 (v : Z) :
  0 <= v <= 999 -> py_int (pad6 (fmt3 v)) = Ok (v * 1000).
Proof.
  intros Hv. unfold py_int, pad6, fmt3. cbn [List.length Nat.sub repeat app].
  cbn [lstrip]. rewrite digit_char_not_blank. cbn [forallb].
  rewrite !is_digit_digit_char.
  change (is_digit 48) with true. cbn [andb].
  unfold digits_value. cbn [fold_left]. rewrite !digit_char_value.
  change (decimal_value 48) with 0.
  f_equal. Z.div_mod_to_equations. lia.
Qed.

Lemma parse_offset_sign (west : bool) (h m : Z) :
  0 <= h <= 99 -> 0 <= m <= 99 ->
  parse_offset (sign_char west :: fmt2 h ++ fmt2 m)
  = Ok (let off := (h * 60 * 60 + m * 60 + 0) * 1000000 + 0 in
        if west then - off else off).
Proof.
  intros Hh Hm. unfold parse_offset.
  assert (Hz : str_eqb (sign_char west :: fmt2 h ++ fmt2 m) (u "Z") = false).
  { destruct (str_eqb _ _) eqn:E; [|reflexivity].
    apply str_eqb_eq in E. discriminate E. }
  rewrite Hz.
  assert (Hc : (nth 3 (sign_char west :: fmt2 h ++ fmt2 m) 0 =? colon)%N
               = false).
  { unfold fmt2. cbn [app nth]. unfold colon, digit_char.
    apply N.eqb_neq. Z.div_mod_to_equations. lia. }
  rewrite Hc. cbn [bind].
  change (slice 1 3 (sign_char west :: fmt2 h ++ fmt2 m)) with (fmt2 h).
  change (slice 3 5 (sign_char west :: fmt2 h ++ fmt2 m)) with (fmt2 m).
  rewrite (py_int_fmt2 h Hh), (py_int_fmt2 m Hm). cbn [bind].
  change (slice 5 7 (sign_char west :: fmt2 h ++ fmt2 m)) with (@nil N).
  change (skipn 8 (sign_char west :: fmt2 h ++ fmt2 m)) with (@nil N).
  change (py_int (pad6 [])) with (Ok 0). cbn [bind nth].
  destruct west; reflexivity.
Qed.

Lemma strptime_source_text (t : stamp) :
  valid_stamp t = true ->
  strptime (VStr (source_text t)) = Ok (stamp_time t).
Proof.
  intros Hv. unfold strptime. rewrite (re_match_source_text t Hv).
  unfold valid_stamp in Hv. bounds_of Hv.
  pose proof (days_in_month_le (s_year t) (s_month t)).
  unfold stamp_groups, group_text. cbn [capture group_eqb bind].
  rewrite py_int_fmt4 by lia. cbn [bind].
  rewrite !py_int_fmt2 by lia. cbn [bind].
  rewrite fmt3_pad6 by lia. cbn [bind].
  rewrite parse_offset_sign by lia. cbn [bind].
  unfold check_date, check_offset, check_time.
  repeat match goal with
         | |- context [?a <=? ?b] =>
             rewrite (proj2 (Z.leb_le a b)) by (try destruct (s_west t); lia)
         | |- context [?a <? ?b] =>
             rewrite (proj2 (Z.ltb_lt a b)) by (try destruct (s_west t); lia)
         end.
  cbn [andb bind]. reflexivity.
Qed.

Lemma strip_zeros_fmt_year (y : Z) (rest : pystr) :
  1 <= y <= 9999 -> strip_zeros (fmt4 y ++ rest) = fmt_year y ++ rest.
Proof.
  intros Hy. unfold fmt_year, fmt4, fmt2. cbn [app strip_zeros].
  assert (Hz : forall n, (digit_char n =? 48)%N = (n mod 10 =? 0)).
  { intros n. unfold digit_char.
    pose proof (Z.mod_pos_bound n 10 ltac:(lia)).
    destruct (Z.eqb_spec (n mod 10) 0) as [E|E].
    - apply N.eqb_eq. lia.
    - apply N.eqb_neq. lia. }
  rewrite !Hz.
  destruct (Z.ltb_spec y 10); [|destruct (Z.ltb_spec y 100);
                                 [|destruct (Z.ltb_spec y 1000)]].
  - rewrite !(proj2 (Z.eqb_eq _ 0)) by (Z.div_mod_to_equations; lia).
    rewrite (proj2 (Z.eqb_neq (y mod 10) 0))
      by (Z.div_mod_to_equations; lia).
    reflexivity.
  - rewrite !(proj2 (Z.eqb_eq ((y / 1000) mod 10) 0)),
      !(proj2 (Z.eqb_eq ((y / 100) mod 10) 0))
      by (Z.div_mod_to_equations; lia).
    rewrite (proj2 (Z.eqb_neq ((y / 10) mod 10) 0))
      by (Z.div_mod_to_equations; lia).
    reflexivity.
  - rewrite !(proj2 (Z.eqb_eq ((y / 1000) mod 10) 0))
      by (Z.div_mod_to_equations; lia).
    rewrite (proj2 (Z.eqb_neq ((y / 100) mod 10) 0))
      by (Z.div_mod_to_equations; lia).
    reflexivity.
  - rewrite (proj2 (Z.eqb_neq ((y / 1000) mod 10) 0))
      by (Z.div_mod_to_equations; lia).
    reflexivity.
Qed.

Lemma strftime_stamp_time (t : stamp) :
  valid_stamp t = true ->
  strftime (stamp_time t) = date_and_time (source_text t).
Proof.
  intros Hv. unfold valid_stamp in Hv. bounds_of Hv.
  unfold strftime, stamp_time, date_and_time, source_text.
  cbn [year month day hour minute second].
  change (slice 0 10 (fmt4 (s_year t) ++ ?x))
    with (fmt4 (s_year t) ++ u "-" ++ fmt2 (s_month t) ++ u "-"
            ++ fmt2 (s_day t)).
  rewrite strip_zeros_fmt_year by lia.
  rewrite <- !app_assoc. reflexivity.
Qed.

(** X20.  [convert_time] returns the sentinel, every value that is not a
    string and every string [strptime] rejects unchanged; a timestamp in
    the layout [YYYY-MM-DDTHH:MM:SS.mmm+HHMM] of the source format, with
    the fields of a date of the calendar, of a time of day and of an
    offset, is parsed to those fields and returned as its date and time
    with a blank for the [T], the year without the zeros it starts with;
    from the year 1000 on that is the first ten characters of the input, a
    blank and its characters 11 to 18, a text of the form
    [YYYY-MM-DD HH:MM:SS].  Whatever text is parsed, the result is what
    [strftime] prints for the parsed time; it never raises. *)
Theorem convert_time_laws :
  convert_time (VStr sentinel) = Ok (VStr sentinel)
  /\ (forall v, (forall s, v <> VStr s) -> convert_time v = Ok v)
  /\ (forall v e, strptime v = Raise e -> convert_time v = Ok v)
  /\ (forall t,
        valid_stamp t = true ->
        strptime (VStr (source_text t)) = Ok (stamp_time t)
        /\ convert_time (VStr (source_text t))
           = Ok (VStr (date_and_time (source_text t)))
        /\ (1000 <= s_year t ->
            date_and_time (source_text t)
            = slice 0 10 (source_text t) ++ u " "
                ++ slice 11 19 (source_text t)
            /\ is_canonical (date_and_time (source_text t)) = true))
  /\ (forall v dt,
        strptime v = Ok dt ->
        convert_time v = Ok (VStr (strftime dt))
        /\ (1000 <= year dt ->
            is_canonical (strftime dt) = true
            /\ shown (strftime dt) = wall_clock dt))
  /\ (forall v, exists r, convert_time v = Ok r).
Proof.
  split; [reflexivity|].
  split.
  { intros v Hv. rewrite convert_time_unfold.
    destruct v; try reflexivity. now destruct (Hv s). }
  split.
  { intros v e H. rewrite convert_time_unfold, H. reflexivity. }
  split.
  { intros t Hv. pose proof (strptime_source_text t Hv) as Hp.
    split; [exact Hp|]. split.
    - rewrite convert_time_unfold, Hp. now rewrite strftime_stamp_time.
    - intros Hy. rewrite <- (strftime_stamp_time t Hv). split.
      + unfold strftime, stamp_time, source_text.
        cbn [year month day hour minute second].
        rewrite (fmt_year_four_digits _ Hy). reflexivity.
      + apply strftime_canonical. exact Hy. }
  split.
  { intros v dt H. rewrite convert_time_unfold, H.
    destruct (strptime_checked v dt H) as (_ & Hd & Ht).
    split; [reflexivity|]. intros Hy. split.
    - now apply strftime_canonical.
    - now apply strftime_shows. }
  intros v. rewrite convert_time_unfold. eauto.
Qed.

(** A timestamp as the tracker sends it, one of the year 999 west of
    Greenwich, an integer, a date that does not exist, and a timestamp
    whose year is written in full-width digits. *)
Lemma convert_time_laws_witness :
  convert_time (VStr (u "2024-07-15T10:00:00.000+0800"))
  = Ok (VStr (u "2024-07-15 10:00:00"))
  /\ convert_time (VStr (u "0999-07-15T10:00:00.000-0330"))
     = Ok (VStr (u "999-07-15 10:00:00"))
  /\ convert_time (VInt 5) = Ok (VInt 5)
  /\ convert_time (VStr (u "2024-02-30T10:00:00.000+0800"))
     = Ok (VStr (u "2024-02-30T10:00:00.000+0800"))
  /\ convert_time (VStr (u "２０２４-07-15T10:00:00.000+0800"))
     = Ok (VStr (u "2024-07-15 10:00:00")).
Proof.
  destruct convert_time_laws as (_ & Hns & Hrej & Hst & Hacc & _).
  split; [|split; [|split; [|split]]].
  - exact (proj1 (proj2 (Hst (mk_stamp 2024 7 15 10 0 0 0 false 8 0)
                           eq_refl))).
  - exact (proj1 (proj2 (Hst (mk_stamp 999 7 15 10 0 0 0 true 3 30)
                           eq_refl))).
  - apply Hns. intros s. discriminate.
  - exact (Hrej (VStr (u "2024-02-30T10:00:00.000+0800")) ValueError eq_refl).
  - exact (proj1 (Hacc (VStr (u "２０２４-07-15T10:00:00.000+0800"))
                    (mk_datetime 2024 7 15 10 0 0 0 28800000000) eq_refl)).
Defined.

(** ** Normalization of one issue *)

Lemma comment_dict_closed_form (comment : value) :
  comment_dict comment = Ok (comment_of comment).
Proof.
  unfold comment_dict. rewrite !safe_get_ok. cbn [bind].
  rewrite convert_time_unfold. reflexivity.
Qed.

Lemma comment_loop_closed_form (comments : list value) :
  forall comment_list,
    comment_loop comments comment_list
    = Ok (comment_list ++ map comment_of comments).
Proof.
  induction comments as [|c cs IH]; intros acc; cbn [comment_loop map].
  - now rewrite app_nil_r.
  - rewrite comment_dict_closed_form. cbn [bind].
    rewrite IH, <- app_assoc. reflexivity.
Qed.

Lemma converted_sliceable (v : value) :
  sliceable (converted v) = sliceable v.
Proof.
  unfold converted. destruct (strptime v) as [dt|e] eqn:E; [|reflexivity].
  destruct (strptime_checked v dt E) as ((s & ->) & _). reflexivity.
Qed.

(** What the [try] body of [process_issues] does with a dict. *)
Lemma process_issue_dict (d : list (pystr * value)) (item : Issue.t) :
  process_issue (VDict d) = Ok item ->
  Issue.created item = converted (raw_created (VDict d))
  /\ Issue.comments item = raw_comments (VDict d)
  /\ Issue.comment_data item = comments_of (raw_comments (VDict d))
  /\ (if py_eq (Issue.created item) (VStr sentinel)
      then Issue.created_year item = VStr sentinel
           /\ Issue.created_month item = VStr sentinel
      else py_slice (Issue.created item) 0 4 = Ok (Issue.created_year item)
           /\ py_slice (Issue.created item) 5 7
              = Ok (Issue.created_month item)).
Proof.
  unfold process_issue, raw_created, raw_comments, fields_of.
  cbn [py_get bind]. rewrite !safe_get_ok. cbn [bind].
  rewrite convert_time_unfold. cbn [bind].
  unfold safe_get_with. rewrite safe_get_loop_empty_list. cbn [bind].
  fold (converted
          (deep_or_sentinel
             match lookup (u "fields") d with
             | Some v => v
             | None => VDict []
             end (split_on dot (u "created")))).
  generalize (converted
                (deep_or_sentinel
                   match lookup (u "fields") d with
                   | Some v => v
                   | None => VDict []
                   end (split_on dot (u "created")))).
  generalize (deep_or_empty_list
                match lookup (u "fields") d with
                | Some v => v
                | None => VDict []
                end (split_on dot (u "comment.comments"))).
  intros comments created H. bind_inv H. injection H as <-. cbn.
  split; [reflexivity|]. split; [reflexivity|]. split.
  - destruct comments as [| b | n | f | s | l | d'];
      try (destruct (truthy _ && _) in E0; injection E0 as <-; reflexivity).
    destruct l as [|c cs]; cbn [truthy isinstance_list andb] in E0.
    + injection E0 as <-. reflexivity.
    + rewrite comment_loop_closed_form in E0. injection E0 as <-.
      reflexivity.
  - destruct (py_eq created (VStr sentinel)); cbn in E.
    + injection E as <-. split; reflexivity.
    + bind_inv E. injection E as <-. cbn [fst snd]. split; reflexivity.
Qed.

Lemma process_issue_succeeds_iff (issue : value) :
  (exists item, process_issue issue = Ok item)
  <-> isinstance_dict issue = true /\ sliceable (raw_created issue) = true.
Proof.
  split.
  - intros (item & H). destruct issue as [| | | | | |d]; try discriminate H.
    split; [reflexivity|]. rewrite <- converted_sliceable.
    destruct (process_issue_dict d item H) as (Hc & _ & _ & Hym).
    rewrite <- Hc.
    destruct (py_eq (Issue.created item) (VStr sentinel)) eqn:E.
    + apply py_eq_str in E. now rewrite E.
    + destruct Hym as [Hy _]. destruct (Issue.created item); try discriminate Hy;
        reflexivity.
  - intros [Hd Hs]. destruct issue as [| | | | | |d]; try discriminate Hd.
    rewrite <- converted_sliceable in Hs.
    unfold process_issue. revert Hs.
    unfold raw_created, fields_of.
    cbn [py_get bind]. rewrite !safe_get_ok. cbn [bind].
    rewrite convert_time_unfold. cbn [bind].
    unfold safe_get_with. rewrite safe_get_loop_empty_list. cbn [bind].
    fold (converted
            (deep_or_sentinel
               match lookup (u "fields") d with
               | Some v => v
               | None => VDict []
               end (split_on dot (u "created")))).
    generalize (converted
                  (deep_or_sentinel
                     match lookup (u "fields") d with
                     | Some v => v
                     | None => VDict []
                     end (split_on dot (u "created")))).
    generalize (deep_or_empty_list
                  match lookup (u "fields") d with
                  | Some v => v
                  | None => VDict []
                  end (split_on dot (u "comment.comments"))).
    intros comments created Hs.
    assert (Hym : exists ym,
               (if negb (py_eq created (VStr sentinel))
                then y <- py_slice created 0 4 ;;
                     m <- py_slice created 5 7 ;; Ok (y, m)
                else Ok (VStr sentinel, VStr sentinel)) = Ok ym).
    { destruct (negb _); [|eauto].
      destruct created; try discriminate Hs; cbn; eauto. }
    destruct Hym as [ym ->]. cbn [bind].
    assert (Hl : exists l,
               (if truthy comments && isinstance_list comments
                then match comments with
                     | VList l => comment_loop l []
                     | _ => Ok []
                     end
                else Ok []) = Ok l).
    { destruct (truthy comments && isinstance_list comments); [|eauto].
      destruct comments; eauto. apply comment_loop_total. }
    destruct Hl as [l ->]. cbn [bind]. eauto.
Qed.

Lemma process_issue_dict_raises (d : list (pystr * value)) (e : exn) :
  process_issue (VDict d) = Raise e -> e = TypeError.
Proof.
  unfold process_issue. cbn [py_get bind]. rewrite !safe_get_ok.
  cbn [bind]. rewrite convert_time_unfold. cbn [bind].
  unfold safe_get_with. rewrite safe_get_loop_empty_list. cbn [bind].
  match goal with
  | |- bind ?X _ = _ -> _ => destruct X as [ym|e1] eqn:Ey
  end.
  2:{ cbn [bind]. intros [= <-].
      destruct (negb _) in Ey; [|discriminate Ey].
      match type of Ey with
      | bind (py_slice ?X _ _) _ = _ => destruct X; simpl in Ey; congruence
      end. }
  cbn [bind].
  match goal with
  | |- bind ?X _ = _ -> _ => assert (Hl : exists l, X = Ok l)
  end.
  { match goal with
    | |- exists l, (if ?c then _ else _) = _ => destruct c; [|eauto]
    end.
    match goal with
    | |- exists l, match ?c with _ => _ end = _ => destruct c; eauto
    end.
    apply comment_loop_total. }
  destruct Hl as [l ->]. cbn [bind]. discriminate.
Qed.

(** X4.  Normalizing one raw issue succeeds exactly when the issue is a
    JSON object whose [created] value, as [safe_get] returns it, is a
    string or a list.  An issue that is not an object raises
    [AttributeError]; an object whose [created] is a number, a boolean
    or an object raises [TypeError] at the slice. *)
Theorem process_issue_fails_exactly (issue : value) :
  ((exists item, process_issue issue = Ok item)
   <-> isinstance_dict issue = true /\ sliceable (raw_created issue) = true)
  /\ (isinstance_dict issue = false ->
      process_issue issue = Raise AttributeError)
  /\ (isinstance_dict issue = true ->
      sliceable (raw_created issue) = false ->
      process_issue issue = Raise TypeError).
Proof.
  split; [apply process_issue_succeeds_iff|]. split.
  - intros H. destruct issue; try reflexivity. discriminate H.
  - intros Hd Hs. destruct issue as [| | | | | |d]; try discriminate Hd.
    destruct (process_issue (VDict d)) as [item|e] eqn:E.
    + assert (Hok : exists item, process_issue (VDict d) = Ok item) by eauto.
      apply process_issue_succeeds_iff in Hok. destruct Hok as [_ Hok].
      congruence.
    + now rewrite (process_issue_dict_raises d e E).
Qed.

Lemma process_issue_fails_exactly_witness :
  process_issue (VList []) = Raise AttributeError
  /\ process_issue (raw_issue "A-2" (VBool true) []) = Raise TypeError.
Proof.
  split.
  - apply (proj1 (proj2 (process_issue_fails_exactly (VList [])))).
    reflexivity.
  - apply (proj2 (proj2 (process_issue_fails_exactly
                           (raw_issue "A-2" (VBool true) []))));
      reflexivity.
Defined.

Lemma strftime_not_sentinel (dt : datetime) :
  py_eq (VStr (strftime dt)) (VStr sentinel) = false.
Proof.
  destruct (py_eq _ _) eqn:E; [|reflexivity].
  apply py_eq_str in E. injection E as E. unfold strftime in E.
  destruct (fmt_year_not_empty (year dt)) as (c & rest & Hc).
  rewrite Hc in E.
  apply (f_equal (fun s => is_ascii_digit (hd 0%N s))) in E.
  cbn [app hd] in E. rewrite is_ascii_digit_digit_char in E.
  vm_compute in E. discriminate E.
Qed.

Lemma process_issue_is_dict (issue : value) (item : Issue.t) :
  process_issue issue = Ok item -> exists d, issue = VDict d.
Proof. destruct issue; try discriminate; eauto. Qed.

(** X5.  In a canonical record the year and the month follow [created]:
    when the raw [created] parses, [created] is the text [strftime]
    prints for the parsed time and the year and the month are its
    characters 0 to 3 and 5 to 6, which are the four-digit year and the
    two-digit month of the parsed time when the year is 1000 or later;
    when [created] is absent all three are the sentinel; when it is a
    string that does not parse, [created] is that string, the year its
    first four characters and the month its characters 5 and 6 (counted
    from 0). *)
Theorem created_year_and_month (issue : value) (item : Issue.t) :
  process_issue issue = Ok item ->
  (forall dt,
      strptime (raw_created issue) = Ok dt ->
      Issue.created item = VStr (strftime dt)
      /\ Issue.created_year item = VStr (slice 0 4 (strftime dt))
      /\ Issue.created_month item = VStr (slice 5 7 (strftime dt))
      /\ (1000 <= year dt ->
          Issue.created_year item = VStr (fmt4 (year dt))
          /\ Issue.created_month item = VStr (fmt2 (month dt))))
  /\ (raw_created issue = VStr sentinel ->
      Issue.created item = VStr sentinel
      /\ Issue.created_year item = VStr sentinel
      /\ Issue.created_month item = VStr sentinel)
  /\ (forall s e,
         raw_created issue = VStr s -> s <> sentinel ->
         strptime (VStr s) = Raise e ->
         Issue.created item = VStr s
         /\ Issue.created_year item = VStr (slice 0 4 s)
         /\ Issue.created_month item = VStr (slice 5 7 s)).
Proof.
  intros H. destruct (process_issue_is_dict _ _ H) as [d ->].
  destruct (process_issue_dict d item H) as (Hc & _ & _ & Hym).
  unfold converted in Hc. split; [|split].
  - intros dt Hdt. rewrite Hdt in Hc. rewrite Hc in Hym |- *.
    rewrite strftime_not_sentinel in Hym. destruct Hym as [Hy Hm].
    cbn [py_slice] in Hy, Hm. injection Hy as <-. injection Hm as <-.
    split; [reflexivity|]. split; [reflexivity|]. split; [reflexivity|].
    intros H1000. unfold strftime.
    rewrite (fmt_year_four_digits _ H1000). split; reflexivity.
  - intros Hs. rewrite Hs in Hc. cbn in Hc. rewrite Hc in Hym |- *.
    rewrite (proj2 (py_eq_str _ _) eq_refl) in Hym. tauto.
  - intros s e Hs Hne He. rewrite Hs, He in Hc. rewrite Hc in Hym |- *.
    destruct (py_eq (VStr s) (VStr sentinel)) eqn:E.
    + apply py_eq_str in E. congruence.
    + destruct Hym as [Hy Hm]. cbn in Hy, Hm.
      injection Hy as <-. injection Hm as <-. repeat split.
Qed.

(** A timestamp of 2024 and one of the year 999, whose year and month
    columns are the characters [999-] and [7-]. *)
Lemma created_year_and_month_witness :
  (exists item,
      process_issue commented_issue = Ok item
      /\ Issue.created item = str "2024-07-15 10:00:00"
      /\ Issue.created_year item = str "2024"
      /\ Issue.created_month item = str "07")
  /\ (exists item,
        process_issue
          (raw_issue "A-9" (str "0999-07-15T10:00:00.000+0800") [])
        = Ok item
        /\ Issue.created item = str "999-07-15 10:00:00"
        /\ Issue.created_year item = str "999-"
        /\ Issue.created_month item = str "7-").
Proof.
  split.
  - destruct (process_issue commented_issue) as [item|] eqn:E;
      [|vm_compute in E; discriminate E].
    exists item. split; [reflexivity|].
    assert (Hp : strptime (raw_created commented_issue)
                 = Ok (mk_datetime 2024 7 15 10 0 0 0 28800000000))
      by (vm_compute; reflexivity).
    destruct (proj1 (created_year_and_month commented_issue item E) _ Hp)
      as (Hc & _ & _ & Hy).
    destruct Hy as [Hy Hm]; [vm_compute; discriminate|].
    rewrite Hc, Hy, Hm. vm_compute. repeat split.
  - set (issue := raw_issue "A-9" (str "0999-07-15T10:00:00.000+0800") []).
    destruct (process_issue issue) as [item|] eqn:E;
      [|vm_compute in E; discriminate E].
    exists item. split; [reflexivity|].
    assert (Hp : strptime (raw_created issue)
                 = Ok (mk_datetime 999 7 15 10 0 0 0 28800000000))
      by (vm_compute; reflexivity).
    destruct (proj1 (created_year_and_month issue item E) _ Hp)
      as (Hc & Hy & Hm & _).
    rewrite Hc, Hy, Hm. vm_compute. repeat split.
Defined.

(** X6.  The canonical comments mirror the raw ones: [comment_data] has
    one entry for each element of the raw comment list, in order, built
    from that element alone; it is empty when the value at
    [comment.comments] is absent or is not a list. *)
Theorem comment_data_mirrors_raw_comments (issue : value) (item : Issue.t) :
  process_issue issue = Ok item ->
  Issue.comments item = raw_comments issue
  /\ Issue.comment_data item = comments_of (raw_comments issue)
  /\ (forall l, raw_comments issue = VList l ->
                Issue.comment_data item = map comment_of l
                /\ comment_count item = List.length l)
  /\ (isinstance_list (raw_comments issue) = false ->
      Issue.comment_data item = []).
Proof.
  intros H. destruct (process_issue_is_dict _ _ H) as [d ->].
  destruct (process_issue_dict d item H) as (_ & Hr & Hd & _).
  split; [exact Hr|]. split; [exact Hd|]. split.
  - intros l Hl. unfold comment_count. rewrite Hd, Hl. cbn [comments_of].
    split; [reflexivity|apply length_map].
  - intros Hn. rewrite Hd. destruct (raw_comments (VDict d)); try reflexivity.
    discriminate Hn.
Qed.

Lemma comment_data_mirrors_raw_comments_witness :
  exists item,
    process_issue commented_issue = Ok item /\ comment_count item = 2%nat.
Proof.
  eexists. split; [vm_compute; reflexivity|].
  refine (proj2 (proj1 (proj2 (proj2
            (comment_data_mirrors_raw_comments commented_issue _ eq_refl)))
            _ eq_refl)).
Defined.

(** ** More on the fetch loops and [main] *)

Section CappedSource.
Variable records : list value.
Variable q : nat.
Hypothesis q_positive : (1 <= q)%nat.
Variable cap : Z.
Hypothesis q_is_min : Z.min 100 cap = Z.of_nat q.

Lemma capped_api_turn (c : nat) (s : nat) :
  api_body (capped_api cap records) 100
    (mk_state c (firstn s records) (Z.of_nat s))
  = let got := Nat.min q (List.length records - s) in
    if Z.of_nat (List.length records) <=? Z.of_nat s + Z.of_nat got
    then Ok (Break (firstn (s + q) records))
    else Ok (Continue (mk_state (S c) (firstn (s + q) records)
                         (Z.of_nat s + Z.of_nat got))).
Proof.
  unfold api_body.
  cbn [capped_api calls start_at all_issues bind status_code json].
  change (negb (200 =? 200)) with false. cbv iota.
  rewrite q_is_min.
  change (py_get (VDict ?d) (u "issues") ?x)
    with (Ok (VList (page records (Z.of_nat s) (Z.of_nat q)))).
  cbn [bind py_extend py_len].
  change (py_get (VDict ?d) (u "total") ?x) with (Ok (VInt (len records))).
  cbn [bind]. rewrite py_ge_int. cbn [bind].
  rewrite collected_then_page. unfold len. rewrite page_length.
  reflexivity.
Qed.

Lemma capped_api_run (fuel : nat) :
  forall c s,
    (s <= List.length records)%nat -> (List.length records - s < fuel)%nat ->
    while_true (api_body (capped_api cap records) 100) fuel
      (mk_state c (firstn s records) (Z.of_nat s))
    = Some (Ok records).
Proof.
  induction fuel as [|fuel IH]; intros c s Hs Hfuel; [lia|].
  cbn [while_true]. rewrite capped_api_turn. cbv zeta.
  destruct (Z.leb_spec (Z.of_nat (List.length records))
              (Z.of_nat s + Z.of_nat (Nat.min q (List.length records - s))))
    as [Hend|Hmore].
  - rewrite firstn_all2 by lia. reflexivity.
  - replace (Z.of_nat s + Z.of_nat (Nat.min q (List.length records - s)))
      with (Z.of_nat (s + q)) by lia.
    apply IH; lia.
Qed.
End CappedSource.

(** X7.  The REST path is complete even when the server serves fewer
    records a page than asked: against a source that holds [N] records,
    caps its pages at any [cap >= 1] and reports [N] as the total,
    [fetch_via_api] returns exactly the [N] records in order. *)
Theorem fetch_via_api_complete_under_page_cap (records : list value)
  (cap : Z) (fuel : nat) :
  1 <= cap -> (List.length records < fuel)%nat ->
  fetch_via_api fuel (capped_api cap records) = Some (Ok records).
Proof.
  intros Hcap Hfuel. unfold fetch_via_api, fetch_via_api_with.
  change (@initial value)
    with (mk_state 0 (firstn 0 records) (Z.of_nat 0)).
  rewrite (capped_api_run records (Z.to_nat (Z.min 100 cap))) by lia.
  reflexivity.
Qed.

Lemma fetch_via_api_complete_under_page_cap_witness :
  fetch_via_api 4 (capped_api 2 three_issues) = Some (Ok three_issues).
Proof.
  apply fetch_via_api_complete_under_page_cap; [lia | simpl; lia].
Defined.

(** X8.  The library path stops at the first page shorter than 100:
    against a source that caps its pages below 100 it returns the first
    page only, however many records the source holds. *)
Theorem fetch_via_library_truncates_under_page_cap (records : list value)
  (cap : Z) (fuel : nat) :
  0 <= cap < 100 -> (1 <= fuel)%nat ->
  fetch_via_library fuel (capped_library cap records)
  = Some (Ok (firstn (Z.to_nat cap) records)).
Proof.
  intros Hcap Hfuel. destruct fuel as [|fuel]; [lia|].
  unfold fetch_via_library, fetch_via_library_with.
  cbn [capped_library connect while_true]. unfold library_body at 1.
  cbn [calls start_at all_issues initial app].
  change (search_issues (capped_library cap records) 0 0 100)
    with (Ok (map mk_issue (page records 0 (Z.min 100 cap)))).
  cbn [bind]. rewrite Z.min_r by lia.
  assert (Hlen : (len (map mk_issue (page records 0 cap)) <? 100) = true).
  { apply Z.ltb_lt. unfold len, page.
    rewrite length_map, length_firstn. lia. }
  rewrite Hlen. cbn [bind try_except_Exception].
  rewrite map_raw_mk_issue. reflexivity.
Qed.

Lemma fetch_via_library_truncates_under_page_cap_witness :
  fetch_via_library 4 (capped_library 2 three_issues)
  = Some (Ok (firstn 2 three_issues)).
Proof.
  apply (fetch_via_library_truncates_under_page_cap three_issues 2 4); lia.
Defined.

(** X9.  When the first REST answer has no [total], the default 0 ends
    the loop at once: [fetch_via_api] returns the issues of the first
    page and asks for no other. *)
Theorem fetch_via_api_without_total (src : api_source) (r : response)
  (d : list (pystr * value)) (issues : list value) (fuel : nat) :
  src 0%nat 0 100 = Ok r ->
  status_code r = 200 ->
  json r = Ok (VDict d) ->
  lookup (u "issues") d = Some (VList issues) ->
  lookup (u "total") d = None ->
  (1 <= fuel)%nat ->
  fetch_via_api fuel src = Some (Ok issues).
Proof.
  intros Hr Hs Hj Hi Ht Hfuel. destruct fuel as [|fuel]; [lia|].
  unfold fetch_via_api, fetch_via_api_with. cbn [while_true].
  unfold api_body. cbn [initial calls start_at all_issues].
  rewrite Hr. cbn [bind]. rewrite Hs, Hj. cbn [bind negb Z.eqb Pos.eqb].
  unfold py_get. rewrite Hi, Ht. cbn [bind py_extend py_len app].
  rewrite py_ge_int.
  assert (H0 : (0 <=? 0 + len issues) = true)
    by (apply Z.leb_le; unfold len; lia).
  rewrite H0. reflexivity.
Qed.

Lemma fetch_via_api_without_total_witness :
  fetch_via_api 1
    (fun _ _ _ =>
       Ok (mk_response 200 []
             (Ok (VDict [field "issues" (VList three_issues)]))))
  = Some (Ok three_issues).
Proof.
  eapply (fetch_via_api_without_total _ _ _ three_issues 1);
    reflexivity.
Defined.

Lemma except_Exception_exit {A : Type} (m : exc A) :
  (exists a, try_except_Exception m (fun _ => sys_exit 1) = Ok a)
  \/ (exists code,
         try_except_Exception m (fun _ => sys_exit 1)
         = Raise (SystemExit code)).
Proof.
  destruct m as [a|e]; [left; exists a; reflexivity|].
  right. destruct e; cbn; unfold sys_exit; eauto.
Qed.

Lemma fetch_returns_or_exits (fuel : nat) (method : fetch_method)
  (lib : library_source) (api : api_source) (r : exc (list value)) :
  fetch fuel method lib api = Some r ->
  (exists issues, r = Ok issues) \/ (exists code, r = Raise (SystemExit code)).
Proof.
  destruct method; cbn [fetch].
  - unfold fetch_via_library, fetch_via_library_with.
    destruct (connect lib) as [[]|e].
    + destruct (while_true _ fuel initial) as [l|]; [|discriminate].
      intros [= <-]. apply except_Exception_exit.
    + intros [= <-]. apply (except_Exception_exit (Raise e)).
  - unfold fetch_via_api, fetch_via_api_with.
    destruct (while_true _ fuel initial) as [l|]; [|discriminate].
    intros [= <-]. apply except_Exception_exit.
Qed.

(** X10.  Whatever the source does, a run of [main] that ends does so
    with the summary or with [sys.exit]: no exception of the fetch or of
    the normalization escapes it. *)
Theorem main_ends_with_summary_or_exit (fuel : nat) (method : fetch_method)
  (lib : library_source) (api : api_source)
  (output_formats : list output_format) (r : exc summary) :
  main fuel method lib api output_formats = Some r -> summary_or_exit r.
Proof.
  unfold main. fold (fetch fuel method lib api).
  destruct (fetch fuel method lib api) as [fetched|] eqn:E; [|discriminate].
  intros [= <-].
  destruct (fetch_returns_or_exits _ _ _ _ _ E) as [(issues & ->)|(c & ->)].
  - left. cbn [bind]. unfold process_issues. rewrite process_loop_spec.
    cbn [bind]. eauto.
  - right. cbn [bind]. eauto.
Qed.

Lemma main_ends_with_summary_or_exit_witness :
  summary_or_exit (sys_exit 1).
Proof.
  apply (main_ends_with_summary_or_exit 5 ViaApi (honest_library [])
           flaky_api [Csv]).
  vm_compute. reflexivity.
Defined.

(** X11.  In the summary the two counts differ by the number of issues
    whose normalization failed: the data rows reported are the issues
    fetched minus the failures reported, and never more than the issues
    fetched. *)
Theorem summary_counts_differ_by_failures (fuel : nat)
  (method : fetch_method) (lib : library_source) (api : api_source)
  (output_formats : list output_format) (issues : list value) :
  fetch fuel method lib api = Some (Ok issues) ->
  exists s,
    main fuel method lib api output_formats = Some (Ok s)
    /\ issues_processed s = len issues
    /\ issues_processed s - data_rows s = len (reported issues)
    /\ 0 <= data_rows s <= issues_processed s.
Proof.
  intros H.
  destruct (main_summary_counts fuel method lib api output_formats issues H)
    as (s & Hm & Hi & Hd & _).
  exists s. split; [exact Hm|]. split; [exact Hi|].
  rewrite Hi, Hd. pose proof (normalized_reported_length issues) as Hlen.
  unfold len. lia.
Qed.

Lemma summary_counts_differ_by_failures_witness :
  exists s,
    main 4 ViaApi (honest_library []) (honest_api three_issues) [Txt]
    = Some (Ok s)
    /\ issues_processed s = 3 /\ data_rows s = 2.
Proof.
  destruct (summary_counts_differ_by_failures 4 ViaApi (honest_library [])
              (honest_api three_issues) [Txt] three_issues)
    as (s & Hm & Hi & Hd & _).
  - vm_compute. reflexivity.
  - exists s. split; [exact Hm|]. split; [exact Hi|].
    rewrite Hi in Hd. change (len (reported three_issues)) with 1 in Hd.
    change (len three_issues) with 3 in Hd. lia.
Defined.

(** ** The prompts *)

Lemma str_in_In (x : pystr) (l : list pystr) :
  str_in x l = true <-> In x l.
Proof.
  unfold str_in. rewrite existsb_exists. split.
  - intros (y & Hy & E). apply str_eqb_eq in E. now subst.
  - intros H. exists x. split; [exact H|apply str_eqb_refl].
Qed.

Lemma split_on_not_nil (sep : N) (s : pystr) : split_on sep s <> [].
Proof.
  destruct s as [|c s]; cbn; [discriminate|].
  destruct (N.eqb c sep); [discriminate|].
  destruct (split_on sep s); discriminate.
Qed.

Section PromptFacts.
Variable isspace : N -> bool.
Variable lower : pystr -> pystr.
Variable list_of_set : list pystr -> list pystr.
Hypothesis list_of_set_spec :
  forall l, NoDup (list_of_set l) /\ (forall x, In x (list_of_set l) <-> In x l).

Lemma drop_space_suffix (s : pystr) :
  exists pre, s = pre ++ drop_space isspace s.
Proof.
  induction s as [|c s (pre & IH)]; cbn.
  - now exists [].
  - destruct (isspace c).
    + exists (c :: pre). cbn. now f_equal.
    + now exists [].
Qed.

Lemma drop_space_head (s : pystr) (c : N) (t : pystr) :
  drop_space isspace s = c :: t -> isspace c = false.
Proof.
  induction s as [|c' s IH]; cbn; [discriminate|].
  destruct (isspace c') eqn:E; [exact IH|].
  now intros [= <- _].
Qed.

Lemma strip_no_leading_space (s : pystr) (c : N) (t : pystr) :
  strip isspace s = c :: t -> isspace c = false.
Proof.
  unfold strip. intros H.
  destruct (drop_space_suffix (rev (drop_space isspace s))) as (pre & Hp).
  apply (f_equal (@rev N)) in Hp. rewrite rev_involutive, rev_app_distr in Hp.
  rewrite H in Hp. cbn in Hp. now apply drop_space_head in Hp.
Qed.

Lemma strip_no_trailing_space (s : pystr) (c : N) (t : pystr) :
  strip isspace s = t ++ [c] -> isspace c = false.
Proof.
  unfold strip. intros H. apply (f_equal (@rev N)) in H.
  rewrite rev_involutive, rev_app_distr in H. cbn in H.
  now apply drop_space_head in H.
Qed.

Lemma get_single_choice_trace (prompt : pystr) (options : list pystr)
  (stdin : list pystr) :
  forall stdout a rest out,
    get_single_choice isspace lower prompt options stdin stdout
    = Answered a rest out ->
    exists rejected line,
      stdin = rejected ++ line :: rest
      /\ Forall (fun l => single_choice_ok isspace lower options l = false)
           rejected
      /\ single_choice_ok isspace lower options line = true
      /\ a = lower (strip isspace line)
      /\ out = stdout
                 ++ flat_map (fun _ => [prompt; invalid_single options])
                      rejected
                 ++ [prompt].
Proof.
  induction stdin as [|line stdin IH]; intros stdout a rest out;
    cbn [get_single_choice]; [discriminate|].
  fold (single_choice_ok isspace lower options line).
  destruct (single_choice_ok isspace lower options line) eqn:E.
  - intros [= <- <- <-]. exists [], line. repeat split; auto.
  - intros H. destruct (IH _ _ _ _ H) as (rej & l & -> & Hr & Hl & Ha & ->).
    exists (line :: rej), l. repeat split; auto.
    cbn [flat_map app]. rewrite <- !app_assoc. reflexivity.
Qed.

Lemma get_single_choice_in_options (prompt : pystr) (options : list pystr)
  (stdin stdout : list pystr) (a : pystr) (rest out : list pystr) :
  get_single_choice isspace lower prompt options stdin stdout
  = Answered a rest out ->
  In a options /\ List.length a = 1%nat.
Proof.
  intros H.
  destruct (get_single_choice_trace _ _ _ _ _ _ _ H)
    as (rej & line & _ & _ & Hl & Ha & _).
  unfold single_choice_ok in Hl. apply andb_true_iff in Hl.
  destruct Hl as [Hlen Hin]. rewrite <- Ha in Hlen, Hin.
  split; [now apply str_in_In|now apply Nat.eqb_eq].
Qed.

Lemma methods_a_or_b (stdin stdout : list pystr) (a : pystr)
  (rest out : list pystr) :
  get_auth_method isspace lower stdin stdout = Answered a rest out
  \/ get_fetch_method isspace lower stdin stdout = Answered a rest out ->
  a = u "a" \/ a = u "b".
Proof.
  intros [H|H];
    apply get_single_choice_in_options in H;
    destruct H as (Hin & _); cbn in Hin; intuition.
Qed.

(** X12.  [get_single_choice] answers with the first line that, stripped
    and lowered, is one character long and one of the options, and with
    nothing else: every line before it was refused with one message, and
    the answer is always an option of length 1. *)
Theorem get_single_choice_answers_an_option (prompt : pystr)
  (options : list pystr) (stdin stdout : list pystr) (a : pystr)
  (rest out : list pystr) :
  get_single_choice isspace lower prompt options stdin stdout
  = Answered a rest out ->
  In a options
  /\ List.length a = 1%nat
  /\ exists rejected line,
       stdin = rejected ++ line :: rest
       /\ Forall (fun l => single_choice_ok isspace lower options l = false)
            rejected
       /\ a = lower (strip isspace line)
       /\ out = stdout
                  ++ flat_map (fun _ => [prompt; invalid_single options])
                       rejected
                  ++ [prompt].
Proof.
  intros H.
  destruct (get_single_choice_in_options _ _ _ _ _ _ _ H) as [Hin Hlen].
  destruct (get_single_choice_trace _ _ _ _ _ _ _ H)
    as (rej & line & Hs & Hr & Hl & Ha & Ho).
  split; [exact Hin|]. split; [exact Hlen|].
  exists rej, line. auto.
Qed.


Lemma ask_non_empty_trace (prompt : pystr) (stdin : list pystr) :
  forall stdout a rest out,
    ask_non_empty isspace prompt stdin stdout = Answered a rest out ->
    exists blank line,
      stdin = blank ++ line :: rest
      /\ Forall (fun l => strip isspace l = []) blank
      /\ a = strip isspace line
      /\ a <> []
      /\ out = stdout
                 ++ flat_map (fun _ => [prompt; must_not_be_empty]) blank
                 ++ [prompt].
Proof.
  induction stdin as [|line stdin IH]; intros stdout a rest out;
    cbn [ask_non_empty]; [discriminate|].
  destruct (strip isspace line) as [|c t] eqn:E.
  - intros H. destruct (IH _ _ _ _ H) as (bl & l & -> & Hb & Ha & Hn & ->).
    exists (line :: bl), l. repeat split; auto.
    cbn [flat_map app]. rewrite <- !app_assoc. reflexivity.
  - intros [= <- <- <-]. exists [], line. repeat split; auto.
    discriminate.
Qed.

(** X14.  The prompts for the query, the file prefix, the server, the
    user name and the password answer with the first line that is not
    blank, stripped: the answer is never empty and neither starts nor
    ends with white space; every blank line before it got the message
    that the input must not be empty. *)
Theorem ask_non_empty_answers_stripped_line (prompt : pystr)
  (stdin stdout : list pystr) (a : pystr) (rest out : list pystr) :
  ask_non_empty isspace prompt stdin stdout = Answered a rest out ->
  a <> []
  /\ (forall c t, a = c :: t -> isspace c = false)
  /\ (forall c t, a = t ++ [c] -> isspace c = false)
  /\ exists blank line,
       stdin = blank ++ line :: rest
       /\ Forall (fun l => strip isspace l = []) blank
       /\ a = strip isspace line
       /\ out = stdout
                  ++ flat_map (fun _ => [prompt; must_not_be_empty]) blank
                  ++ [prompt].
Proof.
  intros H.
  destruct (ask_non_empty_trace _ _ _ _ _ _ H)
    as (bl & line & Hs & Hb & Ha & Hn & Ho).
  split; [exact Hn|]. split; [|split].
  - intros c t Hc. rewrite Ha in Hc.
    now apply strip_no_leading_space in Hc.
  - intros c t Hc. rewrite Ha in Hc.
    now apply strip_no_trailing_space in Hc.
  - exists bl, line. auto.
Qed.

Lemma get_multi_choice_selection (prompt : pystr) (options : list pystr)
  (stdin : list pystr) :
  forall stdout sel rest out,
    get_multi_choice isspace lower list_of_set prompt options stdin stdout
    = Answered sel rest out ->
    exists skipped line,
      stdin = skipped ++ line :: rest
      /\ sel = list_of_set
                 (selections_of isspace
                    (replace_wide_comma (lower (strip isspace line))))
      /\ Forall (fun c => In c options)
           (selections_of isspace
              (replace_wide_comma (lower (strip isspace line))))
      /\ (List.length out
          <= List.length stdout + 2 * List.length skipped + 1)%nat.
Proof.
  induction stdin as [|line stdin IH]; intros stdout sel rest out;
    cbn [get_multi_choice]; [discriminate|].
  destruct (replace_wide_comma (lower (strip isspace line)))
    as [|c t] eqn:E.
  - intros H. destruct (IH _ _ _ _ H) as (sk & l & -> & Hsel & Hall & Hlen).
    exists (line :: sk), l. repeat split; auto.
    rewrite length_app in Hlen. cbn [List.length] in *. lia.
  - destruct (forallb _ _) eqn:F.
    + intros [= <- <- <-]. exists [], line. rewrite E.
      repeat split; auto.
      * apply Forall_forall. intros x Hx.
        rewrite forallb_forall in F. now apply str_in_In, F.
      * rewrite length_app. cbn. lia.
    + intros H. destruct (IH _ _ _ _ H) as (sk & l & -> & Hsel & Hall & Hlen).
      exists (line :: sk), l. repeat split; auto.
      rewrite !length_app in Hlen. cbn [List.length] in *. lia.
Qed.

Lemma get_multi_choice_trace (prompt : pystr) (options : list pystr)
  (stdin : list pystr) :
  forall stdout sel rest out,
    get_multi_choice isspace lower list_of_set prompt options stdin stdout
    = Answered sel rest out ->
    exists skipped line,
      stdin = skipped ++ line :: rest
      /\ Forall (fun l => multi_choice_ok isspace lower options l = false)
           skipped
      /\ multi_choice_ok isspace lower options line = true
      /\ sel = list_of_set
                 (selections_of isspace
                    (replace_wide_comma (lower (strip isspace line))))
      /\ out = stdout
                 ++ flat_map (multi_choice_echo isspace lower prompt options)
                      skipped
                 ++ [prompt].
Proof.
  induction stdin as [|line stdin IH]; intros stdout sel rest out;
    cbn [get_multi_choice]; [discriminate|].
  destruct (replace_wide_comma (lower (strip isspace line)))
    as [|c t] eqn:E.
  - intros H. destruct (IH _ _ _ _ H) as (sk & l & -> & Hsk & Hl & Hsel & ->).
    exists (line :: sk), l. split; [reflexivity|].
    split; [constructor; [unfold multi_choice_ok; now rewrite E|exact Hsk]|].
    split; [exact Hl|]. split; [exact Hsel|].
    cbn [flat_map]. unfold multi_choice_echo at 2. rewrite E.
    rewrite <- !app_assoc. reflexivity.
  - destruct (forallb _ _) eqn:F.
    + intros [= <- <- <-]. exists [], line.
      split; [reflexivity|]. split; [constructor|].
      split; [unfold multi_choice_ok; rewrite E; exact F|].
      rewrite E. split; reflexivity.
    + intros H.
      destruct (IH _ _ _ _ H) as (sk & l & -> & Hsk & Hl & Hsel & ->).
      exists (line :: sk), l. split; [reflexivity|].
      split; [constructor; [unfold multi_choice_ok; now rewrite E|exact Hsk]|].
      split; [exact Hl|]. split; [exact Hsel|].
      cbn [flat_map]. unfold multi_choice_echo at 2. rewrite E.
      rewrite <- !app_assoc. reflexivity.
Qed.

Lemma get_multi_choice_valid (prompt : pystr)
  (options : list pystr) (stdin stdout : list pystr) (sel : list pystr)
  (rest out : list pystr) :
  get_multi_choice isspace lower list_of_set prompt options stdin stdout
  = Answered sel rest out ->
  sel <> [] /\ NoDup sel /\ Forall (fun c => In c options) sel.
Proof.
  intros H.
  destruct (get_multi_choice_selection _ _ _ _ _ _ _ H)
    as (sk & line & _ & -> & Hall & _).
  destruct (list_of_set_spec
              (selections_of isspace
                 (replace_wide_comma (lower (strip isspace line)))))
    as [Hnd Hin].
  split; [|split].
  - unfold selections_of in *.
    destruct (split_on comma
                (replace_wide_comma (lower (strip isspace line))))
      as [|x xs] eqn:E; [now apply split_on_not_nil in E|].
    intros Hnil.
    assert (Hx : In (strip isspace x)
                   (list_of_set (map (strip isspace) (x :: xs))))
      by (apply Hin; left; reflexivity).
    rewrite Hnil in Hx. exact Hx.
  - exact Hnd.
  - apply Forall_forall. intros x Hx. apply Hin in Hx.
    rewrite Forall_forall in Hall. now apply Hall.
Qed.

(** X15.  [get_multi_choice] answers with a list that is not empty, has
    no duplicate and holds options only, whatever is typed: the distinct
    comma-separated items of the first line that is not blank and names
    options only.  Every line before it is blank or names something that
    is not an option; the prompt is printed once for each line read, and
    the message once for each line passed over that is not blank. *)
Theorem get_multi_choice_answers_options (prompt : pystr)
  (options : list pystr) (stdin stdout : list pystr) (sel : list pystr)
  (rest out : list pystr) :
  get_multi_choice isspace lower list_of_set prompt options stdin stdout
  = Answered sel rest out ->
  sel <> [] /\ NoDup sel /\ Forall (fun c => In c options) sel
  /\ exists skipped line,
       stdin = skipped ++ line :: rest
       /\ Forall (fun l => multi_choice_ok isspace lower options l = false)
            skipped
       /\ multi_choice_ok isspace lower options line = true
       /\ sel = list_of_set
                  (selections_of isspace
                     (replace_wide_comma (lower (strip isspace line))))
       /\ out = stdout
                  ++ flat_map (multi_choice_echo isspace lower prompt options)
                       skipped
                  ++ [prompt]
       /\ (List.length out
           <= List.length stdout + 2 * List.length skipped + 1)%nat.
Proof.
  intros H.
  destruct (get_multi_choice_valid _ _ _ _ _ _ _ H) as (Hne & Hnd & Hin).
  destruct (get_multi_choice_selection _ _ _ _ _ _ _ H)
    as (sk' & line' & Hs' & _ & _ & Hlen).
  destruct (get_multi_choice_trace _ _ _ _ _ _ _ H)
    as (sk & line & Hs & Hsk & Hl & Hsel & Hout).
  split; [exact Hne|]. split; [exact Hnd|]. split; [exact Hin|].
  exists sk, line.
  assert (List.length sk' = List.length sk) as Hsame.
  { apply (f_equal (@List.length _)) in Hs, Hs'.
    rewrite length_app in Hs, Hs'. cbn [List.length] in Hs, Hs'. lia. }
  rewrite <- Hsame. auto 10.
Qed.
End PromptFacts.

Lemma distinct_spec (l : list pystr) :
  NoDup (distinct l) /\ (forall x, In x (distinct l) <-> In x l).
Proof.
  split; [apply NoDup_nodup|]. intros x. apply nodup_In.
Qed.

Lemma get_single_choice_answers_an_option_witness :
  In (u "b") [u "a"; u "b"] /\ List.length (u "b") = 1%nat.
Proof.
  destruct (get_single_choice_answers_an_option ascii_space ascii_lower
              (u "? ") [u "a"; u "b"] [u "ab"; u " B "] []
              (u "b") []
              [u "? "; invalid_single [u "a"; u "b"]; u "? "])
    as (H1 & H2 & _).
  - vm_compute. reflexivity.
  - split; assumption.
Defined.


Lemma ask_non_empty_answers_stripped_line_witness :
  u "project = X" <> [].
Proof.
  destruct (ask_non_empty_answers_stripped_line ascii_space (u "? ")
              [u "  "; u " project = X "] [] (u "project = X") []
              [u "? "; must_not_be_empty; u "? "])
    as (H & _).
  - vm_compute. reflexivity.
  - exact H.
Defined.

(** A blank line and a line naming [d] are passed over; the third line
    is answered. *)
Lemma get_multi_choice_answers_options_witness :
  NoDup [u "a"; u "b"]
  /\ Forall (fun l => multi_choice_ok ascii_space ascii_lower
                        [u "a"; u "b"; u "c"] l = false)
       [[]; u "a,d"].
Proof.
  destruct (get_multi_choice_answers_options ascii_space ascii_lower
              distinct distinct_spec (u "? ") [u "a"; u "b"; u "c"]
              [[]; u "a,d"; u "B, a ,b"] []
              [u "a"; u "b"] []
              [u "? "; u "? "; invalid_multi [u "a"; u "b"; u "c"]; u "? "])
    as (_ & H & _ & sk & line & Hs & Hsk & _).
  - vm_compute. reflexivity.
  - split; [exact H|].
    assert (E : sk = [[]; u "a,d"] /\ line = u "B, a ,b").
    { destruct sk as [|x [|y [|z sk]]]; try discriminate Hs.
      - now injection Hs as <- <- <-.
      - injection Hs as _ _ _ Hs. destruct sk; discriminate Hs. }
    destruct E as [-> _]. exact Hsk.
Defined.

(** ** The export loop *)

Lemma format_mapping_of_option (fmt : pystr) :
  In fmt [u "a"; u "b"; u "c"] ->
  exists ext g, format_mapping fmt = Ok (ext, g).
Proof.
  intros [<-|[<-|[<-|[]]]]; eexists; eexists; reflexivity.
Qed.

Section ExportFacts.
Variable write : pystr -> artifact -> exc unit.
Variable exn_str : exn -> pystr.
Variable upper : pystr -> pystr.
Hypothesis write_raises : raises_only_Exception write.

Lemma export_one_line (output_base : pystr) (processed_data : list Issue.t)
  (ext : pystr) (g : output_format) :
  export_one write exn_str upper output_base processed_data ext g
  = Ok (reported_line write exn_str upper output_base processed_data ext g).
Proof.
  unfold export_one, reported_line.
  destruct (write _ _) as [[]|e] eqn:E; cbn; [reflexivity|].
  now rewrite (write_raises _ _ _ E).
Qed.

Lemma export_loop_lines (output_base : pystr)
  (processed_data : list Issue.t) (formats : list pystr) :
  Forall (fun fmt => In fmt [u "a"; u "b"; u "c"]) formats ->
  forall stdout,
  exists lines,
    export_loop write exn_str upper output_base processed_data formats stdout
    = Ok (stdout ++ lines)
    /\ Forall2
         (fun fmt line =>
            exists ext g,
              format_mapping fmt = Ok (ext, g)
              /\ line = reported_line write exn_str upper output_base
                          processed_data ext g)
         formats lines.
Proof.
  induction formats as [|fmt rest IH]; intros Hall stdout.
  - exists []. cbn. rewrite app_nil_r. split; constructor.
  - inversion_clear Hall as [|? ? Hfmt Hrest].
    destruct (format_mapping_of_option fmt Hfmt) as (ext & g & Hm).
    cbn [export_loop]. rewrite Hm. cbn [bind fst snd].
    rewrite export_one_line. cbn [bind].
    destruct (IH Hrest (stdout ++ [reported_line write exn_str upper
                                     output_base processed_data ext g]))
      as (lines & -> & Hl).
    eexists (_ :: lines). rewrite <- app_assoc. split; [reflexivity|].
    constructor; [|exact Hl]. eauto.
Qed.

(** X16.  The export loop writes every requested format, in order, and a
    writer that fails stops none of the others: for formats among [a],
    [b], [c] the loop never raises and prints one line for each format,
    the success line or the failure line of that format.  A format
    outside the table raises [KeyError]. *)
Theorem export_loop_isolates_failures (output_base : pystr)
  (processed_data : list Issue.t) (formats : list pystr) :
  (Forall (fun fmt => In fmt [u "a"; u "b"; u "c"]) formats ->
   forall stdout,
   exists lines,
     export_loop write exn_str upper output_base processed_data formats stdout
     = Ok (stdout ++ lines)
     /\ Forall2
          (fun fmt line =>
             exists ext g,
               format_mapping fmt = Ok (ext, g)
               /\ line = reported_line write exn_str upper output_base
                           processed_data ext g)
          formats lines)
  /\ (forall fmt rest stdout,
         ~ In fmt [u "a"; u "b"; u "c"] ->
         export_loop write exn_str upper output_base processed_data
           (fmt :: rest) stdout
         = Raise KeyError).
Proof.
  split; [apply export_loop_lines|].
  - intros fmt rest stdout Hn. cbn [export_loop]. unfold format_mapping.
    destruct (str_eqb fmt (u "a")) eqn:Ea;
      [apply str_eqb_eq in Ea; subst; cbn in Hn; tauto|].
    destruct (str_eqb fmt (u "b")) eqn:Eb;
      [apply str_eqb_eq in Eb; subst; cbn in Hn; tauto|].
    destruct (str_eqb fmt (u "c")) eqn:Ec;
      [apply str_eqb_eq in Ec; subst; cbn in Hn; tauto|].
    reflexivity.
Qed.
End ExportFacts.

Lemma no_excel_writer_raises : raises_only_Exception no_excel_writer.
Proof.
  intros filename art e. unfold no_excel_writer.
  destruct art as [[| |] rows|items]; try discriminate.
  now intros [= <-].
Qed.

Lemma export_loop_isolates_failures_witness :
  export_loop no_excel_writer exn_name ascii_upper (u "out") []
    [u "b"; u "c"] []
  = Ok [u "✗ 生成XLSX文件失败: No module named 'openpyxl'";
        u "✓ 已生成 out.txt"].
Proof.
  destruct (proj1 (export_loop_isolates_failures no_excel_writer exn_name
                     ascii_upper no_excel_writer_raises (u "out") []
                     [u "b"; u "c"]))
    with (stdout := @nil pystr) as (lines & H & _).
  - repeat constructor; cbn; tauto.
  - rewrite H. vm_compute in H. injection H as <-. reflexivity.
Defined.

(** ** The configuration read by [main] *)

Ltac then_ask_inv H :=
  repeat match type of H with
         | then_ask ?m _ = Answered _ _ _ =>
             let E := fresh "E" in
             destruct m eqn:E; cbn [then_ask] in H; [|discriminate H]
         end.

Section ReadConfigFacts.
Variable isspace : N -> bool.
Variable lower : pystr -> pystr.
Variable list_of_set : list pystr -> list pystr.
Hypothesis list_of_set_spec :
  forall l, NoDup (list_of_set l) /\ (forall x, In x (list_of_set l) <-> In x l).

(** X17.  A configuration read from the terminal is valid for the rest
    of [main]: both methods are ["a"] or ["b"], the query, the prefix,
    the server, the user name and the password are not empty, and the
    formats are a non-empty duplicate-free list of keys of the format
    table, so that the export loop run on them never raises and prints
    one line for each. *)
Theorem read_config_is_valid (stdin stdout : list pystr) (cfg : config)
  (rest out : list pystr) :
  read_config isspace lower list_of_set stdin stdout = Answered cfg rest out ->
  (auth_method cfg = u "a" \/ auth_method cfg = u "b")
  /\ (chosen_fetch_method cfg = u "a" \/ chosen_fetch_method cfg = u "b")
  /\ jql cfg <> [] /\ output_base cfg <> [] /\ jira_server cfg <> []
  /\ username cfg <> [] /\ password cfg <> []
  /\ output_formats cfg <> [] /\ NoDup (output_formats cfg)
  /\ Forall (fun fmt => In fmt [u "a"; u "b"; u "c"]) (output_formats cfg)
  /\ (forall write exn_str upper processed_data,
         raises_only_Exception write ->
         exists lines,
           export_loop write exn_str upper (output_base cfg) processed_data
             (output_formats cfg) out
           = Ok (out ++ lines)
           /\ List.length lines = List.length (output_formats cfg)).
Proof.
  unfold read_config. intros H. then_ask_inv H. injection H as <- <- <-.
  cbn [auth_method chosen_fetch_method jql output_base jira_server username
       password output_formats].
  pose proof (methods_a_or_b isspace lower _ _ _ _ _ (or_introl E))
    as Hauth.
  pose proof (methods_a_or_b isspace lower _ _ _ _ _ (or_intror E0))
    as Hfetch.
  destruct (ask_non_empty_trace isspace _ _ _ _ _ _ E1)
    as (? & ? & _ & _ & _ & Hjql & _).
  pose proof (get_multi_choice_valid isspace lower list_of_set
                list_of_set_spec _ _ _ _ _ _ _ E2) as (Hne & Hnd & Hin).
  destruct (ask_non_empty_trace isspace _ _ _ _ _ _ E3)
    as (? & ? & _ & _ & _ & Hbase & _).
  destruct (ask_non_empty_trace isspace _ _ _ _ _ _ E4)
    as (? & ? & _ & _ & _ & Hserver & _).
  destruct (ask_non_empty_trace isspace _ _ _ _ _ _ E5)
    as (? & ? & _ & _ & _ & Huser & _).
  destruct (ask_non_empty_trace isspace _ _ _ _ _ _ E6)
    as (? & ? & _ & _ & _ & Hpass & _).
  split; [exact Hauth|]. split; [exact Hfetch|]. split; [exact Hjql|].
  split; [exact Hbase|]. split; [exact Hserver|]. split; [exact Huser|].
  split; [exact Hpass|]. split; [exact Hne|]. split; [exact Hnd|].
  split; [exact Hin|].
  intros write exn_str upper processed_data Hw.
  destruct (export_loop_lines write exn_str upper Hw a3 processed_data a2
              Hin stdout7)
    as (lines & Hl & Hf2).
  exists lines. split; [exact Hl|]. symmetry.
  exact (Forall2_length Hf2).
Qed.
End ReadConfigFacts.

Lemma read_config_is_valid_witness :
  NoDup [u "a"; u "c"] /\ (u "b" = u "a" \/ u "b" = u "b").
Proof.
  destruct (read_config_is_valid ascii_space ascii_lower distinct
              distinct_spec sample_session [] sample_config []
              sample_session_output eq_refl)
    as (_ & Hfetch & _ & _ & _ & _ & _ & _ & Hnd & _).
  split; [exact Hnd|exact Hfetch].
Defined.

(** ** generate_txt *)

Section GenerateTxtFacts.
Variable py_str : value -> pystr.

Lemma write_field_app (f : pystr) (label : string) (v : value) :
  write_field py_str f label v = f ++ write_field py_str [] label v.
Proof. reflexivity. Qed.

Lemma write_comments_entries (comments : list Comment.t) :
  forall idx f,
    write_comments py_str idx comments f
    = f ++ concat (map (fun ic => txt_entry py_str (fst ic) (snd ic))
                     (combine (seq idx (List.length comments)) comments)).
Proof.
  induction comments as [|c cs IH]; intros idx f; cbn [write_comments].
  - cbn. now rewrite app_nil_r.
  - rewrite IH. cbn [List.length seq combine map concat fst snd].
    unfold txt_entry. rewrite <- !app_assoc. reflexivity.
Qed.

Lemma txt_loop_blocks (data : list Issue.t) :
  forall f,
    txt_loop py_str data f = f ++ concat (map (txt_block py_str) data).
Proof.
  induction data as [|item rest IH]; intros f; cbn [txt_loop map concat].
  - now rewrite app_nil_r.
  - rewrite IH. unfold txt_block, txt_header, write_field.
    destruct (Issue.comment_data item) as [|c cs] eqn:E.
    + rewrite <- !app_assoc. reflexivity.
    + rewrite write_comments_entries. rewrite <- !app_assoc. reflexivity.
Qed.

(** X18.  The text file holds one block for each canonical record, in
    the order of the input: the separator line, the ten field lines,
    the line [all comment] and then either the line saying that the
    issue has no comment or one line for each comment, numbered from 1
    in comment order.  The file of two lists put end to end is the file
    of the first followed by the file of the second. *)
Theorem generate_txt_blocks (data : list Issue.t) :
  generate_txt py_str data = concat (map (txt_block py_str) data)
  /\ (forall more,
         generate_txt py_str (data ++ more)
         = generate_txt py_str data ++ generate_txt py_str more).
Proof.
  assert (H : forall d, generate_txt py_str d
                        = concat (map (txt_block py_str) d))
    by (intros d; apply (txt_loop_blocks d [])).
  split; [apply H|].
  intros more. rewrite !H, map_app, concat_app. reflexivity.
Qed.
End GenerateTxtFacts.

(** ** From raw issues to rows *)

Lemma comments_of_length (comments : value) :
  List.length (comments_of comments)
  = match comments with
    | VList l => List.length l
    | _ => 0%nat
    end.
Proof. destruct comments; try reflexivity. apply length_map. Qed.

(** X19.  The number of rows of the table is read off the raw issues:
    each issue that normalizes gives as many rows as its raw comment
    list has elements, and one row when it has none or is not a list; an
    issue that fails gives no row. *)
Theorem rows_from_raw_issues (issues : list value) :
  List.length (format_dataframe (normalized issues))
  = list_sum (map rows_of_raw issues).
Proof.
  rewrite format_dataframe_length.
  induction issues as [|issue rest IH]; [reflexivity|].
  unfold normalized in *. cbn [flat_map map list_sum].
  rewrite map_app, list_sum_app, IH. f_equal.
  unfold rows_of_raw, raw_comment_count.
  destruct (process_issue issue) as [item|e] eqn:E; [|reflexivity].
  cbn [map]. unfold list_sum. cbn [fold_right]. rewrite Nat.add_0_r.
  f_equal. unfold comment_count.
  destruct (process_issue_is_dict _ _ E) as [d ->].
  destruct (process_issue_dict d item E) as (_ & _ & -> & _).
  now rewrite comments_of_length.
Qed.
